(** * pychromecast: the discovery registry and its query sessions

    A shallow embedding of [pychromecast/discovery.py] (the [CastListener]
    registry, [stop_discovery], [discover_listed_chromecasts]) and of the
    discovery entry points of [pychromecast/__init__.py]
    ([get_listed_chromecasts], [get_chromecasts]).

    Conventions of the embedding:
    - a Python [dict] is an insertion-ordered association list with unique
      keys ([PyDict]): [remove_service] scans [self.services.items()] in
      insertion order and stops at the first hit, so the order is kept;
    - a Python [set] of announcement names is a [gset string]; the
      registry holds its tuples by value, and where a session keeps a
      registry tuple ([discover_listed_chromecasts]) the sharing of the
      mutable name set between that tuple and the registry is tracked
      explicitly ([Listing], [aliased]);
    - calls that leave the module (zeroconf queries, listener callbacks,
      browser and client handles) are logged in a trace of effects;
    - a raised exception is an explicit [Raise e] outcome. *)

From Stdlib Require Import ZArith.
From stdpp Require Import base option list strings gmap.

Open Scope Z_scope.
Open Scope nat_scope.

(** ** Python runtime: exceptions and results *)

(** The exception classes the two modules raise, catch or let through.
    [OtherError] stands for any class that none of the [except] clauses of
    the modelled code names. *)
Inductive exn :=
| IOError
| RuntimeError
| ValueError
| KeyError
| UnicodeDecodeError
| ChromecastConnectionError
| OtherError (cls : string).

Inductive result (A : Type) :=
| Ret (a : A)
| Raise (e : exn).
Arguments Ret {A} a.
Arguments Raise {A} e.

Definition exn_eqb (a b : exn) : bool :=
  match a, b with
  | IOError, IOError
  | RuntimeError, RuntimeError
  | ValueError, ValueError
  | KeyError, KeyError
  | UnicodeDecodeError, UnicodeDecodeError
  | ChromecastConnectionError, ChromecastConnectionError => true
  | OtherError c, OtherError d => bool_decide (c = d)
  | _, _ => false
  end.

(** What the standard library supplies and this repository only calls:
    the [uuid.UUID] class ([UUID_of_hex s = None] is the [ValueError] of a
    badly formed string) and [bytes.decode("utf-8")] ([None] is the
    [UnicodeDecodeError]). *)
Class Runtime (UUID : Type) := {
  UUID_eq_dec :: EqDecision UUID;
  UUID_of_hex : string → option UUID;
  bytes_decode : list Byte.byte → option string
}.

(** ** Python dictionaries, in insertion order *)

Section PyDict.
Context {K V : Type} `{!EqDecision K}.

Definition PyDict := list (K * V).

(** [d.get(k)] *)
Fixpoint dict_get (k : K) (d : list (K * V)) : option V :=
  match d with
  | [] => None
  | (k', v) :: d' => if decide (k = k') then Some v else dict_get k d'
  end.

(** [d[k] = v]: an existing key keeps its position, a new key goes last. *)
Fixpoint dict_set (k : K) (v : V) (d : list (K * V)) : list (K * V) :=
  match d with
  | [] => [(k, v)]
  | (k', v') :: d' =>
      if decide (k = k') then (k, v) :: d' else (k', v') :: dict_set k v d'
  end.

(** [d.pop(k)] for a key that is present (the popped value is not used). *)
Fixpoint dict_pop (k : K) (d : list (K * V)) : list (K * V) :=
  match d with
  | [] => []
  | (k', v') :: d' =>
      if decide (k = k') then d' else (k', v') :: dict_pop k d'
  end.

(** [d.setdefault(k, v)]: the value now stored under [k], and the dict. *)
Definition dict_setdefault (k : K) (v : V) (d : list (K * V))
  : V * list (K * V) :=
  match dict_get k d with
  | Some v' => (v', d)
  | None => (v, dict_set k v d)
  end.

(** [k in d] *)
Definition dict_mem (k : K) (d : list (K * V)) : bool :=
  match dict_get k d with Some _ => true | None => false end.

(** [d.keys()], [d.values()] *)
Definition dict_keys (d : list (K * V)) : list K := d.*1.
Definition dict_values (d : list (K * V)) : list V := d.*2.

End PyDict.

(** ** Python lists used as criteria collections *)

Section PyList.
Context {A : Type} `{!EqDecision A}.

(** [x in l] *)
Definition list_mem (x : A) (l : list A) : bool := bool_decide (x ∈ l).

(** [l.remove(x)]: drops the first occurrence (called only when [x in l]). *)
Fixpoint list_remove (x : A) (l : list A) : list A :=
  match l with
  | [] => []
  | y :: l' => if decide (x = y) then l' else y :: list_remove x l'
  end.

(** Truth value of an optional collection: [None] and the empty collection
    are false. *)
Definition truthy (o : option (list A)) : bool :=
  match o with
  | Some (_ :: _) => true
  | _ => false
  end.

End PyList.

(** ** zeroconf's side of the interface *)

(** A value of [ServiceInfo.properties]: text already, or raw bytes. *)
Inductive PropValue :=
| PStr (s : string)
| PBytes (b : list Byte.byte).

(** The fields of [zeroconf.ServiceInfo] that the listener reads. The keys
    of [properties] are the byte strings [key.encode("utf-8")]; they are
    kept as the text they encode. *)
Record ServiceInfo := {
  properties : gmap string PropValue;
  parsed_addresses : list string;
  server : string;
  port : Z
}.

(** One answer of [zconf.get_service_info(typ, name)]. *)
Inductive Reply :=
| Answer (service : option ServiceInfo)
| Fails (e : exn).

(** The client as one listener call sees it: the answer to its k-th query. *)
Definition Zeroconf := nat → Reply.

Section Registry.
Context {UUID : Type} `{!Runtime UUID} {CB : Type}.

(** ** The registry, [CastListener] *)

(** The tuples stored in [CastListener.services]. [setdefault] is given a
    4-tuple, line 109 stores a 6-tuple. *)
Inductive Service :=
| Service4 (names : gset string) (uuid : UUID)
    (model_name friendly_name : option string)
| Service6 (names : gset string) (uuid : UUID)
    (model_name friendly_name : option string) (host : string) (port : Z).

(** [service[0]], [service[1]], [service[2]], [service[3]] *)
Definition item0 (s : Service) : gset string :=
  match s with
  | Service4 n _ _ _ | Service6 n _ _ _ _ _ => n
  end.
Definition item1 (s : Service) : UUID :=
  match s with
  | Service4 _ u _ _ | Service6 _ u _ _ _ _ => u
  end.
Definition item2 (s : Service) : option string :=
  match s with
  | Service4 _ _ m _ | Service6 _ _ m _ _ _ => m
  end.
Definition item3 (s : Service) : option string :=
  match s with
  | Service4 _ _ _ f | Service6 _ _ _ f _ _ => f
  end.

(** The tuple [s] once its name set, a shared mutable object, holds [n]. *)
Definition with_names (n : gset string) (s : Service) : Service :=
  match s with
  | Service4 _ u m f => Service4 n u m f
  | Service6 _ u m f h p => Service6 n u m f h p
  end.

(** Calls that leave the listener, in the order they are made. *)
Inductive Effect :=
| GetServiceInfo (typ name : string)
| Callback2 (cb : CB) (uuid : UUID) (name : string)
| Callback3 (cb : CB) (uuid : UUID) (name : string) (service : Service).

Record CastListener := {
  services : list (UUID * Service);
  add_callback : option CB;
  remove_callback : option CB;
  update_callback : option CB
}.

(** [CastListener(add_callback, remove_callback, update_callback)] *)
Definition CastListener_init (add remove update : option CB) : CastListener :=
  {| services := [];
     add_callback := add;
     remove_callback := remove;
     update_callback := update |}.

Definition set_services (d : list (UUID * Service)) (l : CastListener)
  : CastListener :=
  {| services := d;
     add_callback := add_callback l;
     remove_callback := remove_callback l;
     update_callback := update_callback l |}.

(** [count] and [devices] *)
Definition count (l : CastListener) : nat := length (services l).
Definition devices (l : CastListener) : list Service :=
  dict_values (services l).

(** What a listener method leaves behind: the listener, the calls it made,
    and the exception that one of its own statements raised, if any. The
    callbacks are opaque calls of the trace: what they raise is theirs. *)
Record Outcome := {
  listener : CastListener;
  trace : list Effect;
  raised : option exn
}.

Definition invoke2 (callback : option CB) (uuid : UUID) (name : string)
  : list Effect :=
  match callback with
  | Some cb => [Callback2 cb uuid name]
  | None => []
  end.

Definition invoke3 (callback : option CB) (uuid : UUID) (name : string)
    (service : Service) : list Effect :=
  match callback with
  | Some cb => [Callback3 cb uuid name service]
  | None => []
  end.

(** The [for] loop of [remove_service], lines 40-47: the first item whose
    name set holds [name]. *)
Fixpoint find_service (name : string) (items : list (UUID * Service))
  : option (UUID * Service) :=
  match items with
  | [] => None
  | (uuid, services_for_uuid) :: rest =>
      if decide (name ∈ item0 services_for_uuid)
      then Some (uuid, services_for_uuid)
      else find_service name rest
  end.

(** [remove_service]. The name set is mutated in place, so the tuple bound
    to [service] (and handed to the remove callback) reads with the name
    already taken out. *)
Definition remove_service (typ name : string) (l : CastListener) : Outcome :=
  match find_service name (services l) with
  | None => {| listener := l; trace := []; raised := None |}
  | Some (uuid, services_for_uuid) =>
      let service := with_names (item0 services_for_uuid ∖ {[name]})
                                services_for_uuid in
      if decide (size (item0 service) = 0)
      then {| listener := set_services (dict_pop uuid (services l)) l;
              trace := invoke3 (remove_callback l) uuid name service;
              raised := None |}
      else {| listener := set_services (dict_set uuid service (services l)) l;
              trace := invoke2 (update_callback l) uuid name;
              raised := None |}
  end.

(** The [while] loop of lines 72-79, by the number of iterations that
    [tries < 4] still allows. Returns the service (or the exception that
    escapes) and how many queries were sent. An [IOError] leaves the loop. *)
Fixpoint query_loop (zconf : Zeroconf) (left sent : nat)
  : result (option ServiceInfo) * nat :=
  match left with
  | 0 => (Ret None, sent)
  | S left' =>
      match zconf sent with
      | Fails e =>
          if exn_eqb e IOError then (Ret None, S sent) else (Raise e, S sent)
      | Answer (Some service) => (Ret (Some service), S sent)
      | Answer None => query_loop zconf left' (S sent)
      end
  end.

(** [get_value(key)], lines 85-91 *)
Definition get_value (service : ServiceInfo) (key : string)
  : result (option string) :=
  match properties service !! key with
  | None => Ret None
  | Some (PStr s) => Ret (Some s)
  | Some (PBytes b) =>
      match bytes_decode b with
      | Some s => Ret (Some s)
      | None => Raise UnicodeDecodeError
      end
  end.

(** What lines 93-103 extract from a resolved service. *)
Record Resolved := {
  r_uuid : UUID;
  r_model_name : option string;
  r_friendly_name : option string;
  r_host : string;
  r_port : Z
}.

(** Lines 93-103: [None] when the announcement has no usable [id]. *)
Definition read_service (service : ServiceInfo) : result (option Resolved) :=
  let addresses := parsed_addresses service in
  let host := match addresses with a :: _ => a | [] => server service end in
  match get_value service "md" with
  | Raise e => Raise e
  | Ret model_name =>
  match get_value service "id" with
  | Raise e => Raise e
  | Ret uuid =>
  match get_value service "fn" with
  | Raise e => Raise e
  | Ret friendly_name =>
  match uuid with
  | None | Some "" => Ret None
  | Some hex =>
      match UUID_of_hex hex with
      | None => Raise ValueError
      | Some uuid =>
          Ret (Some {| r_uuid := uuid;
                       r_model_name := model_name;
                       r_friendly_name := friendly_name;
                       r_host := host;
                       r_port := port service |})
      end
  end end end end.

Definition queries (typ name : string) (n : nat) : list Effect :=
  replicate n (GetServiceInfo typ name).

(** Lines 105-116: merge the announcement into the registry. *)
Definition merge_service (name : string) (r : Resolved)
    (d : list (UUID * Service)) : list (UUID * Service) :=
  let uuid := r_uuid r in
  let '(services_for_uuid, d1) :=
    dict_setdefault uuid
      (Service4 {[name]} uuid (r_model_name r) (r_friendly_name r)) d in
  let names := item0 services_for_uuid ∪ {[name]} in
  dict_set uuid
    (Service6 names (item1 services_for_uuid)
       (r_model_name r) (r_friendly_name r) (r_host r) (r_port r))
    d1.

(** [_add_update_service] *)
Definition _add_update_service (zconf : Zeroconf) (typ name : string)
    (callback : option CB) (l : CastListener) : Outcome :=
  let '(service, sent) := query_loop zconf 4 0 in
  match service with
  | Raise e =>
      {| listener := l; trace := queries typ name sent; raised := Some e |}
  | Ret None =>
      {| listener := l; trace := queries typ name sent; raised := None |}
  | Ret (Some service) =>
      match read_service service with
      | Raise e =>
          {| listener := l; trace := queries typ name sent; raised := Some e |}
      | Ret None =>
          {| listener := l; trace := queries typ name sent; raised := None |}
      | Ret (Some r) =>
          {| listener := set_services (merge_service name r (services l)) l;
             trace := queries typ name sent ++ invoke2 callback (r_uuid r) name;
             raised := None |}
      end
  end.

(** [update_service] and [add_service] *)
Definition update_service (zconf : Zeroconf) (typ name : string)
    (l : CastListener) : Outcome :=
  _add_update_service zconf typ name (update_callback l) l.

Definition add_service (zconf : Zeroconf) (typ name : string)
    (l : CastListener) : Outcome :=
  _add_update_service zconf typ name (add_callback l) l.

End Registry.

(** ** The announcement thread *)

Section Browser.
Context {UUID : Type} `{!Runtime UUID} {CB : Type}.

(** What the service browser delivers to the listener. An add or update
    carries the answers the client gives while that call resolves. *)
Inductive Event :=
| AddService (zconf : Zeroconf) (typ name : string)
| UpdateService (zconf : Zeroconf) (typ name : string)
| RemoveService (typ name : string).

Definition deliver (ev : Event) (l : CastListener (CB := CB))
  : Outcome (UUID := UUID) (CB := CB) :=
  match ev with
  | AddService zconf typ name => add_service zconf typ name l
  | UpdateService zconf typ name => update_service zconf typ name l
  | RemoveService typ name => remove_service typ name l
  end.

(** The listener after a run of events, and everything it called. *)
Fixpoint run (evs : list Event) (l : CastListener (CB := CB))
  : CastListener (UUID := UUID) (CB := CB) * list (Effect (CB := CB)) :=
  match evs with
  | [] => (l, [])
  | ev :: evs' =>
      let out := deliver ev l in
      let '(l', t) := run evs' (listener out) in
      (l', trace out ++ t)
  end.

(** The name set the registry holds for [uuid]; empty when it holds none. *)
Definition names_of (l : CastListener (CB := CB)) (uuid : UUID) : gset string :=
  match dict_get uuid (services l) with
  | Some s => item0 s
  | None => ∅
  end.

(** The identity under which an add or update registers its name, when the
    call gets that far. *)
Definition resolved (zconf : Zeroconf) : option (Resolved (UUID := UUID)) :=
  match query_loop zconf 4 0 with
  | (Ret (Some service), _) =>
      match read_service service with
      | Ret (Some r) => Some r
      | _ => None
      end
  | _ => None
  end.

(** The names an event sequence leaves alive: each add or update that
    resolves puts its name in, each remove takes its name out. *)
Fixpoint live_names (evs : list Event) (acc : gset string) : gset string :=
  match evs with
  | [] => acc
  | AddService zconf _ name :: evs'
  | UpdateService zconf _ name :: evs' =>
      match resolved zconf with
      | Some _ => live_names evs' (acc ∪ {[name]})
      | None => live_names evs' acc
      end
  | RemoveService _ name :: evs' => live_names evs' (acc ∖ {[name]})
  end.

(** All names that some resolved add or update announced, and all names that
    some remove withdrew. *)
Fixpoint added_names (evs : list Event) : gset string :=
  match evs with
  | [] => ∅
  | AddService zconf _ name :: evs'
  | UpdateService zconf _ name :: evs' =>
      match resolved zconf with
      | Some _ => {[name]} ∪ added_names evs'
      | None => added_names evs'
      end
  | RemoveService _ _ :: evs' => added_names evs'
  end.

Fixpoint removed_names (evs : list Event) : gset string :=
  match evs with
  | [] => ∅
  | RemoveService _ name :: evs' => {[name]} ∪ removed_names evs'
  | _ :: evs' => removed_names evs'
  end.

(** Every add or update of the sequence that resolves, resolves to [uuid]. *)
Fixpoint same_identity (uuid : UUID) (evs : list Event) : Prop :=
  match evs with
  | [] => True
  | AddService zconf _ _ :: evs'
  | UpdateService zconf _ _ :: evs' =>
      match resolved zconf with
      | Some r => r_uuid r = uuid
      | None => True
      end ∧ same_identity uuid evs'
  | RemoveService _ _ :: evs' => same_identity uuid evs'
  end.

End Browser.

(** ** Query sessions *)

Section Sessions.
Context {UUID : Type} `{!Runtime UUID}.

(** Every session builds [CastListener(callback)]: its closure is the add
    callback, and the only callback, of the listener. The closure is the one
    value of [unit]. *)
Definition session_listener : CastListener (UUID := UUID) (CB := unit) :=
  CastListener_init (Some tt) None None.

(** The [(uuid, name)] arguments of the 2-argument callbacks of a trace. *)
Fixpoint callbacks_of (t : list (Effect (UUID := UUID) (CB := unit)))
  : list (UUID * string) :=
  match t with
  | [] => []
  | Callback2 _ uuid name :: t' => (uuid, name) :: callbacks_of t'
  | _ :: t' => callbacks_of t'
  end.

(** The objects the set-bound callbacks close over: the [cc_list] dict, the
    caller's two criteria arguments (each [None] or a collection that is
    mutated in place) and the [discover_complete] event. *)
Record Listed (R : Type) := {
  cc_list : list (UUID * R);
  friendly_names : option (list string);
  uuids : option (list UUID);
  discover_complete : bool
}.
#[local] Arguments cc_list {R} _.
#[local] Arguments friendly_names {R} _.
#[local] Arguments uuids {R} _.
#[local] Arguments discover_complete {R} _.

Definition Listed_init {R : Type} (friendly_names : option (list string))
    (uuids : option (list UUID)) : Listed R :=
  {| cc_list := [];
     friendly_names := friendly_names;
     uuids := uuids;
     discover_complete := false |}.

(** [x in c] and [c.remove(x)] on a criterion that is not [None] when they
    are reached. *)
Definition opt_mem {A : Type} `{!EqDecision A} (x : A) (c : option (list A))
  : bool :=
  match c with
  | Some l => list_mem x l
  | None => false
  end.

Definition opt_remove {A : Type} `{!EqDecision A} (x : A)
    (c : option (list A)) : option (list A) :=
  list_remove x <$> c.

(** [friendly_name in friendly_names]: a device without the [fn] property
    has [friendly_name = None], which no list of names holds. *)
Definition name_mem (friendly_name : option string)
    (c : option (list string)) : bool :=
  match friendly_name with
  | Some f => opt_mem f c
  | None => false
  end.

Definition name_remove (friendly_name : option string)
    (c : option (list string)) : option (list string) :=
  match friendly_name with
  | Some f => opt_remove f c
  | None => c
  end.

Definition set_cc_list {R : Type} (d : list (UUID * R)) (st : Listed R)
  : Listed R :=
  {| cc_list := d;
     friendly_names := friendly_names st;
     uuids := uuids st;
     discover_complete := discover_complete st |}.

Definition set_uuids {R : Type} (c : option (list UUID)) (st : Listed R)
  : Listed R :=
  {| cc_list := cc_list st;
     friendly_names := friendly_names st;
     uuids := c;
     discover_complete := discover_complete st |}.

Definition set_friendly_names {R : Type} (c : option (list string))
    (st : Listed R) : Listed R :=
  {| cc_list := cc_list st;
     friendly_names := c;
     uuids := uuids st;
     discover_complete := discover_complete st |}.

(** [discover_complete.set()] *)
Definition set_complete {R : Type} (st : Listed R) : Listed R :=
  {| cc_list := cc_list st;
     friendly_names := friendly_names st;
     uuids := uuids st;
     discover_complete := true |}.

(** Lines 214-215 of discovery.py, 158-159 of __init__.py. *)
Definition signal_if_done {R : Type} (st : Listed R) : Listed R :=
  if negb (truthy (friendly_names st)) && negb (truthy (uuids st))
  then set_complete st
  else st.

(** *** [discover_listed_chromecasts] *)

(** [cc_list[uuid] = listener.services[uuid]] (lines 209 and 212) stores the
    registry's tuple itself. Item 0 of that tuple is the registry's own name
    set for [uuid]: one mutable object, which [remove_service] and
    [_add_update_service] change in place (lines 43 and 108) and which every
    later tuple of the registry under [uuid] carries over (line 110). The
    object leaves the registry when the entry is popped (line 45), empty
    by then; an add after that makes a new set (line 106). The other items
    of the recorded tuple are immutable.

    A session therefore keeps, beside the registry and the closure state,
    the identities whose recorded tuple shares its name set with the
    registry's current entry. *)
Record Listing := {
  ls_listener : CastListener (UUID := UUID) (CB := unit);
  ls_state : Listed (Service (UUID := UUID));
  ls_shared : list UUID
}.

(** The recorded tuples as they read once a listener method has left the
    registry as [l]: a shared name set holds what the registry's entry
    holds, and nothing when the entry has just been popped. *)
Definition aliased (l : CastListener (UUID := UUID) (CB := unit))
    (shared : list UUID) (cc : list (UUID * Service (UUID := UUID)))
  : list (UUID * Service (UUID := UUID)) :=
  (λ '(uuid, service),
     (uuid,
      if list_mem uuid shared
      then with_names (names_of l uuid) service
      else service)) <$> cc.

(** The name sets that are still the registry's after the method. *)
Definition still_shared (l : CastListener (UUID := UUID) (CB := unit))
    (shared : list UUID) : list UUID :=
  filter (λ uuid, dict_mem uuid (services l) = true) shared.

(** [cc_list[uuid] = listener.services[uuid]], with [service] the value of
    [listener.services[uuid]]. *)
Definition record_service (uuid : UUID) (service : Service (UUID := UUID))
    (c : Listed (Service (UUID := UUID)) * list UUID)
  : Listed (Service (UUID := UUID)) * list UUID :=
  (set_cc_list (dict_set uuid service (cc_list c.1)) c.1, uuid :: c.2).

(** The closure [callback(uuid, name)], lines 205-215, on the closure
    state and the shared identities. *)
Definition discover_listed_callback
    (l : CastListener (UUID := UUID) (CB := unit)) (uuid : UUID)
    (name : string) (c : Listed (Service (UUID := UUID)) * list UUID)
  : result (Listed (Service (UUID := UUID)) * list UUID) :=
  match dict_get uuid (services l) with
  | None => Raise KeyError
  | Some service =>
      let friendly_name := item3 service in
      let c :=
        if truthy (uuids c.1) && opt_mem uuid (uuids c.1)
        then
          let c := record_service uuid service c in
          (set_uuids (opt_remove uuid (uuids c.1)) c.1, c.2)
        else c in
      let c :=
        if truthy (friendly_names c.1)
           && name_mem friendly_name (friendly_names c.1)
        then
          let c := record_service uuid service c in
          (set_friendly_names
             (name_remove friendly_name (friendly_names c.1)) c.1,
           c.2)
        else c in
      Ret (signal_if_done c.1, c.2)
  end.

(** One event on the announcement thread of the session: the listener
    method runs, which changes the shared name sets of the recorded tuples
    with the registry, and the callbacks it makes run against the registry
    as the method leaves it. A callback that raises leaves the closure
    state as it is. *)
Definition discover_listed_step (σ : Listing) (ev : Event) : Listing :=
  let out := deliver ev (ls_listener σ) in
  let l := listener out in
  let c :=
    foldl (λ c '(uuid, name),
             match discover_listed_callback l uuid name c with
             | Ret c' => c'
             | Raise _ => c
             end)
          (set_cc_list (aliased l (ls_shared σ) (cc_list (ls_state σ)))
             (ls_state σ),
           still_shared l (ls_shared σ))
          (callbacks_of (trace out)) in
  {| ls_listener := l; ls_state := c.1; ls_shared := c.2 |}.

(** The session with [events] delivered. *)
Definition discover_listed_run (friendly_names : option (list string))
    (uuids : option (list UUID)) (events : list Event) : Listing :=
  foldl discover_listed_step
        {| ls_listener := session_listener;
           ls_state := Listed_init friendly_names uuids;
           ls_shared := [] |}
        events.

(** [discover_listed_chromecasts(friendly_names, uuids)] with [events]
    delivered before it returns. The returned list is
    [dict_values (cc_list st)], its tuples read at the return;
    [friendly_names st] and [uuids st] are the caller's argument objects as
    the call leaves them. *)
Definition discover_listed_chromecasts (friendly_names : option (list string))
    (uuids : option (list UUID)) (events : list Event)
  : CastListener (UUID := UUID) (CB := unit)
    * Listed (Service (UUID := UUID)) :=
  let σ := discover_listed_run friendly_names uuids events in
  (ls_listener σ, ls_state σ).

End Sessions.

Arguments cc_list {UUID R} _.
Arguments friendly_names {UUID R} _.
Arguments uuids {UUID R} _.
Arguments discover_complete {UUID R} _.

Section Connecting.
Context {UUID : Type} `{!Runtime UUID} {Chromecast : Type}.

(** *** [get_listed_chromecasts] *)

(** [get_chromecast_from_service(services, zconf, ...)] builds a
    [Chromecast], whose constructor talks to the device and raises
    [ChromecastConnectionError] when it gets no status. The outcome is the
    network's: it is given with each event. *)
Definition Connector := Service (UUID := UUID) → result Chromecast.

(** How a callback ends: the closure state, the number of connection
    attempts it made, and the exception it lets through. *)
Record Handled := {
  state : Listed (UUID := UUID) Chromecast;
  attempts : nat;
  escaped : option exn
}.

(** Lines 151-152 and 155-156:
    [if uuid not in cc_list: cc_list[uuid] = get_chromecast_from_uuid(uuid)].
    The third component is the exception that leaves the [try] body. *)
Definition connect_once (connect : Connector)
    (service : Service (UUID := UUID)) (uuid : UUID)
    (st : Listed (UUID := UUID) Chromecast) (n : nat)
  : Listed (UUID := UUID) Chromecast * nat * option exn :=
  if dict_mem uuid (cc_list st) then (st, n, None)
  else match connect service with
       | Ret cast => (set_cc_list (dict_set uuid cast (cc_list st)) st, S n, None)
       | Raise e => (st, S n, Some e)
       end.

(** The closure [callback(uuid, name)], lines 135-161. The three [let]s are
    the three statements of the [try] body; the final [match] is
    [except ChromecastConnectionError: pass]. *)
Definition get_listed_callback (connect : Connector)
    (l : CastListener (UUID := UUID) (CB := unit)) (uuid : UUID)
    (name : string) (st : Listed (UUID := UUID) Chromecast) : Handled :=
  match dict_get uuid (services l) with
  | None => {| state := st; attempts := 0; escaped := Some KeyError |}
  | Some service =>
      let friendly_name := item3 service in
      let '(st1, n1, e1) :=
        if truthy (uuids st) && opt_mem uuid (uuids st)
        then
          match connect_once connect service uuid st 0 with
          | (st', n, None) => (set_uuids (opt_remove uuid (uuids st')) st', n, None)
          | (st', n, Some e) => (st', n, Some e)
          end
        else (st, 0, None) in
      let '(st2, n2, e2) :=
        match e1 with
        | Some e => (st1, n1, Some e)
        | None =>
            if truthy (friendly_names st1)
               && name_mem friendly_name (friendly_names st1)
            then
              match connect_once connect service uuid st1 n1 with
              | (st', n, None) =>
                  (set_friendly_names
                     (name_remove friendly_name (friendly_names st')) st',
                   n, None)
              | (st', n, Some e) => (st', n, Some e)
              end
            else (st1, n1, None)
        end in
      match e2 with
      | None =>
          {| state := signal_if_done st2; attempts := n2; escaped := None |}
      | Some e =>
          if exn_eqb e ChromecastConnectionError
          then {| state := st2; attempts := n2; escaped := None |}
          else {| state := st2; attempts := n2; escaped := Some e |}
      end
  end.

(** What one event of a connecting session leaves: the registry, the
    closure state, the connection attempts made and the exceptions that
    reached the announcement thread. *)
Record Connecting := {
  c_listener : CastListener (UUID := UUID) (CB := unit);
  c_state : Listed (UUID := UUID) Chromecast;
  c_attempts : nat;
  c_escaped : list exn
}.

Definition after_callback (l : CastListener (UUID := UUID) (CB := unit))
    (connect : Connector) (c : Connecting) (call : UUID * string)
  : Connecting :=
  let h := get_listed_callback connect l call.1 call.2 (c_state c) in
  {| c_listener := l;
     c_state := state h;
     c_attempts := c_attempts c + attempts h;
     c_escaped := c_escaped c ++ option_list (escaped h) |}.

(** One event on the announcement thread of a connecting session. *)
Definition get_listed_step (c : Connecting) (ev : Event * Connector)
  : Connecting :=
  let out := deliver ev.1 (c_listener c) in
  foldl (after_callback (listener out) ev.2)
        {| c_listener := listener out;
           c_state := c_state c;
           c_attempts := c_attempts c;
           c_escaped := c_escaped c ++ option_list (raised out) |}
        (callbacks_of (trace out)).

(** [get_listed_chromecasts(friendly_names, uuids, ...)] with [events]
    delivered before it returns; the returned list is
    [dict_values (cc_list (c_state c))]. *)
Definition get_listed_chromecasts (friendly_names : option (list string))
    (uuids : option (list UUID)) (events : list (Event * Connector))
  : Connecting :=
  foldl get_listed_step
        {| c_listener := session_listener;
           c_state := Listed_init friendly_names uuids;
           c_attempts := 0;
           c_escaped := [] |}
        events.

(** *** [discover_chromecasts] and [get_chromecasts] *)

(** What a session creates before it waits or returns. *)
Inductive Startup :=
| NewCastListener
| NewZeroconf
| StartDiscovery.

(** The closure of [discover_chromecasts], lines 167-170, as the new value
    of [discover_complete]. *)
Definition discover_callback (max_devices : option nat)
    (l : CastListener (UUID := UUID) (CB := unit)) (complete : bool) : bool :=
  match max_devices with
  | Some n => if n <=? count l then true else complete
  | None => complete
  end.

Definition discover_step (max_devices : option nat)
    (σ : CastListener (UUID := UUID) (CB := unit) * bool) (ev : Event)
  : CastListener (UUID := UUID) (CB := unit) * bool :=
  let out := deliver ev σ.1 in
  (listener out,
   foldl (λ complete _, discover_callback max_devices (listener out) complete)
         σ.2 (callbacks_of (trace out))).

(** [discover_chromecasts(max_devices)]: the devices it returns, with what
    it created on the way. *)
Definition discover_chromecasts (max_devices : option nat)
    (events : list Event)
  : list (Service (UUID := UUID)) * list Startup :=
  let σ := foldl (discover_step max_devices) (session_listener, false) events in
  (devices σ.1, [NewCastListener; NewZeroconf; StartDiscovery]).

(** The [for] loop of lines 212-224: connection errors are skipped. *)
Fixpoint connect_all (connect : Connector)
    (services : list (Service (UUID := UUID)))
  : result (list Chromecast) :=
  match services with
  | [] => Ret []
  | service :: rest =>
      match connect service with
      | Ret cast =>
          match connect_all connect rest with
          | Ret cc_list => Ret (cast :: cc_list)
          | Raise e => Raise e
          end
      | Raise e =>
          if exn_eqb e ChromecastConnectionError
          then connect_all connect rest
          else Raise e
      end
  end.

(** A value passed as the [callback] argument. *)
Inductive PyArg (F : Type) :=
| PyNone
| PyObject (repr : string)
| PyFunction (f : F).
#[local] Arguments PyNone {F}.
#[local] Arguments PyObject {F} repr.
#[local] Arguments PyFunction {F} f.

(** [callable(v)] *)
Definition callable {F : Type} (v : PyArg F) : bool :=
  match v with
  | PyFunction _ => true
  | _ => false
  end.

(** What [get_chromecasts] returns: the connected devices (with the
    browser) when blocking, the browser alone otherwise. *)
Inductive Discovered :=
| Casts (cc_list : list Chromecast)
| Browser.

(** [get_chromecasts(blocking=..., callback=...)]: its result and what it
    created. [events] and [connect] are what the network does during the
    blocking discovery. *)
Definition get_chromecasts {F : Type} (blocking : bool)
    (callback : PyArg F) (events : list Event) (connect : Connector)
  : result Discovered * list Startup :=
  if blocking then
    let '(services, started) := discover_chromecasts None events in
    match connect_all connect services with
    | Ret cc_list => (Ret (Casts cc_list), started)
    | Raise e => (Raise e, started)
    end
  else if negb (callable callback) then (Raise ValueError, [])
  else (Ret Browser, [NewCastListener; NewZeroconf; StartDiscovery]).

(** The closure [internal_callback(uuid, name)], lines 231-244: the device
    it forwards to the caller's callback, if it connects. *)
Definition internal_callback (connect : Connector)
    (l : CastListener (UUID := UUID) (CB := unit)) (uuid : UUID)
    (name : string) : result (option Chromecast) :=
  match dict_get uuid (services l) with
  | None => Raise KeyError
  | Some service =>
      match connect service with
      | Ret cast => Ret (Some cast)
      | Raise e =>
          if exn_eqb e ChromecastConnectionError then Ret None else Raise e
      end
  end.

End Connecting.

Arguments PyNone {F}.
Arguments PyObject {F} repr.
Arguments PyFunction {F} f.

(** ** Browser lifecycle *)

(** A [ServiceBrowser] handle, by how it reacts: what [browser.cancel()]
    and [browser.zc.close()] do when called. *)
Record ServiceBrowser := {
  cancel : result unit;
  zc_close : result unit
}.

Inductive Lifecycle :=
| BrowserCancel
| ZeroconfClose.

(** [stop_discovery(browser)]: how it ends and the calls it made. *)
Definition stop_discovery (browser : ServiceBrowser)
  : result unit * list Lifecycle :=
  match cancel browser with
  | Ret _ => (zc_close browser, [BrowserCancel; ZeroconfClose])
  | Raise e =>
      if exn_eqb e RuntimeError
      then (zc_close browser, [BrowserCancel; ZeroconfClose])
      else (Raise e, [BrowserCancel])
  end.


(** ** Hosts of resolved services *)

Section Hosts.

(** [socket.inet_ntoa] (which raises on a packed address of the wrong
    length) and [str.lower], both of the standard library. *)
Variable inet_ntoa : list Byte.byte → result string.
Variable lower : string → string.

(** The attributes of [zeroconf.ServiceInfo] that
    [get_host_from_service_info] reads; [port] and [server] may be
    [None]. *)
Record AddressInfo := {
  si_port : option Z;
  si_server : option string;
  si_addresses : list (list Byte.byte)
}.

(** Truth value of an optional number and of an optional string. *)
Definition truthy_port (p : option Z) : bool :=
  match p with
  | Some p => negb (p =? 0)%Z
  | None => false
  end.

Definition truthy_str (s : option string) : bool :=
  match s with
  | Some "" | None => false
  | Some _ => true
  end.

(** [get_host_from_service_info(service_info)] *)
Definition get_host_from_service_info (service_info : option AddressInfo)
  : result (option string * option Z) :=
  match service_info with
  | None => Ret (None, None)
  | Some si =>
      if truthy_port (si_port si)
         && (truthy_str (si_server si) || (0 <? length (si_addresses si)))
      then
        match si_addresses si with
        | a :: _ =>
            match inet_ntoa a with
            | Ret host => Ret (Some host, si_port si)
            | Raise e => Raise e
            end
        | [] =>
            match si_server si with
            | Some s => Ret (Some (lower s), si_port si)
            | None => Raise (OtherError "AttributeError")
            end
        end
      else Ret (None, None)
  end.

End Hosts.

(** ** Building clients *)

Section Casts.
Context {UUID : Type} `{!Runtime UUID} {Chromecast : Type}.

(** [str.lower] and, from [const.py], the two tables keyed by lower-case
    model name and the default cast type. *)
Variable lower : string → string.
Variable CAST_TYPES : gmap string string.
Variable CAST_MANUFACTURERS : gmap string string.
Variable CAST_TYPE_CHROMECAST : string.

(** The named tuple [DeviceStatus] of [dial.py], with the five fields this
    module passes by keyword. *)
Record DeviceStatus := {
  ds_friendly_name : option string;
  ds_model_name : option string;
  ds_manufacturer : option string;
  ds_uuid : option UUID;
  ds_cast_type : option string
}.

(** The [Chromecast(...)] call, by the arguments the two factories give it:
    host, port, device and services. Its outcome is the network's. *)
Definition Constructor :=
  option string → option Z → DeviceStatus → option (gset string)
  → result Chromecast.

(** Lines 44-52 and 76-84: the device status built from a model name. *)
Definition device_of (friendly_name : option string) (model_name : string)
    (uuid : UUID) : DeviceStatus :=
  let cast_type :=
    default CAST_TYPE_CHROMECAST (CAST_TYPES !! lower model_name) in
  let manufacturer :=
    default "Google Inc." (CAST_MANUFACTURERS !! lower model_name) in
  {| ds_friendly_name := friendly_name;
     ds_model_name := Some model_name;
     ds_manufacturer := Some manufacturer;
     ds_uuid := Some uuid;
     ds_cast_type := Some cast_type |}.

(** [get_chromecast_from_host(host, ...)], [host] being the 5-tuple
    [(ip_address, port, uuid, model_name, friendly_name)]. A missing model
    name has no [lower]. *)
Definition get_chromecast_from_host (construct : Constructor)
    (host : string * Z * UUID * option string * option string)
  : result Chromecast :=
  let '(ip_address, port, uuid, model_name, friendly_name) := host in
  match model_name with
  | None => Raise (OtherError "AttributeError")
  | Some model_name =>
      construct (Some ip_address) (Some port)
        (device_of friendly_name model_name uuid) None
  end.

(** [get_chromecast_from_service(services, zconf, ...)]: the record is
    unpacked into 6 values. *)
Definition get_chromecast_from_service (construct : Constructor)
    (services : Service (UUID := UUID)) : result Chromecast :=
  match services with
  | Service4 _ _ _ _ => Raise ValueError
  | Service6 services uuid model_name friendly_name _ _ =>
      match model_name with
      | None => Raise (OtherError "AttributeError")
      | Some model_name =>
          construct None None (device_of friendly_name model_name uuid)
            (Some services)
      end
  end.

(** *** [Chromecast.__init__] *)

(** [a or b] on optional strings and on optional values that are true
    whenever present. *)
Definition or_str (a b : option string) : option string :=
  if truthy_str a then a else b.

Definition or_some {A : Type} (a b : option A) : option A :=
  match a with
  | Some _ => a
  | None => b
  end.

(** The attributes lines 288-322 set, before the socket client is built. *)
Record Attributes := {
  at_host : option string;
  at_port : Z;
  at_device : DeviceStatus
}.

(** [port or 8009] *)
Definition port_or_default (port : option Z) : Z :=
  match port with
  | Some p => if (p =? 0)%Z then 8009%Z else p
  | None => 8009%Z
  end.

(** Lines 304-310 *)
Definition merge_status (device dev_status : DeviceStatus) : DeviceStatus :=
  {| ds_friendly_name :=
       or_str (ds_friendly_name device) (ds_friendly_name dev_status);
     ds_model_name := or_str (ds_model_name device) (ds_model_name dev_status);
     ds_manufacturer :=
       or_str (ds_manufacturer device) (ds_manufacturer dev_status);
     ds_uuid := or_some (ds_uuid device) (ds_uuid dev_status);
     ds_cast_type := or_str (ds_cast_type device) (ds_cast_type dev_status) |}.

(** [Chromecast.__init__(host, port, device, ...)] up to line 322;
    [dev_status] is what [get_device_status] returns for this call. *)
Definition Chromecast_init (host : option string) (port : option Z)
    (device : option DeviceStatus) (dev_status : option DeviceStatus)
  : result Attributes :=
  let self_port := port_or_default port in
  let self_device :=
    match device with
    | Some device =>
        match dev_status with
        | Some dev_status => Some (merge_status device dev_status)
        | None => Some device
        end
    | None => dev_status
    end in
  match self_device with
  | None => Raise ChromecastConnectionError
  | Some self_device =>
      Ret {| at_host := host; at_port := self_port; at_device := self_device |}
  end.

(** *** The streaming mode of [get_chromecasts] *)

(** A non-blocking session: the listener, the devices forwarded to the
    caller's callback, and the exceptions that reached the announcement
    thread. *)
Record Streaming := {
  s_listener : CastListener (UUID := UUID) (CB := unit);
  s_forwarded : list Chromecast;
  s_escaped : list exn
}.

Definition after_internal_callback
    (l : CastListener (UUID := UUID) (CB := unit))
    (connect : Connector (UUID := UUID) (Chromecast := Chromecast))
    (c : Streaming) (call : UUID * string) : Streaming :=
  match internal_callback connect l call.1 call.2 with
  | Ret (Some cast) =>
      {| s_listener := l;
         s_forwarded := s_forwarded c ++ [cast];
         s_escaped := s_escaped c |}
  | Ret None =>
      {| s_listener := l;
         s_forwarded := s_forwarded c;
         s_escaped := s_escaped c |}
  | Raise e =>
      {| s_listener := l;
         s_forwarded := s_forwarded c;
         s_escaped := s_escaped c ++ [e] |}
  end.

(** One event on the announcement thread of a streaming session. *)
Definition streaming_step (c : Streaming)
    (ev : Event * Connector (UUID := UUID) (Chromecast := Chromecast))
  : Streaming :=
  let out := deliver ev.1 (s_listener c) in
  foldl (after_internal_callback (listener out) ev.2)
        {| s_listener := listener out;
           s_forwarded := s_forwarded c;
           s_escaped := s_escaped c ++ option_list (raised out) |}
        (callbacks_of (trace out)).

(** What the browser that [get_chromecasts(blocking=False, callback)]
    returns has done once [events] were delivered. *)
Definition streaming_session
    (events : list (Event * Connector (UUID := UUID) (Chromecast := Chromecast)))
  : Streaming :=
  foldl streaming_step
        {| s_listener := session_listener; s_forwarded := []; s_escaped := [] |}
        events.

End Casts.

(** ** Notions used to state the properties *)

Section Notions.
Context {UUID : Type} `{!Runtime UUID} {CB : Type}.

(** A well-formed registry: keys are unique (it is a [dict]), each record
    sits under its own identity, and no record has an empty name set. *)
Definition registry_ok (d : list (UUID * Service (UUID := UUID))) : Prop :=
  NoDup (dict_keys d)
  ∧ ∀ uuid s, (uuid, s) ∈ d → item1 s = uuid ∧ item0 s ≠ ∅.

(** A registry that holds the names [names] under [uuid] and nothing else:
    it is empty when [names] is. *)
Definition only_record (uuid : UUID) (names : gset string)
    (d : list (UUID * Service (UUID := UUID))) : Prop :=
  (names = ∅ ∧ d = [])
  ∨ (names ≠ ∅ ∧ ∃ s, d = [(uuid, s)] ∧ item0 s = names).

(** The listener callbacks of a trace, without the client queries. *)
Definition is_callback (e : Effect (UUID := UUID) (CB := CB)) : bool :=
  match e with
  | GetServiceInfo _ _ => false
  | _ => true
  end.

Definition callbacks (t : list (Effect (UUID := UUID) (CB := CB)))
  : list (Effect (UUID := UUID) (CB := CB)) :=
  filter (λ e, is_callback e = true) t.

(** No name is announced again after it was withdrawn. *)
Fixpoint no_readd (evs : list (Event)) : Prop :=
  match evs with
  | [] => True
  | RemoveService _ name :: evs' =>
      (name ∉ added_names (UUID := UUID) evs') ∧ no_readd evs'
  | _ :: evs' => no_readd evs'
  end.

(** The devices that the add events of a sequence register: identity and
    friendly name of each add that resolves, in order. *)
Fixpoint announced (evs : list Event) : list (UUID * option string) :=
  match evs with
  | [] => []
  | AddService zconf _ _ :: evs' =>
      match resolved zconf with
      | Some r => (r_uuid r, r_friendly_name r) :: announced evs'
      | None => announced evs'
      end
  | _ :: evs' => announced evs'
  end.

End Notions.

Section SessionNotions.
Context {UUID : Type} `{!Runtime UUID}.

(** A listener as the sessions build it: the closure is its add callback,
    and it has no other. *)
Definition session_shaped (l : CastListener (UUID := UUID) (CB := unit))
  : Prop :=
  add_callback l = Some tt
  ∧ remove_callback l = None
  ∧ update_callback l = None.

(** Nothing is left to find: both criteria are [None] or empty. *)
Definition all_found {R : Type} (st : Listed (UUID := UUID) R) : bool :=
  negb (truthy (friendly_names st)) && negb (truthy (uuids st)).

(** The two criteria, names first, once a device with identity [seen.1]
    and friendly name [seen.2] was matched against them. *)
Definition drained (seen : UUID * option string)
    (c : option (list string) * option (list UUID))
  : option (list string) * option (list UUID) :=
  (if name_mem seen.2 c.1 then name_remove seen.2 c.1 else c.1,
   if opt_mem seen.1 c.2 then opt_remove seen.1 c.2 else c.2).

(** The closure state once the device [seen] was matched against both of
    its criteria. *)
Definition with_drained {R : Type} (seen : UUID * option string)
    (st : Listed (UUID := UUID) R) : Listed (UUID := UUID) R :=
  set_friendly_names (drained seen (friendly_names st, uuids st)).1
    (set_uuids (drained seen (friendly_names st, uuids st)).2 st).




End SessionNotions.

(** ** Further notions *)

Section MoreNotions.
Context {UUID : Type} `{!Runtime UUID}.

(** The listener and the [discover_complete] event of
    [discover_chromecasts(max_devices)] once [events] were delivered. *)
Definition discover_session (max_devices : option nat) (events : list Event)
  : CastListener (UUID := UUID) (CB := unit) * bool :=
  foldl (discover_step max_devices) (session_listener, false) events.

(** A record as line 109 stores it: a 6-tuple. *)
Definition is_six (s : Service (UUID := UUID)) : Prop :=
  match s with
  | Service6 _ _ _ _ _ _ => True
  | Service4 _ _ _ _ => False
  end.

End MoreNotions.

(** ** A sample runtime and sample announcements *)

Module Sample.

(** The value of one hexadecimal digit. *)
Definition hex_digit (a : Ascii.ascii) : option N :=
  let n := Ascii.N_of_ascii a in
  if ((48 <=? n) && (n <=? 57))%N then Some (n - 48)%N
  else if ((97 <=? n) && (n <=? 102))%N then Some (n - 87)%N
  else if ((65 <=? n) && (n <=? 70))%N then Some (n - 55)%N
  else None.

(** Reads hexadecimal digits, skipping hyphens: the digits read so far and
    their value. *)
Fixpoint hex_value (s : string) (digits : nat) (acc : N) : option (nat * N) :=
  match s with
  | EmptyString => Some (digits, acc)
  | String a s' =>
      if (Ascii.N_of_ascii a =? 45)%N then hex_value s' digits acc
      else match hex_digit a with
           | Some d => hex_value s' (S digits) (16 * acc + d)%N
           | None => None
           end
  end.

(** Identities as 128-bit numbers, written as 32 hexadecimal digits. *)
Definition uuid_of_hex (s : string) : option N :=
  match hex_value s 0 0%N with
  | Some (32, n) => Some n
  | _ => None
  end.

(** Decodes the ASCII subset and rejects every other byte string. *)
Definition ascii_decode (b : list Byte.byte) : option string :=
  if forallb (λ x, (Byte.to_N x <? 128)%N) b
  then Some (String.string_of_list_byte b)
  else None.

#[export] Instance runtime : Runtime N := {|
  UUID_eq_dec := _;
  UUID_of_hex := uuid_of_hex;
  bytes_decode := ascii_decode
|}.

Definition typ : string := "_googlecast._tcp.local.".

Definition U1 : N := 1.
Definition U2 : N := 2.
Definition hex1 : string := "00000000-0000-0000-0000-000000000001".
Definition hex2 : string := "00000000-0000-0000-0000-000000000002".

(** A resolved announcement of the device [hex], called [fn]. *)
Definition info (hex fn : string) : ServiceInfo :=
  {| properties :=
       {[ "id" := PStr hex; "fn" := PStr fn; "md" := PStr "Chromecast" ]};
     parsed_addresses := ["192.168.1.10"];
     server := "cast.local.";
     port := 8009 |}.

(** A client that answers the first query with [i]. *)
Definition answers (i : ServiceInfo) : Zeroconf := λ _, Answer (Some i).
(** A client whose every query raises [IOError]. *)
Definition io_fails : Zeroconf := λ _, Fails IOError.
(** A client whose every query times out with [None]. *)
Definition silent : Zeroconf := λ _, Answer None.

Definition living_room : Zeroconf := answers (info hex1 "Living Room").
Definition kitchen : Zeroconf := answers (info hex2 "Kitchen").

(** A listener with three distinct callbacks, named by a number. *)
Definition three : CastListener (UUID := N) (CB := nat) :=
  CastListener_init (Some 1) (Some 2) (Some 3).

(** A connection that succeeds (the client is named by its identity) and
    one that fails. *)
Definition connects : Connector (UUID := N) (Chromecast := N) :=
  λ service, Ret (item1 service).
Definition refuses : Connector (UUID := N) (Chromecast := N) :=
  λ _, Raise ChromecastConnectionError.

(** The registry once [living_room] announced itself as [n1]. *)
Definition one_device : CastListener (UUID := N) (CB := nat) :=
  listener (add_service living_room typ "n1" three).

(** The record of [living_room] with the name set [names]. *)
Definition living_room_record (names : gset string) : Service (UUID := N) :=
  Service6 names U1 (Some "Chromecast") (Some "Living Room")
    "192.168.1.10" 8009.

(** Browser handles whose cancellation raises. *)
Definition reentrant_browser : ServiceBrowser :=
  {| cancel := Raise RuntimeError; zc_close := Ret tt |}.
Definition broken_browser : ServiceBrowser :=
  {| cancel := Raise IOError; zc_close := Ret tt |}.

End Sample.

(** ** Further sample data *)

Module More.
Import Sample.

(** What [living_room] and [kitchen] resolve to. *)
Definition living_room_resolved : Resolved (UUID := N) :=
  {| r_uuid := U1;
     r_model_name := Some "Chromecast";
     r_friendly_name := Some "Living Room";
     r_host := "192.168.1.10";
     r_port := 8009 |}.

(** The registry once [kitchen] announced itself as [k1]. *)
Definition one_kitchen : CastListener (UUID := N) (CB := nat) :=
  listener (add_service kitchen typ "k1" three).

(** An announcement with the properties [props] only. *)
Definition info_with (props : gmap string PropValue) : ServiceInfo :=
  {| properties := props;
     parsed_addresses := ["192.168.1.10"];
     server := "cast.local.";
     port := 8009 |}.

(** Announcements without identity, with a malformed identity, without
    identity and with a model name that does not decode, and without model
    name. *)
Definition anonymous : ServiceInfo :=
  info_with {[ "fn" := PStr "Hall"; "md" := PStr "Chromecast" ]}.
Definition malformed : ServiceInfo :=
  info_with {[ "id" := PStr "not-a-uuid"; "fn" := PStr "Hall";
               "md" := PStr "Chromecast" ]}.
Definition garbled : ServiceInfo :=
  info_with {[ "fn" := PStr "Hall"; "md" := PBytes [Byte.xff] ]}.
Definition no_model : ServiceInfo :=
  info_with {[ "id" := PStr hex1; "fn" := PStr "Living Room" ]}.

Definition no_model_resolved : Resolved (UUID := N) :=
  {| r_uuid := U1;
     r_model_name := None;
     r_friendly_name := Some "Living Room";
     r_host := "192.168.1.10";
     r_port := 8009 |}.

(** A client that times out once and then answers with [i]. *)
Definition late (i : ServiceInfo) : Zeroconf :=
  λ k, match k with 0 => Answer None | _ => Answer (Some i) end.

(** Tables and a constructor for the factories; names are taken as they
    are. *)
Definition cast_types : gmap string string :=
  {[ "Chromecast Audio" := "audio"; "Google Cast Group" := "group" ]}.
Definition cast_manufacturers : gmap string string :=
  {[ "Chromecast Audio" := "Google Inc." ]}.
Definition construct_any : Constructor (UUID := N) (Chromecast := N) :=
  λ _ _ device _, Ret (default 0%N (ds_uuid device)).

End More.

(** * Properties *)

(** ** Name sets *)

Lemma last_name (X : gset string) (name : string) :
  name ∈ X → size (X ∖ {[name]}) = 0 → X = {[name]}.
Proof.
  intros Hname Hsize%size_empty_inv. apply set_eq. intros x.
  rewrite elem_of_singleton. split; [|by intros ->].
  intros Hx. destruct (decide (x = name)) as [|Hne]; [done|]. exfalso.
  apply (not_elem_of_empty (C := gset string) x). rewrite <- Hsize.
  apply elem_of_difference. split; [done|]. by rewrite elem_of_singleton.
Qed.

(** ** Dictionaries *)

Section PyDictFacts.
Context {K V : Type} `{!EqDecision K}.
Implicit Types (k : K) (v : V) (d : list (K * V)).

Lemma dict_get_set_eq k v d : dict_get k (dict_set k v d) = Some v.
Proof.
  induction d as [|[k' v'] d IH]; simpl.
  - by rewrite decide_True.
  - destruct (decide (k = k')); simpl.
    + by rewrite decide_True.
    + by rewrite decide_False.
Qed.

Lemma dict_get_set_ne k k' v d :
  k ≠ k' → dict_get k' (dict_set k v d) = dict_get k' d.
Proof.
  intros Hne. induction d as [|[k0 v0] d IH]; simpl.
  - rewrite decide_False; [done | congruence].
  - destruct (decide (k = k0)) as [->|]; simpl.
    + rewrite !decide_False; [done | congruence | congruence].
    + by rewrite IH.
Qed.

Lemma dict_get_pop_ne k k' d :
  k ≠ k' → dict_get k' (dict_pop k d) = dict_get k' d.
Proof.
  intros Hne. induction d as [|[k0 v0] d IH]; simpl; [done|].
  destruct (decide (k = k0)) as [->|]; simpl.
  - rewrite decide_False; [done | congruence].
  - by rewrite IH.
Qed.

Lemma dict_get_None k d : dict_get k d = None ↔ k ∉ dict_keys d.
Proof.
  unfold dict_keys. induction d as [|[k0 v0] d IH]; simpl.
  - split; [intros _; apply not_elem_of_nil | done].
  - rewrite not_elem_of_cons. destruct (decide (k = k0)) as [->|Hne].
    + split; [done | intros [? _]; done].
    + rewrite IH. split; [done | by intros [_ ?]].
Qed.

Lemma dict_get_Some_elem k v d : dict_get k d = Some v → (k, v) ∈ d.
Proof.
  induction d as [|[k0 v0] d IH]; simpl; [done|].
  destruct (decide (k = k0)) as [->|].
  - intros [= ->]. apply list_elem_of_here.
  - intros. apply list_elem_of_further. auto.
Qed.

Lemma dict_elem_get k v d :
  NoDup (dict_keys d) → (k, v) ∈ d → dict_get k d = Some v.
Proof.
  unfold dict_keys. induction d as [|[k0 v0] d IH]; simpl.
  - intros _ H. by apply elem_of_nil in H.
  - rewrite NoDup_cons. intros [Hk0 Hnd] [[= -> ->]|Hin]%elem_of_cons.
    + by rewrite decide_True.
    + rewrite decide_False; [auto|].
      intros ->. apply Hk0. apply list_elem_of_fmap. by exists (k0, v).
Qed.

Lemma dict_get_pop_eq k d :
  NoDup (dict_keys d) → dict_get k (dict_pop k d) = None.
Proof.
  unfold dict_keys. induction d as [|[k0 v0] d IH]; simpl; [done|].
  rewrite NoDup_cons. intros [Hk0 Hnd].
  destruct (decide (k = k0)) as [->|]; simpl.
  - by apply dict_get_None.
  - rewrite decide_False; auto.
Qed.

Lemma dict_keys_set k v d :
  dict_keys (dict_set k v d)
  = if dict_mem k d then dict_keys d else dict_keys d ++ [k].
Proof.
  unfold dict_keys, dict_mem. induction d as [|[k0 v0] d IH]; [done|].
  cbn [dict_set dict_get]. destruct (decide (k = k0)) as [->|]; [done|].
  rewrite fmap_cons, IH. by destruct (dict_get k d).
Qed.

Lemma dict_set_NoDup k v d :
  NoDup (dict_keys d) → NoDup (dict_keys (dict_set k v d)).
Proof.
  intros Hnd. rewrite dict_keys_set. unfold dict_mem.
  destruct (dict_get k d) eqn:E; [done|].
  apply NoDup_app. split_and!; [done| |apply NoDup_singleton].
  intros x Hx ->%list_elem_of_singleton.
  by apply dict_get_None in E.
Qed.

Lemma dict_elem_set k v k' v' d :
  (k', v') ∈ dict_set k v d → (k' = k ∧ v' = v) ∨ (k', v') ∈ d.
Proof.
  induction d as [|[k0 v0] d IH]; simpl.
  - intros ?%list_elem_of_singleton. left. naive_solver.
  - destruct (decide (k = k0)) as [->|].
    + intros [?|?]%elem_of_cons; [left; naive_solver|].
      right. by apply list_elem_of_further.
    + intros [?|?]%elem_of_cons.
      * right. simplify_eq. apply list_elem_of_here.
      * destruct IH as [?|?]; [done|by left|].
        right. by apply list_elem_of_further.
Qed.

Lemma dict_pop_sublist k d : dict_pop k d `sublist_of` d.
Proof.
  induction d as [|[k0 v0] d IH]; simpl; [done|].
  destruct (decide (k = k0)); [by apply sublist_cons | by apply sublist_skip].
Qed.

Lemma dict_pop_NoDup k d :
  NoDup (dict_keys d) → NoDup (dict_keys (dict_pop k d)).
Proof.
  unfold dict_keys. intros Hnd. eapply sublist_NoDup; [exact Hnd|].
  apply fmap_sublist, dict_pop_sublist.
Qed.

Lemma dict_elem_pop k k' v' d : (k', v') ∈ dict_pop k d → (k', v') ∈ d.
Proof. intros Hin. eapply elem_of_sublist; [exact Hin | apply dict_pop_sublist]. Qed.

Lemma dict_set_set k v v' d : dict_set k v (dict_set k v' d) = dict_set k v d.
Proof.
  induction d as [|[k0 v0] d IH]; simpl.
  - by rewrite decide_True.
  - destruct (decide (k = k0)) as [->|]; simpl.
    + by rewrite decide_True.
    + rewrite decide_False; [by rewrite IH | done].
Qed.

Lemma dict_mem_true k d : dict_mem k d = true ↔ is_Some (dict_get k d).
Proof.
  unfold dict_mem. by destruct (dict_get k d); split; try done.
Qed.

Lemma dict_mem_set_eq k v d : dict_mem k (dict_set k v d) = true.
Proof. unfold dict_mem. by rewrite dict_get_set_eq. Qed.

End PyDictFacts.

(** ** The registry *)

Section RegistryFacts.
Context {UUID : Type} `{!Runtime UUID} {CB : Type}.
Implicit Types (d : list (UUID * Service (UUID := UUID))).
Implicit Types (l : CastListener (UUID := UUID) (CB := CB)).
Implicit Types (s : Service (UUID := UUID)).

Lemma item0_with_names n s : item0 (with_names n s) = n.
Proof. by destruct s. Qed.

Lemma item1_with_names n s : item1 (with_names n s) = item1 s.
Proof. by destruct s. Qed.

Lemma item3_with_names n s : item3 (with_names n s) = item3 s.
Proof. by destruct s. Qed.

Lemma find_service_Some name d uuid s :
  find_service name d = Some (uuid, s) → (uuid, s) ∈ d ∧ name ∈ item0 s.
Proof.
  induction d as [|[u0 s0] d IH]; simpl; [done|].
  destruct (decide (name ∈ item0 s0)).
  - intros [= -> ->]. split; [apply list_elem_of_here | done].
  - intros [? ?]%IH. split; [by apply list_elem_of_further | done].
Qed.

Lemma find_service_None name d :
  find_service name d = None ↔ ∀ uuid s, (uuid, s) ∈ d → name ∉ item0 s.
Proof.
  induction d as [|[u0 s0] d IH]; simpl.
  - split; [|done]. intros _ ?? H. by apply elem_of_nil in H.
  - destruct (decide (name ∈ item0 s0)) as [Hin|Hout].
    + split; [done|]. intros H. destruct (H u0 s0); [apply list_elem_of_here|done].
    + rewrite IH. split.
      * intros H u s [[= -> ->]|?]%elem_of_cons; [done|eauto].
      * intros H u s ?. apply (H u s). by apply list_elem_of_further.
Qed.

Lemma find_service_get name d uuid s :
  NoDup (dict_keys d) → find_service name d = Some (uuid, s) →
  dict_get uuid d = Some s.
Proof.
  intros Hnd [Hin _]%find_service_Some. by apply dict_elem_get.
Qed.

Lemma registry_ok_nil : registry_ok (UUID := UUID) [].
Proof.
  split; [apply NoDup_nil_2|]. intros ?? H. by apply elem_of_nil in H.
Qed.

Lemma registry_ok_set d uuid s :
  registry_ok d → item1 s = uuid → item0 s ≠ ∅ →
  registry_ok (dict_set uuid s d).
Proof.
  intros [Hnd Hall] H1 H0. split; [by apply dict_set_NoDup|].
  intros u' s' [[-> ->]|Hin]%dict_elem_set; [done|by apply Hall].
Qed.

Lemma registry_ok_pop d uuid : registry_ok d → registry_ok (dict_pop uuid d).
Proof.
  intros [Hnd Hall]. split; [by apply dict_pop_NoDup|].
  intros u' s' Hin%dict_elem_pop. by apply Hall.
Qed.

(** The merge of lines 105-116 as one assignment: the name joins the name
    set already stored for the identity, or starts a new one; the metadata
    is overwritten. *)
Lemma merge_service_eq name (r : Resolved (UUID := UUID)) d :
  merge_service name r d
  = dict_set (r_uuid r)
      (Service6
         (match dict_get (r_uuid r) d with
          | Some s => item0 s ∪ {[name]}
          | None => {[name]}
          end)
         (match dict_get (r_uuid r) d with
          | Some s => item1 s
          | None => r_uuid r
          end)
         (r_model_name r) (r_friendly_name r) (r_host r) (r_port r))
      d.
Proof.
  unfold merge_service, dict_setdefault.
  destruct (dict_get (r_uuid r) d) as [s|] eqn:E; [done|].
  cbn [item0 item1]. rewrite dict_set_set. do 2 f_equal. apply union_idemp_L.
Qed.

Lemma merge_service_ok name (r : Resolved (UUID := UUID)) d :
  registry_ok d → registry_ok (merge_service name r d).
Proof.
  intros Hok. rewrite merge_service_eq. apply registry_ok_set; [done| |].
  - cbn [item1]. destruct (dict_get _ d) as [s|] eqn:E; [|done].
    apply dict_get_Some_elem in E. by apply Hok in E as [? _].
  - cbn [item0]. apply (non_empty_inhabited_L name).
    destruct (dict_get _ d); [apply elem_of_union_r|]; by apply elem_of_singleton_2.
Qed.

Lemma merge_service_get name (r : Resolved (UUID := UUID)) d :
  dict_get (r_uuid r) (merge_service name r d)
  = Some (Service6 (match dict_get (r_uuid r) d with
                    | Some s => item0 s ∪ {[name]}
                    | None => {[name]}
                    end)
                   (match dict_get (r_uuid r) d with
                    | Some s => item1 s
                    | None => r_uuid r
                    end)
                   (r_model_name r) (r_friendly_name r) (r_host r) (r_port r)).
Proof. rewrite merge_service_eq. apply dict_get_set_eq. Qed.

Lemma merge_service_get_ne name (r : Resolved (UUID := UUID)) d uuid :
  uuid ≠ r_uuid r → dict_get uuid (merge_service name r d) = dict_get uuid d.
Proof. intros. rewrite merge_service_eq. by apply dict_get_set_ne. Qed.

(** [_add_update_service] by what the resolution gives. *)
Lemma add_update_resolved zconf typ name callback l r :
  resolved zconf = Some r →
  ∃ sent,
    _add_update_service zconf typ name callback l
    = {| listener := set_services (merge_service name r (services l)) l;
         trace := queries typ name sent ++ invoke2 callback (r_uuid r) name;
         raised := None |}.
Proof.
  unfold resolved, _add_update_service.
  destruct (query_loop zconf 4 0) as [[[service|]|e] sent]; try done.
  destruct (read_service service) as [[r'|]|e]; try done.
  intros [= ->]. by exists sent.
Qed.

Lemma add_update_unresolved zconf typ name callback l :
  resolved (UUID := UUID) zconf = None →
  listener (_add_update_service zconf typ name callback l) = l
  ∧ callbacks (trace (_add_update_service zconf typ name callback l)) = [].
Proof.
  assert (Hq : ∀ n, callbacks (CB := CB) (queries (UUID := UUID) typ name n) = []).
  { induction n as [|n IH]; [done|]. unfold queries in *. simpl.
    unfold callbacks in *. by rewrite filter_cons_False. }
  unfold resolved, _add_update_service.
  destruct (query_loop zconf 4 0) as [[[service|]|e] sent]; simpl; auto.
  destruct (read_service service) as [[r'|]|e]; simpl; auto. done.
Qed.

Lemma callbacks_queries typ name n :
  callbacks (CB := CB) (queries (UUID := UUID) typ name n) = [].
Proof.
  induction n as [|n IH]; [done|]. unfold queries in *. simpl.
  unfold callbacks in *. by rewrite filter_cons_False.
Qed.

End RegistryFacts.

(** ** Events keep the registry well formed *)

Section InvariantFacts.
Context {UUID : Type} `{!Runtime UUID} {CB : Type}.
Implicit Types (l : CastListener (UUID := UUID) (CB := CB)).
Implicit Types (evs : list Event).

Lemma remove_service_ok typ name l :
  registry_ok (services l) →
  registry_ok (services (listener (remove_service typ name l))).
Proof.
  intros Hok. unfold remove_service.
  destruct (find_service name (services l)) as [[uuid s]|] eqn:E; [|done].
  apply find_service_Some in E as [Hin _].
  case_decide as Hsize; cbn [listener set_services services].
  - by apply registry_ok_pop.
  - apply registry_ok_set; [done| |].
    + rewrite item1_with_names. by apply Hok in Hin as [? _].
    + intros Hempty. apply Hsize. rewrite Hempty. apply size_empty.
Qed.

Lemma add_update_service_ok zconf typ name callback l :
  registry_ok (services l) →
  registry_ok (services (listener (_add_update_service zconf typ name callback l))).
Proof.
  intros Hok. destruct (resolved (UUID := UUID) zconf) as [r|] eqn:E.
  - destruct (add_update_resolved zconf typ name callback l r E) as [sent ->].
    cbn [listener set_services services]. by apply merge_service_ok.
  - by destruct (add_update_unresolved zconf typ name callback l E) as [-> _].
Qed.

Lemma deliver_ok ev l :
  registry_ok (services l) → registry_ok (services (listener (deliver ev l))).
Proof.
  destruct ev; cbn [deliver]; unfold add_service, update_service;
    auto using remove_service_ok, add_update_service_ok.
Qed.

Lemma run_ok evs l :
  registry_ok (services l) → registry_ok (services (run evs l).1).
Proof.
  revert l. induction evs as [|ev evs IH]; intros l Hok; [done|].
  cbn [run]. specialize (IH (listener (deliver ev l)) (deliver_ok ev l Hok)).
  by destruct (run evs (listener (deliver ev l))).
Qed.

(** ** C1 *)


(** ** C2 *)

(** C2. remove_service, on any registry with unique keys. The call never
    raises. If no record holds the name, the listener is unchanged and
    nothing is called. Otherwise the first record that holds it (in
    dictionary order) is the entry of its identity; the name is taken out
    of that record's name set and every other identity's entry is left as
    it was. If that empties the set, the identity has no entry any more and
    the trace is exactly one call of the remove callback (when one is
    registered) with the identity, the name and the record: the metadata it
    last had, its shared name set now empty. If names remain, the entry is
    the record with the name taken out and the trace is exactly one call of
    the update callback (when one is registered), the remove callback not
    being called. *)
Theorem remove_service_spec typ name l
    (Hdict : NoDup (dict_keys (services l))) :
  let out := remove_service typ name l in
  raised out = None
  ∧ ((∀ uuid s, (uuid, s) ∈ services l → name ∉ item0 s) →
     listener out = l ∧ trace out = [])
  ∧ ((∃ uuid s, (uuid, s) ∈ services l ∧ name ∈ item0 s) →
     ∃ uuid s, find_service name (services l) = Some (uuid, s))
  ∧ (∀ uuid s, find_service name (services l) = Some (uuid, s) →
       let service := with_names (item0 s ∖ {[name]}) s in
       dict_get uuid (services l) = Some s
       ∧ name ∈ item0 s
       ∧ item0 service = item0 s ∖ {[name]}
       ∧ (∀ uuid', uuid' ≠ uuid →
            dict_get uuid' (services (listener out))
            = dict_get uuid' (services l))
       ∧ (item0 s = {[name]} →
            dict_get uuid (services (listener out)) = None
            ∧ trace out = match remove_callback l with
                          | Some cb => [Callback3 cb uuid name service]
                          | None => []
                          end)
       ∧ (item0 s ≠ {[name]} →
            dict_get uuid (services (listener out)) = Some service
            ∧ trace out = match update_callback l with
                          | Some cb => [Callback2 cb uuid name]
                          | None => []
                          end)).
Proof.
  intros out. subst out. split_and!.
  - unfold remove_service.
    destruct (find_service name (services l)) as [[uuid s]|]; [|done].
    by case_decide.
  - intros Hnone%find_service_None. unfold remove_service. by rewrite Hnone.
  - intros (uuid & s & Hin & Hname).
    destruct (find_service name (services l)) as [[u' s']|] eqn:E; [by eauto|].
    rewrite find_service_None in E. by destruct (E uuid s Hin).
  - intros uuid s Hfind service.
    pose proof (find_service_get _ _ _ _ Hdict Hfind) as Hget.
    pose proof (find_service_Some _ _ _ _ Hfind) as [Hin Hname].
    unfold remove_service. rewrite Hfind. fold service.
    assert (Hitem : item0 service = item0 s ∖ {[name]})
      by apply item0_with_names.
    split_and!; try done.
    + intros uuid' Hne. case_decide; cbn [listener set_services services].
      * by apply dict_get_pop_ne.
      * by apply dict_get_set_ne.
    + intros Hlast.
      rewrite decide_True
        by (rewrite Hitem, Hlast, difference_diag_L; apply size_empty).
      cbn [listener set_services services trace]. split; [|done].
      by apply dict_get_pop_eq.
    + intros Hmore.
      rewrite decide_False.
      * cbn [listener set_services services trace]. split; [|done].
        apply dict_get_set_eq.
      * rewrite Hitem. intros Hsize. by apply Hmore, last_name.
Qed.

End InvariantFacts.

(** ** Names under one identity *)

Section NameFacts.
Context {UUID : Type} `{!Runtime UUID} {CB : Type}.
Implicit Types (l : CastListener (UUID := UUID) (CB := CB)).
Implicit Types (evs : list Event).

Lemma merge_only_record name (r : Resolved (UUID := UUID)) names d :
  only_record (r_uuid r) names d →
  only_record (r_uuid r) (names ∪ {[name]}) (merge_service name r d).
Proof.
  assert (Hne : names ∪ {[name]} ≠ ∅).
  { apply (non_empty_inhabited_L name), elem_of_union_r.
    by apply elem_of_singleton_2. }
  intros [[-> ->]|[_ (s & -> & <-)]]; right; (split; [done|]);
    rewrite merge_service_eq; cbn [dict_get dict_set].
  - eexists. split; [done|]. cbn [item0]. by rewrite union_empty_l_L.
  - rewrite !decide_True by done. eexists. by split.
Qed.

Lemma remove_only_record typ name uuid names l :
  only_record uuid names (services l) →
  only_record uuid (names ∖ {[name]})
    (services (listener (remove_service typ name l))).
Proof.
  intros [[-> Hd]|[Hne (s & Hd & <-)]]; unfold remove_service; rewrite Hd;
    cbn [find_service].
  - left. split; [|done]. apply set_eq. intros x.
    rewrite elem_of_difference. split; [by intros [? _]|].
    intros Hx. by apply not_elem_of_empty in Hx.
  - destruct (decide (name ∈ item0 s)) as [Hin|Hout].
    + rewrite item0_with_names. case_decide as Hsize;
        cbn [listener set_services services dict_pop dict_set].
      * rewrite decide_True by done. left. split; [|done].
        apply leibniz_equiv. by apply size_empty_inv.
      * rewrite decide_True by done. right. split.
        -- intros Hempty. apply Hsize. rewrite Hempty. apply size_empty.
        -- eexists. split; [done|]. apply item0_with_names.
    + cbn [listener]. rewrite Hd. right. split.
      * rewrite difference_disjoint_L; [done|].
        by apply disjoint_singleton_r.
      * exists s. split; [done|]. symmetry. apply difference_disjoint_L.
        by apply disjoint_singleton_r.
Qed.

Lemma add_update_only_record zconf typ name callback uuid names l :
  match resolved zconf with Some r => r_uuid r = uuid | None => True end →
  only_record uuid names (services l) →
  only_record uuid
    (match resolved (UUID := UUID) zconf with
     | Some _ => names ∪ {[name]}
     | None => names
     end)
    (services (listener (_add_update_service zconf typ name callback l))).
Proof.
  intros Hid Hrec. destruct (resolved (UUID := UUID) zconf) as [r|] eqn:E.
  - destruct (add_update_resolved zconf typ name callback l r E) as [sent ->].
    cbn [listener set_services services]. subst uuid.
    by apply merge_only_record.
  - by destruct (add_update_unresolved zconf typ name callback l E) as [-> _].
Qed.

Lemma run_only_record uuid evs names l :
  same_identity uuid evs →
  only_record uuid names (services l) →
  only_record uuid (live_names (UUID := UUID) evs names)
    (services (run evs l).1).
Proof.
  revert names l. induction evs as [|ev evs IH]; intros names l Hid Hrec;
    [done|].
  cbn [run].
  destruct (run evs (listener (deliver ev l))) as [l' t] eqn:Hrun.
  cbn [fst]. replace l' with (run evs (listener (deliver ev l))).1
    by (by rewrite Hrun).
  destruct ev as [zconf typ name|zconf typ name|typ name];
    cbn [same_identity live_names deliver] in *.
  - destruct Hid as [Hid Hrest].
    pose proof (add_update_only_record zconf typ name (add_callback l)
                  uuid names l Hid Hrec) as Hstep.
    destruct (resolved (UUID := UUID) zconf); by apply IH.
  - destruct Hid as [Hid Hrest].
    pose proof (add_update_only_record zconf typ name (update_callback l)
                  uuid names l Hid Hrec) as Hstep.
    destruct (resolved (UUID := UUID) zconf); by apply IH.
  - apply IH; [done|]. by apply remove_only_record.
Qed.

Lemma only_record_names uuid names l :
  only_record uuid names (services l) →
  names_of l uuid = names
  ∧ (dict_get uuid (services l) = None ↔ names = ∅).
Proof.
  unfold names_of. intros [[-> ->]|[Hne (s & -> & <-)]]; cbn [dict_get].
  - done.
  - rewrite decide_True by done. split; [done|]. split; [done|].
    intros ?. by destruct Hne.
Qed.

Lemma live_names_no_readd evs (acc : gset string) :
  no_readd (UUID := UUID) evs →
  live_names (UUID := UUID) evs acc
  = (acc ∪ added_names (UUID := UUID) evs) ∖ removed_names evs.
Proof.
  revert acc. induction evs as [|ev evs IH]; intros acc Hno.
  - cbn. apply set_eq. intros x. rewrite elem_of_difference, elem_of_union.
    split; [intros ?; split; [by left|apply not_elem_of_empty]|].
    intros [[?|Hx] _]; [done|]. by apply not_elem_of_empty in Hx.
  - destruct ev as [zconf typ name|zconf typ name|typ name];
      cbn [no_readd live_names added_names removed_names] in *.
    + destruct (resolved (UUID := UUID) zconf); rewrite IH by done;
        [by rewrite (assoc_L (∪))|done].
    + destruct (resolved (UUID := UUID) zconf); rewrite IH by done;
        [by rewrite (assoc_L (∪))|done].
    + destruct Hno as [Hfresh Hno]. rewrite IH by done.
      apply set_eq. intros x.
      rewrite !elem_of_difference, !elem_of_union, elem_of_difference,
        elem_of_singleton.
      split.
      * intros [[[Hx Hne]|Hx] Hrem].
        -- split; [by left|]. by intros [?|?].
        -- split; [by right|]. intros [->|?]; done.
      * intros [[Hx|Hx] Hrem].
        -- split; [left; split; [done|]; intros ?; apply Hrem; by left|].
           intros ?. apply Hrem. by right.
        -- split; [by right|]. intros ?. apply Hrem. by right.
Qed.

(** ** C3 *)

(** C3, amended. For every sequence of add, update and remove events on a
    new listener in which every add or update that resolves carries the
    same identity, the name set recorded for that identity at the end is
    what the events give when taken in order: each resolved add or update
    puts its name in, each remove takes its name out (so a name is present
    exactly when its latest event is an add or update). The record is
    absent exactly when that set is empty. When no name is announced again
    after a remove of it, the set is the union of the added names minus the
    removed names. *)
Theorem names_follow_events (add remove update : option CB) (uuid : UUID)
    (evs : list Event) (Hid : same_identity uuid evs) :
  let l := (run evs (CastListener_init add remove update)).1 in
  names_of l uuid = live_names (UUID := UUID) evs ∅
  ∧ (dict_get uuid (services l) = None ↔ live_names (UUID := UUID) evs ∅ = ∅)
  ∧ (no_readd (UUID := UUID) evs →
     names_of l uuid = added_names (UUID := UUID) evs ∖ removed_names evs).
Proof.
  intros l.
  assert (Hrec : only_record uuid (live_names (UUID := UUID) evs ∅) (services l)).
  { apply run_only_record; [done|]. left. by split. }
  apply only_record_names in Hrec as [Hnames Habsent].
  split_and!; [done|done|].
  intros Hno. rewrite Hnames, live_names_no_readd by done.
  by rewrite union_empty_l_L.
Qed.

(** ** C4 *)

(** C4, amended. For every announcement that resolves to an identity, which
    callback is called follows the kind of the event and not the state of
    the registry: add_service calls the add callback and update_service
    the update callback (each once, when registered, with the resolved
    identity and the name), whether or not the identity is already a key. *)
Theorem callback_follows_event_kind zconf typ name l
    (r : Resolved (UUID := UUID)) (Hres : resolved zconf = Some r) :
  callbacks (trace (add_service zconf typ name l))
  = match add_callback l with
    | Some cb => [Callback2 cb (r_uuid r) name]
    | None => []
    end
  ∧ callbacks (trace (update_service zconf typ name l))
    = match update_callback l with
      | Some cb => [Callback2 cb (r_uuid r) name]
      | None => []
      end.
Proof.
  unfold add_service, update_service.
  destruct (add_update_resolved zconf typ name (add_callback l) l r Hres)
    as [sent1 ->].
  destruct (add_update_resolved zconf typ name (update_callback l) l r Hres)
    as [sent2 ->].
  cbn [trace]. unfold callbacks. rewrite !filter_app.
  fold (callbacks (CB := CB) (queries (UUID := UUID) typ name sent1)).
  fold (callbacks (CB := CB) (queries (UUID := UUID) typ name sent2)).
  rewrite !callbacks_queries.
  by destruct (add_callback l), (update_callback l).
Qed.

(** ** C5 *)

Lemma query_loop_gives_up zconf left sent k :
  (∀ i, i < k → zconf (sent + i) = Answer None) →
  (k < left → zconf (sent + k) = Fails IOError) →
  query_loop zconf left sent = (Ret None, sent + (S k `min` left)).
Proof.
  revert sent k. induction left as [|left IH]; intros sent k Hnone Hio.
  - cbn. f_equal. lia.
  - cbn [query_loop]. destruct k as [|k].
    + rewrite Nat.add_0_r in Hio. rewrite Hio by lia. cbn. f_equal. lia.
    + specialize (Hnone 0 ltac:(lia)) as H0. rewrite Nat.add_0_r in H0.
      rewrite H0, (IH (S sent) k).
      * f_equal. lia.
      * intros i Hi. replace (S sent + i) with (sent + S i) by lia.
        apply Hnone. lia.
      * intros Hk. replace (S sent + k) with (sent + S k) by lia.
        apply Hio. lia.
Qed.

(** C5, amended. An I/O failure is not retried. If the first [k] queries
    of an add or update return no data and the next one, when fewer than 4
    were sent, raises [IOError], then exactly [min (k+1) 4] queries are
    sent: one when the first attempt fails, four only when every attempt
    returns no data. The event is then dropped: the listener, and with it
    the registry, is unchanged, no callback is called and nothing is
    raised. *)
Theorem io_error_ends_resolution zconf typ name (callback : option CB) l k
    (Hnone : ∀ i, i < k → zconf i = Answer None)
    (Hio : k < 4 → zconf k = Fails IOError) :
  _add_update_service zconf typ name callback l
  = {| listener := l;
       trace := replicate (S k `min` 4) (GetServiceInfo typ name);
       raised := None |}.
Proof.
  unfold _add_update_service.
  by rewrite (query_loop_gives_up zconf 4 0 k Hnone Hio).
Qed.

End NameFacts.

(** ** Sessions *)

Section SessionFacts.
Context {UUID : Type} `{!Runtime UUID}.
Implicit Types (l : CastListener (UUID := UUID) (CB := unit)).
Implicit Types (ev : Event) (evs : list Event).

Lemma callbacks_of_app (t1 t2 : list (Effect (UUID := UUID) (CB := unit))) :
  callbacks_of (t1 ++ t2) = callbacks_of t1 ++ callbacks_of t2.
Proof.
  induction t1 as [|e t1 IH]; [done|]. destruct e; cbn; by rewrite ?IH.
Qed.

Lemma callbacks_of_queries typ name n :
  callbacks_of (UUID := UUID) (queries typ name n) = [].
Proof. induction n as [|n IH]; [done|]. exact IH. Qed.

Lemma listener_callbacks_kept {CB : Type} ev
    (l : CastListener (UUID := UUID) (CB := CB)) :
  add_callback (listener (deliver ev l)) = add_callback l
  ∧ remove_callback (listener (deliver ev l)) = remove_callback l
  ∧ update_callback (listener (deliver ev l)) = update_callback l.
Proof.
  destruct ev as [zconf typ name|zconf typ name|typ name]; cbn [deliver].
  - unfold add_service, _add_update_service.
    destruct (query_loop zconf 4 0) as [[[service|]|e] sent]; try done.
    by destruct (read_service service) as [[r|]|e].
  - unfold update_service, _add_update_service.
    destruct (query_loop zconf 4 0) as [[[service|]|e] sent]; try done.
    by destruct (read_service service) as [[r|]|e].
  - unfold remove_service.
    destruct (find_service name (services l)) as [[uuid s]|]; [|done].
    by case_decide.
Qed.

Lemma session_shaped_deliver ev l :
  session_shaped l → session_shaped (listener (deliver ev l)).
Proof.
  unfold session_shaped.
  destruct (listener_callbacks_kept ev l) as (-> & -> & ->). done.
Qed.

(** The closure is called for the adds that resolve, and for nothing else. *)
Lemma session_callbacks ev l :
  session_shaped l →
  callbacks_of (trace (deliver ev l))
  = match ev with
    | AddService zconf _ name =>
        match resolved zconf with
        | Some r => [(r_uuid r, name)]
        | None => []
        end
    | _ => []
    end.
Proof.
  intros (Hadd & Hrem & Hupd).
  destruct ev as [zconf typ name|zconf typ name|typ name]; cbn [deliver].
  - unfold add_service, resolved, _add_update_service. rewrite Hadd.
    destruct (query_loop zconf 4 0) as [[[service|]|e] sent]; cbn [trace];
      try apply callbacks_of_queries.
    destruct (read_service service) as [[r|]|e]; cbn [trace];
      try apply callbacks_of_queries.
    by rewrite callbacks_of_app, callbacks_of_queries.
  - unfold update_service, _add_update_service. rewrite Hupd.
    destruct (query_loop zconf 4 0) as [[[service|]|e] sent]; cbn [trace];
      try apply callbacks_of_queries.
    destruct (read_service service) as [[r|]|e]; cbn [trace];
      try apply callbacks_of_queries.
    by rewrite callbacks_of_app, callbacks_of_queries.
  - unfold remove_service. rewrite Hrem, Hupd.
    destruct (find_service name (services l)) as [[uuid s]|]; [|done].
    by case_decide.
Qed.

(** After an add that resolves, the registry holds the announced device
    under its identity, with the announced friendly name. *)
Lemma add_service_registers zconf typ name l (r : Resolved (UUID := UUID)) :
  resolved zconf = Some r →
  ∃ service,
    dict_get (r_uuid r) (services (listener (add_service zconf typ name l)))
    = Some service
    ∧ item3 service = r_friendly_name r.
Proof.
  intros Hres. unfold add_service.
  destruct (add_update_resolved zconf typ name (add_callback l) l r Hres)
    as [sent ->].
  cbn [listener set_services services]. rewrite merge_service_get.
  by eexists.
Qed.

Lemma opt_mem_truthy {A : Type} `{!EqDecision A} (x : A) c :
  truthy c && opt_mem x c = opt_mem x c.
Proof.
  by destruct c as [[|y c]|].
Qed.

Lemma name_mem_truthy (f : option string) c :
  truthy c && name_mem f c = name_mem f c.
Proof.
  destruct f as [f|]; [apply opt_mem_truthy|]. cbn. apply andb_false_r.
Qed.

(** The recorded tuples read through the shared name sets: keys, order and
    the items other than the names are as recorded. *)
Lemma dict_get_aliased (l : CastListener (UUID := UUID) (CB := unit))
    shared (cc : list (UUID * Service (UUID := UUID))) uuid :
  dict_get uuid (aliased l shared cc)
  = (λ s, if list_mem uuid shared
          then with_names (names_of l uuid) s else s) <$> dict_get uuid cc.
Proof.
  induction cc as [|[u s] cc IH]; [done|].
  cbn [aliased fmap list_fmap dict_get]. fold (aliased l shared cc).
  destruct (decide (uuid = u)) as [->|Hne]; [done|exact IH].
Qed.

Lemma dict_keys_aliased (l : CastListener (UUID := UUID) (CB := unit))
    shared (cc : list (UUID * Service (UUID := UUID))) :
  dict_keys (aliased l shared cc) = dict_keys cc.
Proof.
  unfold dict_keys, aliased. rewrite <- list_fmap_compose.
  apply list_fmap_ext. by intros _ [u s] _.
Qed.

Lemma dict_mem_aliased (l : CastListener (UUID := UUID) (CB := unit))
    shared (cc : list (UUID * Service (UUID := UUID))) uuid :
  dict_mem uuid (aliased l shared cc) = dict_mem uuid cc.
Proof.
  unfold dict_mem. rewrite dict_get_aliased.
  by destruct (dict_get uuid cc).
Qed.

Lemma elem_of_aliased (l : CastListener (UUID := UUID) (CB := unit))
    shared (cc : list (UUID * Service (UUID := UUID))) uuid s :
  (uuid, s) ∈ aliased l shared cc →
  ∃ s0, (uuid, s0) ∈ cc
        ∧ s = (if list_mem uuid shared
               then with_names (names_of l uuid) s0 else s0).
Proof.
  unfold aliased. intros ([u s0] & Heq & Hin)%list_elem_of_fmap.
  injection Heq as -> ->. by exists s0.
Qed.

Lemma still_shared_mem (l : CastListener (UUID := UUID) (CB := unit))
    shared uuid :
  list_mem uuid (still_shared l shared)
  = list_mem uuid shared && dict_mem uuid (services l).
Proof.
  unfold list_mem, still_shared.
  destruct (dict_mem uuid (services l)) eqn:Hmem.
  - rewrite andb_true_r. apply bool_decide_ext.
    rewrite list_elem_of_filter. split; [by intros [_ ?]|by intros ?; split].
  - rewrite andb_false_r. apply bool_decide_eq_false.
    rewrite list_elem_of_filter. intros [Hlive _]. congruence.
Qed.

(** The closure of [discover_listed_chromecasts], field by field. *)
Lemma discover_listed_callback_fields l uuid name
    (c : Listed (UUID := UUID) Service * list UUID) service :
  dict_get uuid (services l) = Some service →
  ∃ c',
    discover_listed_callback l uuid name c = Ret c'
    ∧ cc_list c'.1
      = (if opt_mem uuid (uuids c.1)
            || name_mem (item3 service) (friendly_names c.1)
         then dict_set uuid service (cc_list c.1) else cc_list c.1)
    ∧ c'.2
      = (if name_mem (item3 service) (friendly_names c.1)
         then [uuid] else [])
        ++ (if opt_mem uuid (uuids c.1) then [uuid] else [])
        ++ c.2
    ∧ (friendly_names c'.1, uuids c'.1)
      = drained (uuid, item3 service) (friendly_names c.1, uuids c.1)
    ∧ discover_complete c'.1 = discover_complete c.1 || all_found c'.1.
Proof.
  intros Hget. destruct c as [st shared].
  unfold discover_listed_callback. rewrite Hget.
  eexists. split; [done|]. cbn [fst snd].
  rewrite opt_mem_truthy.
  destruct (opt_mem uuid (uuids st)) eqn:Hid;
    cbn [record_service set_uuids set_cc_list friendly_names uuids cc_list
         fst snd];
    rewrite name_mem_truthy;
    destruct (name_mem (item3 service) (friendly_names st)) eqn:Hname;
    unfold signal_if_done, drained, all_found;
    cbn [record_service set_friendly_names set_uuids set_cc_list
         friendly_names uuids cc_list fst snd orb app];
    rewrite ?Hid, ?Hname, ?dict_set_set;
    match goal with
    | |- context [if ?b then _ else _] => destruct b eqn:Hdone
    end;
    cbn; rewrite ?Hdone, ?orb_true_r, ?orb_false_r; done.
Qed.

End SessionFacts.

(** ** Criteria collections *)

Section CriteriaFacts.
Context {UUID : Type} `{!Runtime UUID}.


Lemma list_remove_sublist {A : Type} `{!EqDecision A} (x : A) (l : list A) :
  list_remove x l `sublist_of` l.
Proof.
  induction l as [|y l IH]; [done|]. cbn [list_remove].
  destruct (decide (x = y)); [by apply sublist_cons | by apply sublist_skip].
Qed.






(** Once nothing is left to find, a further device changes nothing. *)
Lemma drained_found (a : UUID * option string) c :
  negb (truthy c.1) && negb (truthy c.2) = true → drained a c = c.
Proof.
  destruct c as [fns us]. cbn [fst snd]. intros [Hf Hu]%andb_true_iff.
  unfold drained. cbn [fst snd]. f_equal.
  - destruct a as [u [f|]]; [|done]. by destruct fns as [[|g l]|].
  - by destruct us as [[|v l]|].
Qed.

Lemma announced_app (evs evs' : list Event) :
  announced (UUID := UUID) (evs ++ evs') = announced evs ++ announced evs'.
Proof.
  induction evs as [|ev evs IH]; [done|].
  destruct ev as [zconf typ name|zconf typ name|typ name]; cbn; [|done|done].
  destruct (resolved (UUID := UUID) zconf); cbn; by rewrite IH.
Qed.

End CriteriaFacts.

(** ** The set-bound session *)

Section DiscoverListedFacts.
Context {UUID : Type} `{!Runtime UUID}.
Implicit Types (ev : Event) (evs : list Event).
Implicit Types (st : Listed (UUID := UUID) (Service (UUID := UUID))).
Implicit Types (σ : Listing (UUID := UUID)).

Lemma discover_listed_run_snoc fns (us : option (list UUID)) evs ev :
  discover_listed_run fns us (evs ++ [ev])
  = discover_listed_step (discover_listed_run fns us evs) ev.
Proof. unfold discover_listed_run. by rewrite foldl_app. Qed.

(** One event of the session. Every event lets the recorded tuples read
    the registry's name sets as the listener method leaves them; only an
    add that resolves reaches the closure, which then runs once on the
    record just stored. *)
Lemma discover_listed_step_spec σ ev :
  session_shaped (ls_listener σ) →
  ls_listener (discover_listed_step σ ev)
  = listener (deliver ev (ls_listener σ))
  ∧ match ev with
    | AddService zconf _ name =>
        match resolved zconf with
        | Some r =>
            ∃ service,
              dict_get (r_uuid r)
                (services (listener (deliver ev (ls_listener σ))))
              = Some service
              ∧ item3 service = r_friendly_name r
              ∧ cc_list (ls_state (discover_listed_step σ ev))
                = (if opt_mem (r_uuid r) (uuids (ls_state σ))
                      || name_mem (r_friendly_name r)
                           (friendly_names (ls_state σ))
                   then dict_set (r_uuid r) service
                          (aliased (listener (deliver ev (ls_listener σ)))
                             (ls_shared σ) (cc_list (ls_state σ)))
                   else aliased (listener (deliver ev (ls_listener σ)))
                          (ls_shared σ) (cc_list (ls_state σ)))
              ∧ ls_shared (discover_listed_step σ ev)
                = (if name_mem (r_friendly_name r)
                        (friendly_names (ls_state σ))
                   then [r_uuid r] else [])
                  ++ (if opt_mem (r_uuid r) (uuids (ls_state σ))
                      then [r_uuid r] else [])
                  ++ still_shared (listener (deliver ev (ls_listener σ)))
                       (ls_shared σ)
              ∧ (friendly_names (ls_state (discover_listed_step σ ev)),
                 uuids (ls_state (discover_listed_step σ ev)))
                = drained (r_uuid r, r_friendly_name r)
                    (friendly_names (ls_state σ), uuids (ls_state σ))
              ∧ discover_complete (ls_state (discover_listed_step σ ev))
                = discover_complete (ls_state σ)
                  || all_found (ls_state (discover_listed_step σ ev))
        | None =>
            ls_state (discover_listed_step σ ev)
            = set_cc_list
                (aliased (listener (deliver ev (ls_listener σ)))
                   (ls_shared σ) (cc_list (ls_state σ)))
                (ls_state σ)
            ∧ ls_shared (discover_listed_step σ ev)
              = still_shared (listener (deliver ev (ls_listener σ)))
                  (ls_shared σ)
        end
    | _ =>
        ls_state (discover_listed_step σ ev)
        = set_cc_list
            (aliased (listener (deliver ev (ls_listener σ)))
               (ls_shared σ) (cc_list (ls_state σ)))
            (ls_state σ)
        ∧ ls_shared (discover_listed_step σ ev)
          = still_shared (listener (deliver ev (ls_listener σ)))
              (ls_shared σ)
    end.
Proof.
  intros Hshape. split; [done|].
  unfold discover_listed_step.
  rewrite (session_callbacks ev (ls_listener σ) Hshape).
  destruct ev as [zconf typ name|zconf typ name|typ name]; [|done|done].
  destruct (resolved (UUID := UUID) zconf) as [r|] eqn:Hres; [|done].
  cbn [deliver foldl ls_state ls_shared].
  destruct (add_service_registers zconf typ name (ls_listener σ) r Hres)
    as (service & Hget & Hfn).
  exists service. split; [done|]. split; [done|].
  destruct (discover_listed_callback_fields
              (listener (add_service zconf typ name (ls_listener σ)))
              (r_uuid r) name
              (set_cc_list
                 (aliased (listener (add_service zconf typ name
                                       (ls_listener σ)))
                    (ls_shared σ) (cc_list (ls_state σ)))
                 (ls_state σ),
               still_shared (listener (add_service zconf typ name
                                         (ls_listener σ)))
                 (ls_shared σ))
              service Hget) as (c' & -> & Hcc & Hsh & Hcrit & Hdone).
  cbn [fst snd set_cc_list cc_list uuids friendly_names discover_complete]
    in Hcc, Hsh, Hcrit, Hdone.
  by rewrite <- Hfn.
Qed.

(** The session after any events: the criteria are the initial ones drained
    by the announced devices, and completion is signalled exactly when a
    device was announced and nothing is left to find. *)
Lemma discover_listed_session fns (us : option (list UUID)) evs :
  session_shaped (discover_listed_chromecasts fns us evs).1
  ∧ (friendly_names (discover_listed_chromecasts fns us evs).2,
     uuids (discover_listed_chromecasts fns us evs).2)
    = foldl (λ c a, drained a c) (fns, us) (announced evs)
  ∧ (discover_complete (discover_listed_chromecasts fns us evs).2 = true
     ↔ announced (UUID := UUID) evs ≠ []
       ∧ all_found (discover_listed_chromecasts fns us evs).2 = true).
Proof.
  unfold discover_listed_chromecasts. cbn [fst snd].
  induction evs as [|ev evs IH] using rev_ind.
  - cbn. split_and!; [done|done|]. split; [done|]. by intros [? _].
  - rewrite discover_listed_run_snoc.
    set (σ := discover_listed_run fns us evs) in *.
    destruct IH as (Hshape & Hcrit & Hdone).
    destruct (discover_listed_step_spec σ ev Hshape) as [Hl Hst].
    rewrite announced_app, foldl_app, <- Hcrit. split_and!.
    + rewrite Hl. by apply session_shaped_deliver.
    + destruct ev as [zconf typ name|zconf typ name|typ name];
        cbn [announced]; [|by rewrite (proj1 Hst)|by rewrite (proj1 Hst)].
      destruct (resolved (UUID := UUID) zconf) as [r|];
        [|by rewrite (proj1 Hst)].
      destruct Hst as (service & _ & _ & _ & _ & Hcrit' & _). exact Hcrit'.
    + destruct ev as [zconf typ name|zconf typ name|typ name];
        cbn [announced]; rewrite ?app_nil_r;
        [|by rewrite (proj1 Hst)|by rewrite (proj1 Hst)].
      destruct (resolved (UUID := UUID) zconf) as [r|];
        [|by rewrite (proj1 Hst), app_nil_r].
      destruct Hst as (service & _ & _ & _ & _ & Hcrit' & Hsig).
      rewrite Hsig. split.
      * intros [Hold|Hnew]%orb_true_iff;
          (split; [by destruct (announced evs)|]); [|done].
        apply Hdone in Hold as [_ Hold]. unfold all_found in *.
        pose proof (drained_found (r_uuid r, r_friendly_name r)
                      (friendly_names (ls_state σ), uuids (ls_state σ)) Hold)
          as Hsame.
        rewrite Hsame in Hcrit'.
        pose proof (f_equal fst Hcrit') as Hf.
        pose proof (f_equal snd Hcrit') as Hu.
        cbn [fst snd] in Hf, Hu. by rewrite Hf, Hu.
      * intros [_ ->]. apply orb_true_r.
Qed.

Lemma discover_listed_shaped fns (us : option (list UUID)) evs :
  session_shaped (ls_listener (discover_listed_run fns us evs)).
Proof. exact (proj1 (discover_listed_session fns us evs)). Qed.

(** Registry entries survive an add or update. *)
Lemma add_update_keeps_entries zconf typ name (callback : option unit)
    (l : CastListener (UUID := UUID) (CB := unit)) uuid :
  dict_mem uuid (services l) = true →
  dict_mem uuid
    (services (listener (_add_update_service zconf typ name callback l)))
  = true.
Proof.
  intros Hmem.
  destruct (resolved (UUID := UUID) zconf) as [r|] eqn:E.
  - destruct (add_update_resolved zconf typ name callback l r E)
      as [sent ->].
    cbn [listener set_services services]. rewrite merge_service_eq.
    destruct (decide (uuid = r_uuid r)) as [->|Hne];
      [apply dict_mem_set_eq|].
    unfold dict_mem in *. by rewrite dict_get_set_ne.
  - by destruct (add_update_unresolved zconf typ name callback l E)
      as [-> _].
Qed.

Lemma list_mem_cons {A : Type} `{!EqDecision A} (x y : A) (c : list A) :
  list_mem x (y :: c) = bool_decide (x = y) || list_mem x c.
Proof.
  unfold list_mem. destruct (decide (x = y)) as [->|Hne].
  - rewrite bool_decide_eq_true_2 by apply list_elem_of_here.
    by rewrite bool_decide_eq_true_2.
  - rewrite (bool_decide_eq_false_2 (x = y)) by done. cbn [orb].
    apply bool_decide_ext. rewrite elem_of_cons.
    split; [by intros [?|?]|by right].
Qed.

(** The names of the recorded tuples after any events: a tuple whose name
    set is still the registry's reads the registry's names, any other
    tuple has outlived its entry and reads the empty set. Shared
    identities are in the registry and in the result. *)
Lemma recorded_names fns (us : option (list UUID)) evs :
  (∀ uuid,
     list_mem uuid (ls_shared (discover_listed_run fns us evs)) = true →
     dict_mem uuid (services (ls_listener (discover_listed_run fns us evs)))
     = true
     ∧ dict_mem uuid (cc_list (ls_state (discover_listed_run fns us evs)))
       = true)
  ∧ (∀ uuid s,
       dict_get uuid (cc_list (ls_state (discover_listed_run fns us evs)))
       = Some s →
       item0 s
       = (if list_mem uuid (ls_shared (discover_listed_run fns us evs))
          then names_of (ls_listener (discover_listed_run fns us evs)) uuid
          else ∅)).
Proof.
  induction evs as [|ev evs IH] using rev_ind.
  - split; [intros uuid Hin|intros uuid s Hget]; by vm_compute in *.
  - destruct IH as [Hlive Hnames].
    pose proof (discover_listed_shaped fns us evs) as Hshape.
    rewrite discover_listed_run_snoc.
    set (σ := discover_listed_run fns us evs) in *.
    destruct (discover_listed_step_spec σ ev Hshape) as [Hl Hst].
    rewrite Hl.
    set (l' := listener (deliver ev (ls_listener σ))) in *.
    assert (Hquiet :
      ls_state (discover_listed_step σ ev)
      = set_cc_list (aliased l' (ls_shared σ) (cc_list (ls_state σ)))
          (ls_state σ)
      ∧ ls_shared (discover_listed_step σ ev)
        = still_shared l' (ls_shared σ) →
      (∀ uuid,
         list_mem uuid (ls_shared (discover_listed_step σ ev)) = true →
         dict_mem uuid (services l') = true
         ∧ dict_mem uuid (cc_list (ls_state (discover_listed_step σ ev)))
           = true)
      ∧ (∀ uuid s,
           dict_get uuid (cc_list (ls_state (discover_listed_step σ ev)))
           = Some s →
           item0 s
           = (if list_mem uuid (ls_shared (discover_listed_step σ ev))
              then names_of l' uuid else ∅))).
    { intros [-> ->]. cbn [set_cc_list cc_list]. split.
      - intros uuid. rewrite still_shared_mem, dict_mem_aliased.
        intros [Hin Hmem]%andb_true_iff. split; [done|].
        by apply Hlive.
      - intros uuid s. rewrite dict_get_aliased, still_shared_mem.
        destruct (dict_get uuid (cc_list (ls_state σ))) as [s0|] eqn:Hget;
          [|done].
        cbn [fmap option_fmap option_map]. intros [= <-].
        destruct (list_mem uuid (ls_shared σ)) eqn:Hin; cbn [andb].
        + rewrite item0_with_names.
          destruct (dict_mem uuid (services l')) eqn:Hmem; [done|].
          unfold names_of, dict_mem in *.
          by destruct (dict_get uuid (services l')).
        + specialize (Hnames uuid s0 Hget). by rewrite Hin in Hnames. }
    destruct ev as [zconf typ name|zconf typ name|typ name];
      [|by apply Hquiet|by apply Hquiet].
    destruct (resolved (UUID := UUID) zconf) as [r|] eqn:Hres;
      [|by apply Hquiet].
    destruct Hst as (service & Hget & _ & Hcc & Hsh & _).
    assert (Hkept : ∀ uuid,
              list_mem uuid (still_shared l' (ls_shared σ))
              = list_mem uuid (ls_shared σ)).
    { intros uuid. rewrite still_shared_mem.
      destruct (list_mem uuid (ls_shared σ)) eqn:Hin; [|done].
      cbn [andb]. apply Hlive in Hin as [Hin _]. subst l'.
      cbn [deliver]. by apply add_update_keeps_entries. }
    set (hit := opt_mem (r_uuid r) (uuids (ls_state σ))
                || name_mem (r_friendly_name r)
                     (friendly_names (ls_state σ))) in *.
    assert (Hmem' : ∀ uuid,
              list_mem uuid
                (ls_shared
                   (discover_listed_step σ (AddService zconf typ name)))
              = bool_decide (uuid = r_uuid r) && hit
                || list_mem uuid (ls_shared σ)).
    { intros uuid. rewrite Hsh. subst hit.
      destruct (opt_mem (r_uuid r) (uuids (ls_state σ)));
        destruct (name_mem (r_friendly_name r)
                    (friendly_names (ls_state σ)));
        cbn [app orb]; rewrite ?list_mem_cons, Hkept;
        by destruct (bool_decide (uuid = r_uuid r)). }
    split.
    + intros uuid. rewrite Hmem', Hcc.
      intros [[Heq Hhit]%andb_true_iff|Hin]%orb_true_iff.
      * apply bool_decide_eq_true in Heq as ->. rewrite Hhit. split.
        -- unfold dict_mem. by rewrite Hget.
        -- apply dict_mem_set_eq.
      * destruct (Hlive uuid Hin) as [Hreg Hrec]. split.
        -- subst l'. cbn [deliver]. by apply add_update_keeps_entries.
        -- destruct hit.
           ++ destruct (decide (uuid = r_uuid r)) as [->|Hne];
                [apply dict_mem_set_eq|].
              unfold dict_mem. rewrite dict_get_set_ne by done.
              fold (dict_mem uuid
                      (aliased l' (ls_shared σ) (cc_list (ls_state σ)))).
              by rewrite dict_mem_aliased.
           ++ by rewrite dict_mem_aliased.
    + intros uuid s. rewrite Hmem', Hcc.
      assert (Hseen :
        dict_get uuid (aliased l' (ls_shared σ) (cc_list (ls_state σ)))
        = Some s →
        item0 s = (if list_mem uuid (ls_shared σ)
                   then names_of l' uuid else ∅)).
      { rewrite dict_get_aliased.
        destruct (dict_get uuid (cc_list (ls_state σ))) as [s0|] eqn:Hget0;
          [|done].
        cbn [fmap option_fmap option_map]. intros [= <-].
        destruct (list_mem uuid (ls_shared σ)) eqn:Hin.
        - apply item0_with_names.
        - specialize (Hnames uuid s0 Hget0). by rewrite Hin in Hnames. }
      destruct hit; cbn [andb]; [|rewrite andb_false_r; exact Hseen].
      destruct (decide (uuid = r_uuid r)) as [->|Hne].
      * rewrite dict_get_set_eq. intros [= <-].
        rewrite bool_decide_eq_true_2 by done. cbn [andb orb].
        unfold names_of. by rewrite Hget.
      * rewrite dict_get_set_ne by done.
        rewrite (bool_decide_eq_false_2 (uuid = r_uuid r)) by done.
        exact Hseen.
Qed.

(** ** C6 *)

(** C6, amended. In a set-bound session the closure is the listener's add
    callback only: it runs once for each add event that resolves to an
    identity, and for no update or remove event.

    When it runs, an identity in the remaining identities or a friendly
    name in the remaining names records the registry's current tuple under
    the identity and takes the matched key out of its remaining collection
    (both, when both match). Any other event leaves the remaining
    collections and the completion signal as they are.

    A recorded tuple shares its name set with the registry: every event,
    of any kind, lets the recorded tuples read the names the registry holds
    after it, and the empty set once the registry entry is popped; the
    other items stay as recorded. So after any events a recorded tuple
    reads the registry's names for its identity while the entry it was
    taken from lives, and no names afterwards.

    The completion signal is set in a call of the closure, and stays set,
    when both remaining collections are empty or [None]: after any events
    it is set exactly when at least one add event resolved and nothing is
    left to find. *)
Theorem discover_listed_events fns (us : option (list UUID)) evs ev :
  let before := discover_listed_chromecasts fns us evs in
  let after := discover_listed_chromecasts fns us (evs ++ [ev]) in
  let shared := ls_shared (discover_listed_run fns us evs) in
  let shared' := ls_shared (discover_listed_run fns us (evs ++ [ev])) in
  let seen := aliased after.1 shared (cc_list before.2) in
  callbacks_of (trace (deliver ev before.1))
  = match ev with
    | AddService zconf _ name =>
        match resolved zconf with
        | Some r => [(r_uuid r, name)]
        | None => []
        end
    | _ => []
    end
  ∧ match ev with
    | AddService zconf _ name =>
        match resolved zconf with
        | Some r =>
            ∃ service,
              dict_get (r_uuid r) (services after.1) = Some service
              ∧ item3 service = r_friendly_name r
              ∧ cc_list after.2
                = (if opt_mem (r_uuid r) (uuids before.2)
                      || name_mem (r_friendly_name r)
                           (friendly_names before.2)
                   then dict_set (r_uuid r) service seen
                   else seen)
              ∧ uuids after.2
                = (if opt_mem (r_uuid r) (uuids before.2)
                   then opt_remove (r_uuid r) (uuids before.2)
                   else uuids before.2)
              ∧ friendly_names after.2
                = (if name_mem (r_friendly_name r) (friendly_names before.2)
                   then name_remove (r_friendly_name r)
                          (friendly_names before.2)
                   else friendly_names before.2)
              ∧ ∀ uuid,
                  list_mem uuid shared'
                  = bool_decide (uuid = r_uuid r)
                    && (opt_mem (r_uuid r) (uuids before.2)
                        || name_mem (r_friendly_name r)
                             (friendly_names before.2))
                    || list_mem uuid shared
        | None =>
            after.2 = set_cc_list seen before.2
            ∧ ∀ uuid, list_mem uuid shared' = list_mem uuid shared
        end
    | UpdateService _ _ _ =>
        after.2 = set_cc_list seen before.2
        ∧ ∀ uuid, list_mem uuid shared' = list_mem uuid shared
    | RemoveService _ _ =>
        after.2 = set_cc_list seen before.2
        ∧ ∀ uuid,
            list_mem uuid shared'
            = list_mem uuid shared && dict_mem uuid (services after.1)
    end
  ∧ (∀ uuid s,
       dict_get uuid (cc_list before.2) = Some s →
       item0 s
       = (if list_mem uuid shared then names_of before.1 uuid else ∅))
  ∧ (discover_complete before.2 = true
     ↔ announced (UUID := UUID) evs ≠ []
       ∧ truthy (friendly_names before.2) = false
       ∧ truthy (uuids before.2) = false).
Proof.
  intros before after shared shared' seen.
  destruct (discover_listed_session fns us evs) as (Hshape & _ & Hdone).
  destruct (recorded_names fns us evs) as [Hlive Hnames].
  fold before in Hshape, Hdone.
  split_and!.
  - by apply session_callbacks.
  - subst before after shared shared' seen.
    unfold discover_listed_chromecasts in *. cbn [fst snd] in *.
    rewrite !discover_listed_run_snoc.
    set (σ := discover_listed_run fns us evs) in *.
    destruct (discover_listed_step_spec σ ev Hshape) as [Hl Hst].
    rewrite Hl.
    assert (Hkept : ∀ zconf typ name callback uuid,
              list_mem uuid
                (still_shared
                   (listener (_add_update_service zconf typ name callback
                                (ls_listener σ)))
                   (ls_shared σ))
              = list_mem uuid (ls_shared σ)).
    { intros zconf typ name callback uuid. rewrite still_shared_mem.
      destruct (list_mem uuid (ls_shared σ)) eqn:Hin; [|done].
      cbn [andb]. apply Hlive in Hin as [Hin _].
      by apply add_update_keeps_entries. }
    destruct ev as [zconf typ name|zconf typ name|typ name].
    + destruct (resolved (UUID := UUID) zconf) as [r|].
      * destruct Hst as (service & Hget & Hfn & Hcc & Hsh & Hcrit & _).
        exists service. unfold drained in Hcrit. cbn [fst snd] in Hcrit.
        split_and!; try done; try congruence.
        intros uuid. rewrite Hsh.
        destruct (opt_mem (r_uuid r) (uuids (ls_state σ)));
          destruct (name_mem (r_friendly_name r)
                      (friendly_names (ls_state σ)));
          cbn [app orb deliver]; unfold add_service;
          rewrite ?list_mem_cons, Hkept;
          by destruct (bool_decide (uuid = r_uuid r)).
      * destruct Hst as [Hst Hsh]. split; [done|].
        intros uuid. rewrite Hsh. apply Hkept.
    + destruct Hst as [Hst Hsh]. split; [done|].
      intros uuid. rewrite Hsh. apply Hkept.
    + destruct Hst as [Hst Hsh]. split; [done|].
      intros uuid. rewrite Hsh. apply still_shared_mem.
  - exact Hnames.
  - rewrite Hdone. unfold all_found.
    rewrite andb_true_iff, !negb_true_iff. done.
Qed.

End DiscoverListedFacts.

(** ** The connecting session *)

Section ConnectingFacts.
Context {UUID : Type} `{!Runtime UUID} {Chromecast : Type}.
Implicit Types (ev : Event) (evs : list Event).
Implicit Types (st : Listed (UUID := UUID) Chromecast).
Implicit Types (l : CastListener (UUID := UUID) (CB := unit)).
Implicit Types (connect : Connector (UUID := UUID) (Chromecast := Chromecast)).

(** The closure of [get_listed_chromecasts] by cases. A connection is
    attempted only for a matching device that [cc_list] does not hold yet,
    and then once; if it raises, nothing at all is changed. *)
Lemma get_listed_callback_cases connect l uuid name st service :
  dict_get uuid (services l) = Some service →
  get_listed_callback connect l uuid name st
  = if (opt_mem uuid (uuids st)
        || name_mem (item3 service) (friendly_names st))
       && negb (dict_mem uuid (cc_list st))
    then match connect service with
         | Ret cast =>
             {| state := signal_if_done
                           (with_drained (uuid, item3 service)
                              (set_cc_list (dict_set uuid cast (cc_list st)) st));
                attempts := 1;
                escaped := None |}
         | Raise e =>
             {| state := st;
                attempts := 1;
                escaped := if exn_eqb e ChromecastConnectionError
                           then None else Some e |}
         end
    else {| state := signal_if_done (with_drained (uuid, item3 service) st);
            attempts := 0;
            escaped := None |}.
Proof.
  intros Hget. unfold get_listed_callback, connect_once. rewrite Hget.
  rewrite opt_mem_truthy. unfold with_drained, drained. cbn [fst snd].
  destruct st as [cc fns us done]. cbn [uuids friendly_names cc_list].
  destruct (opt_mem uuid us) eqn:Hid;
    destruct (dict_mem uuid cc) eqn:Hknown;
    destruct (connect service) as [cast|e] eqn:Hconn;
    cbn [orb andb negb set_uuids set_cc_list set_friendly_names uuids
         friendly_names cc_list discover_complete];
    rewrite ?name_mem_truthy, ?dict_mem_set_eq, ?Hknown, ?Hconn;
    destruct (name_mem (item3 service) fns) eqn:Hname;
    cbn [orb andb negb set_uuids set_cc_list set_friendly_names uuids
         friendly_names cc_list discover_complete];
    rewrite ?Hknown, ?Hconn;
    try destruct (exn_eqb e ChromecastConnectionError);
    rewrite ?Hid; reflexivity.
Qed.


Lemma after_callbacks_listener l connect (c : Connecting) calls :
  c_listener c = l →
  c_listener (foldl (after_callback l connect) c calls) = l.
Proof.
  revert c. induction calls as [|call calls IH]; intros c Hc; [done|].
  cbn [foldl]. by apply IH.
Qed.

Lemma get_listed_step_listener (c : Connecting) ev connect :
  c_listener (get_listed_step c (ev, connect))
  = listener (deliver ev (c_listener c)).
Proof. unfold get_listed_step. by apply after_callbacks_listener. Qed.

Lemma get_listed_snoc fns (us : option (list UUID)) events x :
  get_listed_chromecasts (Chromecast := Chromecast) fns us (events ++ [x])
  = get_listed_step (get_listed_chromecasts fns us events) x.
Proof. unfold get_listed_chromecasts. by rewrite foldl_app. Qed.

Lemma get_listed_shaped fns (us : option (list UUID)) events :
  session_shaped
    (c_listener (get_listed_chromecasts (Chromecast := Chromecast)
                   fns us events)).
Proof.
  induction events as [|[ev connect] events IH] using rev_ind; [done|].
  rewrite get_listed_snoc, get_listed_step_listener.
  by apply session_shaped_deliver.
Qed.

Lemma add_service_raises_nothing {CB : Type} zconf typ name
    (l : CastListener (UUID := UUID) (CB := CB)) r :
  resolved zconf = Some r → raised (add_service zconf typ name l) = None.
Proof.
  intros Hres. unfold add_service.
  by destruct (add_update_resolved zconf typ name (add_callback l) l r Hres)
    as [sent ->].
Qed.

(** One event of the connecting session. An add that resolves runs the
    closure once on the record just stored; any other event leaves the
    closure state and the attempts as they were. *)
Lemma get_listed_step_spec (c : Connecting) ev connect :
  session_shaped (c_listener c) →
  match ev with
  | AddService zconf typ name =>
      match resolved zconf with
      | Some r =>
          ∃ service,
            dict_get (r_uuid r) (services (listener (deliver ev (c_listener c))))
            = Some service
            ∧ item3 service = r_friendly_name r
            ∧ get_listed_step c (ev, connect)
              = after_callback (listener (deliver ev (c_listener c))) connect
                  {| c_listener := listener (deliver ev (c_listener c));
                     c_state := c_state c;
                     c_attempts := c_attempts c;
                     c_escaped := c_escaped c |}
                  (r_uuid r, name)
      | None =>
          c_state (get_listed_step c (ev, connect)) = c_state c
          ∧ c_attempts (get_listed_step c (ev, connect)) = c_attempts c
      end
  | _ =>
      c_state (get_listed_step c (ev, connect)) = c_state c
      ∧ c_attempts (get_listed_step c (ev, connect)) = c_attempts c
  end.
Proof.
  intros Hshape. unfold get_listed_step. cbn [fst snd].
  rewrite (session_callbacks ev (c_listener c) Hshape).
  destruct ev as [zconf typ name|zconf typ name|typ name]; [|done|done].
  destruct (resolved (UUID := UUID) zconf) as [r|] eqn:Hres; [|done].
  cbn [deliver foldl].
  destruct (add_service_registers zconf typ name (c_listener c) r Hres)
    as (service & Hget & Hfn).
  exists service. split; [done|]. split; [done|].
  rewrite (add_service_raises_nothing zconf typ name (c_listener c) r Hres).
  cbn [option_list]. by rewrite app_nil_r.
Qed.

Lemma criteria_signal_drained {R : Type} a (st : Listed (UUID := UUID) R) :
  (friendly_names (signal_if_done (with_drained a st)),
   uuids (signal_if_done (with_drained a st)))
  = drained a (friendly_names st, uuids st)
  ∧ cc_list (signal_if_done (with_drained a st)) = cc_list st.
Proof.
  unfold signal_if_done.
  destruct (negb (truthy (friendly_names (with_drained a st)))
            && negb (truthy (uuids (with_drained a st))));
    split; try done;
    by destruct (drained a (friendly_names st, uuids st)).
Qed.

(** An add event that resolves to a wanted device that is not in the
    result, by what the connection to the stored record gives. *)
Lemma get_listed_add_wanted (c : Connecting) zconf typ name connect
    (r : Resolved (UUID := UUID)) service :
  session_shaped (c_listener c) →
  resolved zconf = Some r →
  opt_mem (r_uuid r) (uuids (c_state c))
  || name_mem (r_friendly_name r) (friendly_names (c_state c)) = true →
  dict_mem (r_uuid r) (cc_list (c_state c)) = false →
  dict_get (r_uuid r)
    (services (listener (add_service zconf typ name (c_listener c))))
  = Some service →
  get_listed_step c (AddService zconf typ name, connect)
  = match connect service with
    | Ret cast =>
        {| c_listener := listener (add_service zconf typ name (c_listener c));
           c_state :=
             signal_if_done
               (with_drained (r_uuid r, r_friendly_name r)
                  (set_cc_list
                     (dict_set (r_uuid r) cast (cc_list (c_state c)))
                     (c_state c)));
           c_attempts := c_attempts c + 1;
           c_escaped := c_escaped c |}
    | Raise e =>
        {| c_listener := listener (add_service zconf typ name (c_listener c));
           c_state := c_state c;
           c_attempts := c_attempts c + 1;
           c_escaped :=
             c_escaped c
             ++ (if exn_eqb e ChromecastConnectionError then [] else [e]) |}
    end.
Proof.
  intros Hshape Hres Hmatch Hnew Hget.
  pose proof (get_listed_step_spec c (AddService zconf typ name) connect
                Hshape) as Hstep.
  cbn match in Hstep. rewrite Hres in Hstep.
  destruct Hstep as (service' & Hget' & Hfn & ->).
  cbn [deliver] in Hget'. rewrite Hget in Hget'. injection Hget' as <-.
  unfold after_callback. cbn [c_state c_attempts c_escaped fst snd deliver].
  rewrite (get_listed_callback_cases connect _ _ name _ service Hget).
  rewrite Hfn, Hmatch, Hnew. cbn [andb negb].
  destruct (connect service) as [cast|e]; cbn [state attempts escaped].
  - cbn [option_list]. by rewrite app_nil_r.
  - by destruct (exn_eqb e ChromecastConnectionError).
Qed.

(** A client in the result stays in it: the closure connects to an
    identity only when the result does not hold it (lines 151 and 155). *)
Lemma get_listed_callback_keeps connect l uuid name st u
    (cast : Chromecast) :
  dict_get u (cc_list st) = Some cast →
  dict_get u (cc_list (state (get_listed_callback connect l uuid name st)))
  = Some cast.
Proof.
  intros Hin.
  destruct (dict_get uuid (services l)) as [service|] eqn:Hget;
    [|unfold get_listed_callback; by rewrite Hget].
  rewrite (get_listed_callback_cases connect l uuid name st service Hget).
  destruct (dict_mem uuid (cc_list st)) eqn:Hknown;
    rewrite ?andb_false_r; cbn [negb andb state];
    [by rewrite (proj2 (criteria_signal_drained _ st))|].
  rewrite andb_true_r.
  destruct (opt_mem uuid (uuids st)
            || name_mem (item3 service) (friendly_names st));
    cbn [state]; [|by rewrite (proj2 (criteria_signal_drained _ st))].
  destruct (connect service) as [cast'|e]; cbn [state]; [|done].
  rewrite (proj2 (criteria_signal_drained _ _)). cbn [set_cc_list cc_list].
  rewrite dict_get_set_ne; [done|].
  intros ->. unfold dict_mem in Hknown. by rewrite Hin in Hknown.
Qed.

Lemma get_listed_step_keeps (c : Connecting) ev connect u
    (cast : Chromecast) :
  dict_get u (cc_list (c_state c)) = Some cast →
  dict_get u (cc_list (c_state (get_listed_step c (ev, connect))))
  = Some cast.
Proof.
  intros Hin. unfold get_listed_step. cbn [fst snd].
  set (c0 := {| c_listener := listener (deliver ev (c_listener c));
                c_state := c_state c;
                c_attempts := c_attempts c;
                c_escaped := c_escaped c
                             ++ option_list (raised (deliver ev
                                                       (c_listener c))) |}).
  assert (Hin0 : dict_get u (cc_list (c_state c0)) = Some cast) by done.
  clearbody c0. revert c0 Hin0.
  induction (callbacks_of (trace (deliver ev (c_listener c))))
    as [|call calls IH]; intros c0 Hin0; [done|].
  cbn [foldl]. apply IH. unfold after_callback. cbn [c_state].
  by apply get_listed_callback_keeps.
Qed.

Lemma get_listed_steps_keep (c : Connecting)
    (events : list (Event * Connector (UUID := UUID)
                               (Chromecast := Chromecast))) u
    (cast : Chromecast) :
  dict_get u (cc_list (c_state c)) = Some cast →
  dict_get u (cc_list (c_state (foldl get_listed_step c events)))
  = Some cast.
Proof.
  revert c. induction events as [|[ev connect] events IH]; intros c Hin;
    [done|].
  cbn [foldl]. apply IH. by apply get_listed_step_keeps.
Qed.

Lemma get_listed_app fns (us : option (list UUID))
    (events more : list (Event * Connector (UUID := UUID)
                                    (Chromecast := Chromecast))) :
  get_listed_chromecasts fns us (events ++ more)
  = foldl get_listed_step (get_listed_chromecasts fns us events) more.
Proof. unfold get_listed_chromecasts. by rewrite foldl_app. Qed.

(** ** C9 *)

(** C9, amended. In [get_listed_chromecasts], when an add event resolves to
    a device that matches a remaining criterion and is not yet in the
    result, and building its client from the record just stored fails with
    a connection error, the error is caught: nothing reaches the
    announcement thread, the result, both remaining criteria and the
    completion signal are as they were before the event, and exactly one
    connection attempt was made for it. The session then handles the
    following events from that state.

    The candidate is not given up: after the event it still matches a
    remaining criterion and is not in the result. An add event that
    follows directly and resolves to the same identity and friendly name
    therefore attempts the connection again. So does any later add event
    that resolves to a device which, when the event arrives, matches a
    remaining criterion and is not in the result. When that attempt
    succeeds, it is the one attempt of its event, the matched keys leave
    their remaining collections, and the client is in the result under the
    identity whatever events follow. *)
Theorem connection_failure_is_skipped fns (us : option (list UUID))
    before zconf typ name connect (r : Resolved (UUID := UUID))
    (Hres : resolved zconf = Some r)
    (Hmatch :
       opt_mem (r_uuid r)
         (uuids (c_state (get_listed_chromecasts fns us before)))
       || name_mem (r_friendly_name r)
            (friendly_names (c_state (get_listed_chromecasts fns us before)))
       = true)
    (Hnew :
       dict_mem (r_uuid r)
         (cc_list (c_state (get_listed_chromecasts fns us before))) = false)
    (Hfail : ∀ service,
       dict_get (r_uuid r)
         (services
            (listener (add_service zconf typ name
                         (c_listener (get_listed_chromecasts fns us before)))))
       = Some service →
       connect service = Raise ChromecastConnectionError) :
  let c := get_listed_chromecasts fns us before in
  let failed :=
    {| c_listener := listener (add_service zconf typ name (c_listener c));
       c_state := c_state c;
       c_attempts := c_attempts c + 1;
       c_escaped := c_escaped c |} in
  (∀ after,
     get_listed_chromecasts fns us
       (before ++ (AddService zconf typ name, connect) :: after)
     = foldl get_listed_step failed after)
  ∧ (opt_mem (r_uuid r) (uuids (c_state failed))
     || name_mem (r_friendly_name r) (friendly_names (c_state failed))
     = true
     ∧ dict_mem (r_uuid r) (cc_list (c_state failed)) = false)
  ∧ (∀ zconf' typ' name' connect' (r' : Resolved (UUID := UUID)) service'
       (cast : Chromecast),
       resolved zconf' = Some r' →
       r_uuid r' = r_uuid r →
       r_friendly_name r' = r_friendly_name r →
       dict_get (r_uuid r)
         (services
            (listener (add_service zconf' typ' name' (c_listener failed))))
       = Some service' →
       connect' service' = Ret cast →
       c_attempts
         (get_listed_chromecasts fns us
            (before ++ [(AddService zconf typ name, connect);
                        (AddService zconf' typ' name', connect')]))
       = c_attempts c + 2
       ∧ ∀ after,
           dict_get (r_uuid r)
             (cc_list
                (c_state
                   (get_listed_chromecasts fns us
                      (before ++ (AddService zconf typ name, connect)
                              :: (AddService zconf' typ' name', connect')
                              :: after))))
           = Some cast)
  ∧ (∀ between zconf' typ' name' connect' (r' : Resolved (UUID := UUID))
       service' (cast : Chromecast),
       let c' :=
         get_listed_chromecasts fns us
           (before ++ (AddService zconf typ name, connect) :: between) in
       let c'' :=
         get_listed_chromecasts fns us
           (before ++ (AddService zconf typ name, connect)
                   :: between ++ [(AddService zconf' typ' name', connect')]) in
       resolved zconf' = Some r' →
       opt_mem (r_uuid r') (uuids (c_state c'))
       || name_mem (r_friendly_name r') (friendly_names (c_state c')) = true →
       dict_mem (r_uuid r') (cc_list (c_state c')) = false →
       dict_get (r_uuid r')
         (services (listener (add_service zconf' typ' name' (c_listener c'))))
       = Some service' →
       connect' service' = Ret cast →
       c_attempts c'' = c_attempts c' + 1
       ∧ c_escaped c'' = c_escaped c'
       ∧ (friendly_names (c_state c''), uuids (c_state c''))
         = drained (r_uuid r', r_friendly_name r')
             (friendly_names (c_state c'), uuids (c_state c'))
       ∧ ∀ after,
           dict_get (r_uuid r')
             (cc_list
                (c_state
                   (get_listed_chromecasts fns us
                      (before ++ (AddService zconf typ name, connect)
                              :: between
                              ++ (AddService zconf' typ' name', connect')
                              :: after))))
           = Some cast).
Proof.
  intros c failed.
  pose proof (get_listed_shaped fns us before) as Hshape. fold c in Hshape.
  assert (Hstep : get_listed_step c (AddService zconf typ name, connect)
                  = failed).
  { destruct (add_service_registers zconf typ name (c_listener c) r Hres)
      as (service & Hget & _).
    etrans; [exact (get_listed_add_wanted c zconf typ name connect r service
                      Hshape Hres Hmatch Hnew Hget)|].
    rewrite (Hfail service Hget). cbn. by rewrite app_nil_r. }
  assert (Hfailed : ∀ after,
            get_listed_chromecasts fns us
              (before ++ (AddService zconf typ name, connect) :: after)
            = foldl get_listed_step failed after).
  { intros after.
    etrans; [exact (get_listed_app fns us before
                      ((AddService zconf typ name, connect) :: after))|].
    cbn [foldl]. fold c. by rewrite Hstep. }
  assert (Hretry : ∀ (c' : Connecting) zconf' typ' name' connect'
                     (r' : Resolved (UUID := UUID)) service'
                     (cast : Chromecast),
            session_shaped (c_listener c') →
            resolved zconf' = Some r' →
            opt_mem (r_uuid r') (uuids (c_state c'))
            || name_mem (r_friendly_name r') (friendly_names (c_state c'))
            = true →
            dict_mem (r_uuid r') (cc_list (c_state c')) = false →
            dict_get (r_uuid r')
              (services
                 (listener (add_service zconf' typ' name' (c_listener c'))))
            = Some service' →
            connect' service' = Ret cast →
            c_attempts (get_listed_step c' (AddService zconf' typ' name',
                                            connect'))
            = c_attempts c' + 1
            ∧ c_escaped (get_listed_step c' (AddService zconf' typ' name',
                                             connect'))
              = c_escaped c'
            ∧ (friendly_names
                 (c_state (get_listed_step c' (AddService zconf' typ' name',
                                               connect'))),
               uuids
                 (c_state (get_listed_step c' (AddService zconf' typ' name',
                                               connect'))))
              = drained (r_uuid r', r_friendly_name r')
                  (friendly_names (c_state c'), uuids (c_state c'))
            ∧ dict_get (r_uuid r')
                (cc_list
                   (c_state (get_listed_step c'
                               (AddService zconf' typ' name', connect'))))
              = Some cast).
  { intros c' zconf' typ' name' connect' r' service' cast
           Hshape' Hres' Hmatch' Hnew' Hget' Hconn.
    rewrite (get_listed_add_wanted c' zconf' typ' name' connect' r' service'
               Hshape' Hres' Hmatch' Hnew' Hget').
    rewrite Hconn. cbn [c_attempts c_escaped c_state].
    destruct (criteria_signal_drained (r_uuid r', r_friendly_name r')
                (set_cc_list
                   (dict_set (r_uuid r') cast (cc_list (c_state c')))
                   (c_state c'))) as [Hcrit Hcc].
    split_and!; [done|done|exact Hcrit|].
    rewrite Hcc. cbn [set_cc_list cc_list]. apply dict_get_set_eq. }
  split; [exact Hfailed|]. split; [by split|]. split.
  - intros zconf' typ' name' connect' r' service' cast
           Hres' Hid Hname Hget' Hconn.
    assert (Hshape' : session_shaped (c_listener failed))
      by (by apply (session_shaped_deliver (AddService zconf typ name))).
    rewrite <- Hid in Hget'.
    destruct (Hretry failed zconf' typ' name' connect' r' service' cast
                Hshape' Hres')
      as (Hatt & _ & _ & Hin); [by rewrite Hid, Hname|by rewrite Hid|done
                               |done|].
    split.
    + etrans; [exact (f_equal c_attempts
                        (Hfailed [(AddService zconf' typ' name', connect')]))|].
      cbn [foldl]. rewrite Hatt. cbn [c_attempts failed]. lia.
    + intros after.
      etrans; [exact (f_equal (λ x, dict_get (r_uuid r) (cc_list (c_state x)))
                        (Hfailed ((AddService zconf' typ' name', connect')
                                    :: after)))|].
      cbn [foldl]. apply get_listed_steps_keep. by rewrite <- Hid.
  - intros between zconf' typ' name' connect' r' service' cast c' c''
           Hres' Hmatch' Hnew' Hget' Hconn.
    assert (Hshape' : session_shaped (c_listener c'))
      by apply get_listed_shaped.
    destruct (Hretry c' zconf' typ' name' connect' r' service' cast
                Hshape' Hres' Hmatch' Hnew' Hget' Hconn)
      as (Hatt & Hesc & Hcrit & Hin).
    assert (Hsnoc : c'' = get_listed_step c'
                            (AddService zconf' typ' name', connect')).
    { subst c' c''.
      etrans; [|exact (get_listed_snoc fns us
                         (before ++ (AddService zconf typ name, connect)
                                 :: between)
                         (AddService zconf' typ' name', connect'))].
      f_equal. by rewrite <- app_assoc. }
    split_and!; [by rewrite Hsnoc|by rewrite Hsnoc|by rewrite Hsnoc|].
    intros after.
    assert (Happ :
      get_listed_chromecasts fns us
        (before ++ (AddService zconf typ name, connect)
                :: between ++ (AddService zconf' typ' name', connect')
                :: after)
      = foldl get_listed_step
          (get_listed_step c' (AddService zconf' typ' name', connect'))
          after).
    { subst c'.
      etrans; [|exact (get_listed_app fns us
                         (before ++ (AddService zconf typ name, connect)
                                 :: between)
                         ((AddService zconf' typ' name', connect')
                            :: after))].
      f_equal. by rewrite <- app_assoc. }
    etrans; [exact (f_equal (λ x, dict_get (r_uuid r') (cc_list (c_state x)))
                      Happ)|].
    by apply get_listed_steps_keep.
Qed.





(** ** C10 *)


(** ** C7 *)

(** C7. get_chromecasts with [blocking=False] and a [callback] that is not
    callable raises [ValueError] at once: no listener, no client and no
    browser has been created. *)
Theorem nonblocking_needs_callable {F : Type} (callback : PyArg F)
    (events : list Event)
    (connect : Connector (UUID := UUID) (Chromecast := Chromecast))
    (Hcb : callable callback = false) :
  get_chromecasts false callback events connect = (Raise ValueError, []).
Proof. unfold get_chromecasts. by rewrite Hcb. Qed.

End ConnectingFacts.

(** ** C8 *)

Lemma other_errors_skip_close (browser : ServiceBrowser) (e : exn) :
  cancel browser = Raise e → e ≠ RuntimeError →
  stop_discovery browser = (Raise e, [BrowserCancel]).
Proof.
  intros Hc Hne. unfold stop_discovery. rewrite Hc.
  by destruct e.
Qed.

(** C8, amended. stop_discovery(browser), when the watcher cancellation
    returns or raises a [RuntimeError]: the error is caught and
    suppressed, and the shared client instance is closed; the call makes
    exactly the two calls cancel and close, and ends as close ends. (An
    exception of any other class is not caught: it propagates and close is
    not called.) *)
Theorem runtime_error_is_suppressed (browser : ServiceBrowser)
    (Hcancel : ∀ e, cancel browser = Raise e → e = RuntimeError) :
  stop_discovery browser = (zc_close browser, [BrowserCancel; ZeroconfClose]).
Proof.
  unfold stop_discovery. destruct (cancel browser) as [u|e]; [done|].
  by rewrite (Hcancel e eq_refl).
Qed.

(** ** The properties on the sample announcements *)

Import Sample.

(** A registry holding the single device [living_room]: removing its only
    name [n1] deletes the entry and calls the remove callback, once. *)
Lemma remove_service_spec_witness :
  NoDup (dict_keys (services one_device))
  ∧ dict_get U1 (services (listener (remove_service typ "n1" one_device)))
    = None
  ∧ trace (remove_service typ "n1" one_device)
    = [Callback3 2 U1 "n1" (with_names ({[ "n1" ]} ∖ {[ "n1" ]})
                              (living_room_record {[ "n1" ]}))].
Proof.
  assert (Hdict : NoDup (dict_keys (services one_device)))
    by (vm_compute; apply NoDup_singleton).
  split; [exact Hdict|].
  destruct (remove_service_spec typ "n1" one_device Hdict)
    as (_ & _ & _ & Hfound).
  destruct (Hfound U1 (living_room_record {[ "n1" ]})) as (_ & _ & _ & _ & Hlast & _);
    [by vm_compute|].
  apply Hlast. reflexivity.
Defined.

(** C3 fails as stated: a name withdrawn and announced again is in the
    final record, yet it is not in added names minus removed names. *)
Lemma readded_name_counterexample :
  same_identity U1
    [AddService living_room typ "n1"; RemoveService typ "n1";
     AddService living_room typ "n1"]
  ∧ names_of
      (run [AddService living_room typ "n1"; RemoveService typ "n1";
            AddService living_room typ "n1"] three).1 U1
    = {[ "n1" ]}
  ∧ added_names (UUID := N)
      [AddService living_room typ "n1"; RemoveService typ "n1";
       AddService living_room typ "n1"]
    ∖ removed_names
        [AddService living_room typ "n1"; RemoveService typ "n1";
         AddService living_room typ "n1"]
    = ∅
  ∧ names_of
      (run [AddService living_room typ "n1"; RemoveService typ "n1";
            AddService living_room typ "n1"] three).1 U1
    ≠ added_names (UUID := N)
        [AddService living_room typ "n1"; RemoveService typ "n1";
         AddService living_room typ "n1"]
      ∖ removed_names
          [AddService living_room typ "n1"; RemoveService typ "n1";
           AddService living_room typ "n1"].
Proof.
  split_and!.
  - by vm_compute.
  - by vm_compute.
  - by vm_compute.
  - apply (bool_decide_unpack _). by vm_compute.
Qed.

Lemma names_follow_events_witness :
  same_identity U1
    [AddService living_room typ "n1"; RemoveService typ "n1";
     AddService living_room typ "n1"; UpdateService living_room typ "n2"]
  ∧ names_of
      (run [AddService living_room typ "n1"; RemoveService typ "n1";
            AddService living_room typ "n1";
            UpdateService living_room typ "n2"]
         (CastListener_init (Some 1) (Some 2) (Some 3))).1 U1
    = live_names (UUID := N)
        [AddService living_room typ "n1"; RemoveService typ "n1";
         AddService living_room typ "n1"; UpdateService living_room typ "n2"]
        ∅.
Proof.
  assert (Hid : same_identity U1
            [AddService living_room typ "n1"; RemoveService typ "n1";
             AddService living_room typ "n1";
             UpdateService living_room typ "n2"])
    by (by vm_compute).
  split; [exact Hid|].
  apply (names_follow_events (Some 1) (Some 2) (Some 3) U1 _ Hid).
Defined.

(** C4 fails as stated: an add for an identity that is already a key
    calls the add callback (here 1), not the update callback (3); an
    update for an identity that is not a key yet calls the update
    callback. *)
Lemma known_identity_counterexample :
  dict_mem U1 (services one_device) = true
  ∧ callbacks (trace (add_service living_room typ "n2" one_device))
    = [Callback2 1 U1 "n2"]
  ∧ dict_mem U1 (services three) = false
  ∧ callbacks (trace (update_service living_room typ "n1" three))
    = [Callback2 3 U1 "n1"].
Proof. split_and!; by vm_compute. Qed.

Lemma callback_follows_event_kind_witness :
  resolved living_room
  = Some {| r_uuid := U1;
            r_model_name := Some "Chromecast";
            r_friendly_name := Some "Living Room";
            r_host := "192.168.1.10";
            r_port := 8009 |}
  ∧ callbacks (trace (add_service living_room typ "n2" one_device))
    = [Callback2 1 U1 "n2"]
  ∧ callbacks (trace (update_service living_room typ "n2" one_device))
    = [Callback2 3 U1 "n2"].
Proof.
  assert (Hres : resolved living_room
                 = Some {| r_uuid := U1;
                           r_model_name := Some "Chromecast";
                           r_friendly_name := Some "Living Room";
                           r_host := "192.168.1.10";
                           r_port := 8009 |})
    by (by vm_compute).
  split; [exact Hres|].
  apply (callback_follows_event_kind living_room typ "n2" one_device _ Hres).
Defined.

(** C5 fails as stated: a client that raises [IOError] on every query is
    queried once, not four times. *)
Lemma io_failure_counterexample :
  (∀ k, io_fails k = Fails IOError)
  ∧ trace (add_service io_fails typ "n1" three) = [GetServiceInfo typ "n1"]
  ∧ length (trace (add_service io_fails typ "n1" three)) ≠ 4.
Proof. split_and!; [done|by vm_compute|by vm_compute]. Qed.

Lemma io_error_ends_resolution_witness :
  (∀ i, i < 0 → io_fails i = Answer None)
  ∧ (0 < 4 → io_fails 0 = Fails IOError)
  ∧ _add_update_service io_fails typ "n1" (Some 1) three
    = {| listener := three;
         trace := [GetServiceInfo typ "n1"];
         raised := None |}.
Proof.
  assert (Hnone : ∀ i, i < 0 → io_fails i = Answer None)
    by (intros i Hi; lia).
  assert (Hio : 0 < 4 → io_fails 0 = Fails IOError) by reflexivity.
  split; [exact Hnone|]. split; [exact Hio|].
  apply (io_error_ends_resolution io_fails typ "n1" (Some 1) three 0 Hnone Hio).
Defined.

(** C6 fails as stated: an update event that resolves to a wanted identity
    is stored in the registry, but the session closure is not called for
    it: nothing is recorded, the identity stays in the remaining set and
    completion is not signalled. *)
Lemma update_event_counterexample :
  dict_mem U1
    (services
       (discover_listed_chromecasts None (Some [U1])
          [UpdateService living_room typ "n1"]).1)
  = true
  ∧ callbacks_of
      (trace (deliver (UpdateService living_room typ "n1")
                (session_listener (UUID := N))))
    = []
  ∧ (discover_listed_chromecasts None (Some [U1])
       [UpdateService living_room typ "n1"]).2
    = Listed_init None (Some [U1])
  ∧ (discover_listed_chromecasts None (Some [U1])
       [AddService living_room typ "n1"]).2
    = {| cc_list := [(U1, living_room_record {[ "n1" ]})];
         friendly_names := None;
         uuids := Some [];
         discover_complete := true |}.
Proof. split_and!; by vm_compute. Qed.

(** The recorded tuple shares its name set with the registry: a second
    name announced for a recorded identity shows in the result, removing
    the only name leaves the recorded tuple without names, and a tuple
    that has outlived its registry entry does not see the names of a new
    entry. *)
Lemma recorded_names_example :
  cc_list (discover_listed_chromecasts None (Some [U1])
             [AddService living_room typ "n1";
              AddService living_room typ "n2"]).2
  = [(U1, living_room_record {[ "n1"; "n2" ]})]
  ∧ cc_list (discover_listed_chromecasts None (Some [U1])
               [AddService living_room typ "n1";
                UpdateService living_room typ "n2";
                RemoveService typ "n1"]).2
    = [(U1, living_room_record {[ "n2" ]})]
  ∧ cc_list (discover_listed_chromecasts None (Some [U1])
               [AddService living_room typ "n1";
                RemoveService typ "n1"]).2
    = [(U1, living_room_record ∅)]
  ∧ cc_list (discover_listed_chromecasts None (Some [U1])
               [AddService living_room typ "n1";
                RemoveService typ "n1";
                AddService living_room typ "n2"]).2
    = [(U1, living_room_record ∅)]
  ∧ devices (discover_listed_chromecasts None (Some [U1])
               [AddService living_room typ "n1";
                RemoveService typ "n1";
                AddService living_room typ "n2"]).1
    = [living_room_record {[ "n2" ]}].
Proof. split_and!; by vm_compute. Qed.

Lemma nonblocking_needs_callable_witness :
  callable (PyNone (F := N → unit)) = false
  ∧ get_chromecasts false (PyNone (F := N → unit))
      [AddService living_room typ "n1"] connects
    = (Raise ValueError, []).
Proof.
  split; [reflexivity|].
  apply (nonblocking_needs_callable PyNone _ connects). reflexivity.
Defined.

(** C8 fails as stated: a cancellation that raises an exception other
    than [RuntimeError] is not caught, and the client is not closed. *)
Lemma close_skipped_counterexample :
  cancel broken_browser = Raise IOError
  ∧ stop_discovery broken_browser = (Raise IOError, [BrowserCancel])
  ∧ ZeroconfClose ∉ (stop_discovery broken_browser).2.
Proof.
  split_and!; [done|done|]. cbn. intros Hin.
  apply list_elem_of_singleton in Hin. discriminate.
Qed.

Lemma runtime_error_is_suppressed_witness :
  (∀ e, cancel reentrant_browser = Raise e → e = RuntimeError)
  ∧ stop_discovery reentrant_browser
    = (Ret tt, [BrowserCancel; ZeroconfClose]).
Proof.
  assert (Hcancel : ∀ e, cancel reentrant_browser = Raise e → e = RuntimeError)
    by (intros e He; cbn in He; congruence).
  split; [exact Hcancel|].
  apply (runtime_error_is_suppressed reentrant_browser Hcancel).
Defined.

(** C9 fails as stated: the candidate whose connection failed at its first
    add event is tried again at its next add event, and is then in the
    returned result. *)
Lemma retried_candidate_counterexample :
  cc_list (c_state (get_listed_chromecasts None (Some [U1])
                      [(AddService living_room typ "n1", refuses)]))
  = []
  ∧ c_attempts (get_listed_chromecasts None (Some [U1])
                  [(AddService living_room typ "n1", refuses)])
    = 1
  ∧ cc_list (c_state (get_listed_chromecasts None (Some [U1])
                        [(AddService living_room typ "n1", refuses);
                         (AddService living_room typ "n2", connects)]))
    = [(U1, U1)]
  ∧ c_attempts (get_listed_chromecasts None (Some [U1])
                  [(AddService living_room typ "n1", refuses);
                   (AddService living_room typ "n2", connects)])
    = 2.
Proof. split_and!; by vm_compute. Qed.

(** The retry of C9 depends on the key still being wanted: a candidate
    matched by its friendly name is not tried again once another device of
    that name has connected and taken the name out of the remaining
    names. *)
Lemma drained_name_example :
  resolved (answers (info hex2 "Living Room"))
  = Some {| r_uuid := U2;
            r_model_name := Some "Chromecast";
            r_friendly_name := Some "Living Room";
            r_host := "192.168.1.10";
            r_port := 8009 |}
  ∧ c_attempts
      (get_listed_chromecasts (Some ["Living Room"]) None
         [(AddService living_room typ "n1", refuses);
          (AddService (answers (info hex2 "Living Room")) typ "m1", connects);
          (AddService living_room typ "n1", connects)])
    = 2
  ∧ cc_list
      (c_state
         (get_listed_chromecasts (Some ["Living Room"]) None
            [(AddService living_room typ "n1", refuses);
             (AddService (answers (info hex2 "Living Room")) typ "m1",
              connects);
             (AddService living_room typ "n1", connects)]))
    = [(U2, U2)].
Proof. split_and!; by vm_compute. Qed.

Lemma connection_failure_is_skipped_witness :
  resolved living_room
  = Some {| r_uuid := U1;
            r_model_name := Some "Chromecast";
            r_friendly_name := Some "Living Room";
            r_host := "192.168.1.10";
            r_port := 8009 |}
  ∧ (∀ service,
       dict_get U1
         (services
            (listener
               (add_service living_room typ "n1"
                  (c_listener (get_listed_chromecasts (Chromecast := N)
                                 None (Some [U1]) [])))))
       = Some service →
       refuses service = Raise ChromecastConnectionError)
  ∧ get_listed_chromecasts None (Some [U1])
      ([] ++ (AddService living_room typ "n1", refuses)
          :: [(AddService kitchen typ "k1", connects)])
    = foldl get_listed_step
        {| c_listener :=
             listener (add_service living_room typ "n1"
                         (c_listener (get_listed_chromecasts (Chromecast := N)
                                        None (Some [U1]) [])));
           c_state := c_state (get_listed_chromecasts None (Some [U1]) []);
           c_attempts := c_attempts (get_listed_chromecasts (Chromecast := N)
                                       None (Some [U1]) []) + 1;
           c_escaped := c_escaped (get_listed_chromecasts (Chromecast := N)
                                     None (Some [U1]) []) |}
        [(AddService kitchen typ "k1", connects)]
  ∧ c_attempts
      (get_listed_chromecasts None (Some [U1])
         ([] ++ [(AddService living_room typ "n1", refuses);
                 (AddService living_room typ "n2", connects)]))
    = c_attempts (get_listed_chromecasts (Chromecast := N)
                    None (Some [U1]) []) + 2
  ∧ dict_get U1
      (cc_list
         (c_state
            (get_listed_chromecasts None (Some [U1])
               ([] ++ (AddService living_room typ "n1", refuses)
                   :: (AddService living_room typ "n2", connects)
                   :: [(AddService kitchen typ "k1", connects)]))))
    = Some U1.
Proof.
  assert (Hres : resolved living_room
                 = Some {| r_uuid := U1;
                           r_model_name := Some "Chromecast";
                           r_friendly_name := Some "Living Room";
                           r_host := "192.168.1.10";
                           r_port := 8009 |})
    by (by vm_compute).
  assert (Hfail : ∀ service,
            dict_get U1
              (services
                 (listener
                    (add_service living_room typ "n1"
                       (c_listener (get_listed_chromecasts (Chromecast := N)
                                      None (Some [U1]) [])))))
            = Some service →
            refuses service = Raise ChromecastConnectionError)
    by reflexivity.
  assert (Hmatch :
    opt_mem U1
      (uuids (c_state (get_listed_chromecasts (Chromecast := N)
                         None (Some [U1]) [])))
    || name_mem (Some "Living Room")
         (friendly_names
            (c_state (get_listed_chromecasts (Chromecast := N)
                        None (Some [U1]) [])))
    = true) by (by vm_compute).
  assert (Hnew :
    dict_mem U1
      (cc_list (c_state (get_listed_chromecasts (Chromecast := N)
                           None (Some [U1]) [])))
    = false) by (by vm_compute).
  split; [exact Hres|]. split; [exact Hfail|].
  pose proof (connection_failure_is_skipped None (Some [U1]) [] living_room
                typ "n1" refuses _ Hres Hmatch Hnew Hfail) as Hskip.
  cbv zeta in Hskip. destruct Hskip as (Hfailed & _ & Hnext & _).
  split; [exact (Hfailed [(AddService kitchen typ "k1", connects)])|].
  destruct (Hnext living_room typ "n2" connects _
              (living_room_record {[ "n1"; "n2" ]}) U1
              Hres eq_refl eq_refl) as [Hatt Hin];
    [by vm_compute|by vm_compute|].
  split; [exact Hatt|].
  exact (Hin [(AddService kitchen typ "k1", connects)]).
Defined.



(** * Further properties of the registry *)

Section MoreDictFacts.
Context {K V : Type} `{!EqDecision K}.
Implicit Types (k : K) (v : V) (d : list (K * V)).

Lemma dict_set_absent k v d :
  dict_get k d = None → dict_set k v d = d ++ [(k, v)].
Proof.
  induction d as [|[k0 v0] d IH]; simpl; [done|].
  destruct (decide (k = k0)); [done|]. intros H. by rewrite IH.
Qed.

Lemma dict_pop_absent_app k v d :
  dict_get k d = None → dict_pop k (d ++ [(k, v)]) = d.
Proof.
  induction d as [|[k0 v0] d IH]; simpl.
  - by rewrite decide_True.
  - destruct (decide (k = k0)); [done|]. intros H. by rewrite IH.
Qed.

Lemma dict_set_length k v d :
  length (dict_set k v d) = if dict_mem k d then length d else S (length d).
Proof.
  unfold dict_mem. induction d as [|[k0 v0] d IH]; [done|].
  cbn [dict_set dict_get]. destruct (decide (k = k0)); [done|].
  cbn [length]. rewrite IH. by destruct (dict_get k d).
Qed.

Lemma dict_pop_length k d :
  length (dict_pop k d) = if dict_mem k d then pred (length d) else length d.
Proof.
  unfold dict_mem. induction d as [|[k0 v0] d IH]; [done|].
  cbn [dict_pop dict_get]. destruct (decide (k = k0)); [done|].
  cbn [length]. rewrite IH.
  destruct (dict_get k d) eqn:E; [|done].
  destruct d; [done|]. done.
Qed.

Lemma dict_elem_pop_ne k k' v' d :
  NoDup (dict_keys d) → (k', v') ∈ dict_pop k d → k' ≠ k.
Proof.
  unfold dict_keys. induction d as [|[k0 v0] d IH]; simpl.
  - intros _ H. by apply elem_of_nil in H.
  - rewrite NoDup_cons. intros [Hk0 Hnd].
    destruct (decide (k = k0)) as [->|Hne].
    + intros Hin ->. apply Hk0. apply list_elem_of_fmap. by exists (k0, v').
    + intros [[= -> ->]|Hin]%elem_of_cons; [done|]. by apply IH.
Qed.

End MoreDictFacts.

Section MoreRegistryFacts.
Context {UUID : Type} `{!Runtime UUID} {CB : Type}.
Implicit Types (d : list (UUID * Service (UUID := UUID))).
Implicit Types (l : CastListener (UUID := UUID) (CB := CB)).
Implicit Types (s : Service (UUID := UUID)).

Lemma find_service_app_new name d uuid s :
  (∀ uuid' s', (uuid', s') ∈ d → name ∉ item0 s') →
  name ∈ item0 s →
  find_service name (d ++ [(uuid, s)]) = Some (uuid, s).
Proof.
  intros Hnone Hin. induction d as [|[u0 s0] d IH]; cbn [app find_service].
  - by rewrite decide_True.
  - rewrite decide_False by (apply (Hnone u0 s0), list_elem_of_here).
    apply IH. intros u' s' H. apply (Hnone u' s'). by apply list_elem_of_further.
Qed.

(** X1. Announcing a name for an identity the registry does not know, and
    then removing that name, gives back the registry as it was: same
    records, in the same order. *)
Theorem add_then_remove_restores zconf typ name l
    (r : Resolved (UUID := UUID))
    (Hres : resolved zconf = Some r)
    (Hnew : dict_get (r_uuid r) (services l) = None)
    (Hname : ∀ uuid s, (uuid, s) ∈ services l → name ∉ item0 s) :
  services
    (listener (remove_service typ name
                 (listener (add_service zconf typ name l))))
  = services l.
Proof.
  unfold add_service.
  destruct (add_update_resolved zconf typ name (add_callback l) l r Hres)
    as [sent ->].
  cbn [listener]. unfold remove_service. cbn [set_services services].
  rewrite merge_service_eq, Hnew, (dict_set_absent _ _ _ Hnew).
  rewrite (find_service_app_new name (services l)); [|done|];
    [|cbn [item0]; by apply elem_of_singleton_2].
  rewrite item0_with_names. cbn [item0].
  rewrite decide_True by (rewrite difference_diag_L; apply size_empty).
  cbn [listener set_services services]. by apply dict_pop_absent_app.
Qed.

(** X2. Announcing again a name the record already has, with the same
    answers, does not change the registry. *)
Theorem repeated_announcement_is_idempotent zconf typ name callback callback'
    l (r : Resolved (UUID := UUID))
    (Hres : resolved zconf = Some r) :
  services
    (listener (_add_update_service zconf typ name callback'
                 (listener (_add_update_service zconf typ name callback l))))
  = services (listener (_add_update_service zconf typ name callback l)).
Proof.
  destruct (add_update_resolved zconf typ name callback l r Hres)
    as [sent ->].
  cbn [listener].
  destruct (add_update_resolved zconf typ name callback'
              (set_services (merge_service name r (services l)) l) r Hres)
    as [sent' ->].
  cbn [listener set_services services].
  rewrite (merge_service_eq name r (merge_service name r (services l))).
  rewrite merge_service_get. cbn [item0 item1].
  rewrite (merge_service_eq name r (services l)), dict_set_set.
  do 2 f_equal.
  destruct (dict_get (r_uuid r) (services l)).
  - by rewrite <- (assoc_L (∪)), union_idemp_L.
  - apply union_idemp_L.
Qed.

(** X3. An add or update that resolves touches one entry only. The entry
    of the announced identity holds the names it had plus the new one,
    with model name, friendly name, host and port as just announced; every
    other identity keeps its entry; and the keys keep their order, a new
    identity going last. *)
Theorem resolved_announcement_entry zconf typ name callback l
    (r : Resolved (UUID := UUID))
    (Hok : registry_ok (services l))
    (Hres : resolved zconf = Some r) :
  dict_get (r_uuid r)
    (services (listener (_add_update_service zconf typ name callback l)))
  = Some (Service6 (names_of l (r_uuid r) ∪ {[name]}) (r_uuid r)
            (r_model_name r) (r_friendly_name r) (r_host r) (r_port r))
  ∧ (∀ uuid, uuid ≠ r_uuid r →
       dict_get uuid
         (services (listener (_add_update_service zconf typ name callback l)))
       = dict_get uuid (services l))
  ∧ dict_keys
      (services (listener (_add_update_service zconf typ name callback l)))
    = (if dict_mem (r_uuid r) (services l)
       then dict_keys (services l)
       else dict_keys (services l) ++ [r_uuid r]).
Proof.
  destruct (add_update_resolved zconf typ name callback l r Hres)
    as [sent ->].
  cbn [listener set_services services]. split_and!.
  - rewrite merge_service_get. unfold names_of.
    destruct (dict_get (r_uuid r) (services l)) as [s|] eqn:E.
    + apply dict_get_Some_elem in E. apply Hok in E as [-> _]. done.
    + by rewrite union_empty_l_L.
  - intros uuid Hne. by apply merge_service_get_ne.
  - rewrite merge_service_eq. apply dict_keys_set.
Qed.

End MoreRegistryFacts.

Section ResolutionFacts.
Context {UUID : Type} `{!Runtime UUID} {CB : Type}.
Implicit Types (d : list (UUID * Service (UUID := UUID))).
Implicit Types (l : CastListener (UUID := UUID) (CB := CB)).
Implicit Types (s : Service (UUID := UUID)).

Lemma query_loop_answers zconf left sent k service :
  (∀ i, i < k → zconf (sent + i) = Answer None) →
  k < left →
  zconf (sent + k) = Answer (Some service) →
  query_loop zconf left sent = (Ret (Some service), sent + S k).
Proof.
  revert sent k. induction left as [|left IH]; intros sent k Hnone Hk Hans;
    [lia|].
  cbn [query_loop]. destruct k as [|k].
  - rewrite Nat.add_0_r in Hans. rewrite Hans. f_equal. lia.
  - specialize (Hnone 0 ltac:(lia)) as H0. rewrite Nat.add_0_r in H0.
    rewrite H0, (IH (S sent) k).
    + f_equal. lia.
    + intros i Hi. replace (S sent + i) with (sent + S i) by lia.
      apply Hnone. lia.
    + lia.
    + by replace (S sent + k) with (sent + S k) by lia.
Qed.

Lemma query_loop_bounds zconf left sent :
  sent ≤ (query_loop zconf left sent).2 ≤ sent + left
  ∧ (0 < left → sent < (query_loop zconf left sent).2).
Proof.
  revert sent. induction left as [|left IH]; intros sent; cbn [query_loop].
  - cbn. lia.
  - destruct (zconf sent) as [[service|]|e]; cbn [snd].
    + lia.
    + specialize (IH (S sent)). lia.
    + destruct (exn_eqb e IOError); cbn; lia.
Qed.

(** The only exception of [get_value] is the one of [decode]. *)
Lemma get_value_raises service key (e : exn) :
  get_value service key = Raise e → e = UnicodeDecodeError.
Proof.
  unfold get_value. destruct (properties service !! key) as [[str|b]|];
    [done| |done].
  destruct (bytes_decode b); [done|]. by intros [= <-].
Qed.

(** X4. An announcement that resolves (at the first attempt or after
    attempts that returned no data) but carries no [id] property, or an
    empty one, never changes the listener and calls no callback. The
    properties [md], [id] and [fn] are all read before the identity is
    tested (lines 96-100): the announcement is dropped silently when [md]
    and [fn] are absent, text, or bytes that decode, and the method raises
    [UnicodeDecodeError] when one of them is bytes that do not decode. *)
Theorem announcement_without_identity zconf typ name (callback : option CB)
    l k service
    (Hnone : ∀ i, i < k → zconf i = Answer None)
    (Hk : k < 4)
    (Hans : zconf k = Answer (Some service))
    (Hid : get_value service "id" = Ret None
           ∨ get_value service "id" = Ret (Some "")) :
  _add_update_service (UUID := UUID) zconf typ name callback l
  = {| listener := l;
       trace := replicate (S k) (GetServiceInfo typ name);
       raised := match get_value service "md", get_value service "fn" with
                 | Ret _, Ret _ => None
                 | _, _ => Some UnicodeDecodeError
                 end |}.
Proof.
  unfold _add_update_service.
  rewrite (query_loop_answers zconf 4 0 k service Hnone Hk Hans).
  unfold read_service.
  destruct (get_value service "md") as [m|e] eqn:Hmd;
    [|by rewrite (get_value_raises _ _ _ Hmd)].
  destruct (get_value service "fn") as [f|e] eqn:Hfn.
  - by destruct Hid as [->| ->].
  - rewrite (get_value_raises _ _ _ Hfn). by destruct Hid as [->| ->].
Qed.

(** X5. An announcement whose [id] property is not empty and not a
    well-formed UUID makes the listener method raise; the listener is
    unchanged and no callback is called. The exception is the [ValueError]
    of [UUID(uuid)] when the [md] and [fn] properties are absent, text, or
    bytes that decode, and the [UnicodeDecodeError] of the decoding, which
    comes first (lines 96-98), when one of them is bytes that do not
    decode. *)
Theorem malformed_identity_raises zconf typ name (callback : option CB)
    l k service hex
    (Hnone : ∀ i, i < k → zconf i = Answer None)
    (Hk : k < 4)
    (Hans : zconf k = Answer (Some service))
    (Hid : get_value service "id" = Ret (Some hex))
    (Hhex : hex ≠ "")
    (Hbad : UUID_of_hex (UUID := UUID) hex = None) :
  _add_update_service (UUID := UUID) zconf typ name callback l
  = {| listener := l;
       trace := replicate (S k) (GetServiceInfo typ name);
       raised := match get_value service "md", get_value service "fn" with
                 | Ret _, Ret _ => Some ValueError
                 | _, _ => Some UnicodeDecodeError
                 end |}.
Proof.
  unfold _add_update_service.
  rewrite (query_loop_answers zconf 4 0 k service Hnone Hk Hans).
  unfold read_service.
  destruct (get_value service "md") as [m|e] eqn:Hmd;
    [|by rewrite (get_value_raises _ _ _ Hmd)].
  rewrite Hid.
  destruct (get_value service "fn") as [f|e] eqn:Hfn;
    [|by rewrite (get_value_raises _ _ _ Hfn)].
  rewrite Hbad. by destruct hex.
Qed.

(** X6. Whatever the client answers, an add or update sends at least one
    and at most four queries, all of them before the callback, and calls
    at most one callback. *)
Theorem resolution_is_bounded zconf typ name (callback : option CB) l :
  ∃ n,
    1 ≤ n ≤ 4
    ∧ trace (_add_update_service (UUID := UUID) zconf typ name callback l)
      = replicate n (GetServiceInfo typ name)
        ++ callbacks
             (trace (_add_update_service zconf typ name callback l))
    ∧ length (callbacks
                (trace (_add_update_service (UUID := UUID) zconf typ name
                          callback l))) ≤ 1.
Proof.
  pose proof (query_loop_bounds zconf 4 0) as [Hle Hpos].
  unfold _add_update_service.
  destruct (query_loop zconf 4 0) as [res n]. cbn [snd] in *.
  exists n. split; [lia|].
  assert (Hq : callbacks (CB := CB) (queries (UUID := UUID) typ name n) = [])
    by apply callbacks_queries.
  destruct res as [[service|]|e]; cbn [trace];
    try (rewrite Hq, app_nil_r; split; [done|cbn; lia]).
  destruct (read_service service) as [[r|]|e]; cbn [trace];
    try (rewrite Hq, app_nil_r; split; [done|cbn; lia]).
  unfold callbacks at 1 2. rewrite filter_app.
  fold (callbacks (CB := CB) (queries (UUID := UUID) typ name n)).
  rewrite Hq. destruct callback; cbn; split; (done || lia).
Qed.

(** X7. What a listener method raises by itself, it raises before it
    changes anything. [raised] is the exception of one of the method's own
    statements: an error of the zeroconf client other than [IOError]
    (line 74), a property that does not decode (lines 96-98), a malformed
    identity (line 103). All of these come before the registry is written
    (line 105) and before the callback (line 119): the listener is as it
    was and no callback was called. [remove_service] has no statement of
    its own that raises. What a callback raises is not part of [raised]:
    the callbacks are the last statements of the methods (lines 54, 56 and
    119) and run after the registry has changed. *)
Theorem raising_event_changes_nothing (ev : Event) l (e : exn)
    (Hraised : raised (deliver (UUID := UUID) ev l) = Some e) :
  listener (deliver ev l) = l
  ∧ callbacks (trace (deliver ev l)) = []
  ∧ ∀ typ name, ev ≠ RemoveService typ name.
Proof.
  assert (Hadd : ∀ zconf typ name callback,
            raised (_add_update_service (UUID := UUID) zconf typ name
                      callback l) = Some e →
            listener (_add_update_service zconf typ name callback l) = l
            ∧ callbacks (trace (_add_update_service zconf typ name callback l))
              = []).
  { intros zconf typ name callback. unfold _add_update_service.
    destruct (query_loop zconf 4 0) as [[[service|]|e'] n]; cbn; try done.
    - destruct (read_service service) as [[r|]|e'']; cbn; try done.
      intros _. split; [done|apply callbacks_queries].
    - intros _. split; [done|apply callbacks_queries]. }
  destruct ev as [zconf typ name|zconf typ name|typ name];
    cbn [deliver] in *.
  - destruct (Hadd _ _ _ _ Hraised). by split_and!.
  - destruct (Hadd _ _ _ _ Hraised). by split_and!.
  - exfalso. revert Hraised. unfold remove_service.
    destruct (find_service name (services l)) as [[uuid s]|]; [|done].
    by case_decide.
Qed.

(** X8. One event changes the number of known devices by at most one: an
    add or update never lowers [count], a remove never raises it. *)
Theorem count_moves_by_one (ev : Event) l :
  match ev with
  | RemoveService _ _ =>
      count (listener (deliver (UUID := UUID) ev l)) ≤ count l
      ∧ count l ≤ S (count (listener (deliver ev l)))
  | _ =>
      count l ≤ count (listener (deliver ev l))
      ∧ count (listener (deliver ev l)) ≤ S (count l)
  end.
Proof.
  assert (Hadd : ∀ zconf typ name callback,
            count l ≤ count (listener (_add_update_service (UUID := UUID)
                                         zconf typ name callback l))
            ∧ count (listener (_add_update_service zconf typ name callback l))
              ≤ S (count l)).
  { intros zconf typ name callback.
    destruct (resolved (UUID := UUID) zconf) as [r|] eqn:E.
    - destruct (add_update_resolved zconf typ name callback l r E)
        as [sent ->].
      unfold count. cbn [listener set_services services].
      rewrite merge_service_eq, dict_set_length.
      destruct (dict_mem (r_uuid r) (services l)); lia.
    - destruct (add_update_unresolved zconf typ name callback l E) as [-> _].
      lia. }
  destruct ev as [zconf typ name|zconf typ name|typ name]; cbn [deliver];
    [apply Hadd|apply Hadd|].
  unfold remove_service, count.
  destruct (find_service name (services l)) as [[uuid s]|] eqn:E;
    [|cbn; lia].
  case_decide; cbn [listener set_services services].
  - rewrite dict_pop_length. destruct (dict_mem uuid (services l)); lia.
  - rewrite dict_set_length. apply find_service_Some in E as [Hin _].
    destruct (dict_mem uuid (services l)) eqn:Hmem; [lia|].
    exfalso. unfold dict_mem in Hmem.
    destruct (dict_get uuid (services l)) eqn:Hget; [done|].
    apply dict_get_None in Hget. apply Hget. unfold dict_keys.
    apply list_elem_of_fmap. by exists (uuid, s).
Qed.

(** X9. When a name is held by one record only, removing it makes it
    unknown: a second remove of the same name changes nothing and calls
    nothing. *)
Theorem second_remove_is_silent typ typ' name l
    (Hdict : NoDup (dict_keys (services l)))
    (Hone : ∀ uuid s uuid' s',
        (uuid, s) ∈ services l → (uuid', s') ∈ services l →
        name ∈ item0 s → name ∈ item0 s' → uuid = uuid') :
  remove_service typ' name (listener (remove_service typ name l))
  = {| listener := listener (remove_service typ name l);
       trace := [];
       raised := None |}.
Proof.
  assert (Hgone : find_service name
                    (services (listener (remove_service typ name l))) = None).
  { unfold remove_service.
    destruct (find_service name (services l)) as [[uuid s]|] eqn:E; [|done].
    pose proof (find_service_Some _ _ _ _ E) as [Hin Hname].
    apply find_service_None. intros u1 s1.
    case_decide; cbn [listener set_services services].
    - intros Hin1 Hname1.
      pose proof (dict_elem_pop_ne _ _ _ _ Hdict Hin1) as Hne.
      apply dict_elem_pop in Hin1. apply Hne. by eapply Hone.
    - intros Hin1 Hname1.
      assert (Hu : u1 = uuid).
      { apply dict_elem_set in Hin1 as [[-> _]|Hin1]; [done|].
        by eapply Hone. }
      subst u1.
      pose proof (dict_set_NoDup uuid
                    (with_names (item0 s ∖ {[name]}) s) _ Hdict) as Hnd.
      pose proof (dict_elem_get _ _ _ Hnd Hin1) as Hget.
      rewrite dict_get_set_eq in Hget. injection Hget as <-.
      rewrite item0_with_names in Hname1.
      apply elem_of_difference in Hname1 as [_ Hname1].
      apply Hname1. by apply elem_of_singleton_2. }
  unfold remove_service at 1. by rewrite Hgone.
Qed.

End ResolutionFacts.

(** * Further properties of the sessions *)

Section MoreSessionFacts.
Context {UUID : Type} `{!Runtime UUID}.
Implicit Types (ev : Event) (evs : list Event).
Implicit Types (l : CastListener (UUID := UUID) (CB := unit)).

Lemma run_snoc {CB : Type} evs ev
    (l : CastListener (UUID := UUID) (CB := CB)) :
  (run (evs ++ [ev]) l).1 = listener (deliver ev (run evs l).1).
Proof.
  revert l. induction evs as [|ev0 evs IH]; intros l.
  - cbn. by destruct (deliver ev l).
  - cbn [app run]. specialize (IH (listener (deliver ev0 l))).
    destruct (run (evs ++ [ev]) (listener (deliver ev0 l))).
    destruct (run evs (listener (deliver ev0 l))). done.
Qed.

Lemma run_shaped evs l :
  session_shaped l → session_shaped (run evs l).1.
Proof.
  induction evs as [|ev evs IH] using rev_ind; [done|].
  intros Hl. rewrite run_snoc. by apply session_shaped_deliver, IH.
Qed.

Lemma discover_session_listener max_devices evs :
  (discover_session max_devices evs).1
  = (run (UUID := UUID) evs session_listener).1.
Proof.
  unfold discover_session.
  induction evs as [|ev evs IH] using rev_ind; [done|].
  rewrite foldl_app, run_snoc, <- IH. done.
Qed.

Lemma discover_session_snoc max_devices evs ev :
  (discover_session max_devices (evs ++ [ev])).2
  = match ev with
    | AddService zconf _ _ =>
        match resolved (UUID := UUID) zconf with
        | Some _ =>
            discover_callback max_devices
              (run (evs ++ [ev]) session_listener).1
              (discover_session max_devices evs).2
        | None => (discover_session max_devices evs).2
        end
    | _ => (discover_session max_devices evs).2
    end.
Proof.
  rewrite run_snoc, <- (discover_session_listener max_devices evs).
  unfold discover_session. rewrite foldl_app. cbn [foldl].
  set (σ := foldl (discover_step max_devices) (session_listener, false) evs).
  unfold discover_step. cbn [snd].
  assert (Hshape : session_shaped σ.1).
  { unfold σ. fold (discover_session max_devices evs).
    rewrite discover_session_listener. by apply run_shaped. }
  rewrite (session_callbacks ev σ.1 Hshape).
  destruct ev as [zconf typ name|zconf typ name|typ name]; [|done|done].
  by destruct (resolved (UUID := UUID) zconf).
Qed.

(** X10. [discover_chromecasts]: without [max_devices] the completion
    event is never set (the call waits for the whole timeout). With
    [max_devices = n] it is set exactly when some add event resolved and
    left at least [n] devices in the registry at that moment; later
    removals do not unset it, and update events never set it. *)
Theorem discover_completion evs :
  (discover_session (UUID := UUID) None evs).2 = false
  ∧ ∀ n,
      (discover_session (UUID := UUID) (Some n) evs).2 = true
      ↔ ∃ evs1 zconf typ name evs2,
          evs = evs1 ++ AddService zconf typ name :: evs2
          ∧ is_Some (resolved (UUID := UUID) zconf)
          ∧ n ≤ count (run (UUID := UUID)
                         (evs1 ++ [AddService zconf typ name])
                         session_listener).1.
Proof.
  split.
  - induction evs as [|ev evs IH] using rev_ind; [done|].
    rewrite discover_session_snoc.
    destruct ev as [zconf typ name|zconf typ name|typ name]; [|done|done].
    by destruct (resolved (UUID := UUID) zconf).
  - intros n. induction evs as [|ev evs IH] using rev_ind.
    + split; [done|]. intros (evs1 & ? & ? & ? & ? & Heq & _).
      by destruct evs1.
    + assert (Hold :
        (discover_session (UUID := UUID) (Some n) evs).2 = true →
        ∃ evs1 zconf typ name evs2,
          evs ++ [ev] = evs1 ++ AddService zconf typ name :: evs2
          ∧ is_Some (resolved (UUID := UUID) zconf)
          ∧ n ≤ count (run (UUID := UUID)
                         (evs1 ++ [AddService zconf typ name])
                         session_listener).1).
      { intros (evs1 & zconf & typ & name & evs2 & -> & Hres & Hn)%IH.
        exists evs1, zconf, typ, name, (evs2 ++ [ev]).
        split; [by rewrite <- app_assoc|done]. }
      assert (Hback :
        ∀ evs1 zconf typ name evs2,
          evs ++ [ev] = evs1 ++ AddService zconf typ name :: evs2 →
          is_Some (resolved (UUID := UUID) zconf) →
          n ≤ count (run (UUID := UUID)
                       (evs1 ++ [AddService zconf typ name])
                       session_listener).1 →
          (evs2 ≠ [] ∧ (discover_session (UUID := UUID) (Some n) evs).2 = true)
          ∨ (evs2 = [] ∧ evs1 = evs ∧ ev = AddService zconf typ name)).
      { intros evs1 zconf typ name evs2 Heq Hres Hn.
        destruct evs2 as [|x evs2 _] using rev_ind.
        - right. apply app_inj_tail in Heq as [-> ->]. done.
        - left. split; [by destruct evs2|].
          rewrite app_comm_cons, app_assoc in Heq.
          apply app_inj_tail in Heq as [-> _].
          apply IH. by exists evs1, zconf, typ, name, evs2. }
      rewrite discover_session_snoc. split.
      * destruct ev as [zconf typ name|zconf typ name|typ name];
          [|apply Hold|apply Hold].
        destruct (resolved (UUID := UUID) zconf) as [r|] eqn:Hres;
          [|apply Hold].
        unfold discover_callback. case_match eqn:Hc; [|apply Hold].
        intros _. exists evs, zconf, typ, name, [].
        split; [done|]. split; [by rewrite Hres|].
        by apply Nat.leb_le.
      * intros (evs1 & zconf & typ & name & evs2 & Heq & Hres & Hn).
        destruct (Hback _ _ _ _ _ Heq Hres Hn)
          as [[_ Hset]|(-> & -> & ->)].
        -- destruct ev as [zconf' typ' name'|zconf' typ' name'|typ' name'];
             [|done|done].
           destruct (resolved (UUID := UUID) zconf'); [|done].
           unfold discover_callback. by case_match.
        -- destruct Hres as [r ->]. unfold discover_callback.
           by rewrite (proj2 (Nat.leb_le _ _) Hn).
Qed.

End MoreSessionFacts.

Section ReturnedRecords.
Context {UUID : Type} `{!Runtime UUID}.
Implicit Types (ev : Event) (evs : list Event).
Implicit Types (d : list (UUID * Service (UUID := UUID))).

Lemma deliver_six {CB : Type} ev
    (l : CastListener (UUID := UUID) (CB := CB)) :
  (∀ uuid s, (uuid, s) ∈ services l → is_six s) →
  ∀ uuid s, (uuid, s) ∈ services (listener (deliver ev l)) → is_six s.
Proof.
  intros Hsix.
  assert (Hadd : ∀ zconf typ name callback uuid s,
            (uuid, s) ∈ services (listener (_add_update_service zconf typ name
                                              callback l)) →
            is_six s).
  { intros zconf typ name callback uuid s.
    destruct (resolved (UUID := UUID) zconf) as [r|] eqn:E.
    - destruct (add_update_resolved zconf typ name callback l r E)
        as [sent ->].
      cbn [listener set_services services]. rewrite merge_service_eq.
      intros [[_ ->]|Hin]%dict_elem_set; [done|by eapply Hsix].
    - destruct (add_update_unresolved zconf typ name callback l E) as [-> _].
      apply Hsix. }
  destruct ev as [zconf typ name|zconf typ name|typ name]; cbn [deliver];
    [apply Hadd|apply Hadd|].
  unfold remove_service.
  destruct (find_service name (services l)) as [[u0 s0]|] eqn:E; [|done].
  apply find_service_Some in E as [Hin0 _].
  intros uuid s. case_decide; cbn [listener set_services services].
  - intros Hin%dict_elem_pop. by eapply Hsix.
  - intros [[_ ->]|Hin]%dict_elem_set; [|by eapply Hsix].
    specialize (Hsix _ _ Hin0). by destruct s0.
Qed.

Lemma run_six {CB : Type} evs (l : CastListener (UUID := UUID) (CB := CB)) :
  (∀ uuid s, (uuid, s) ∈ services l → is_six s) →
  ∀ uuid s, (uuid, s) ∈ services (run evs l).1 → is_six s.
Proof.
  induction evs as [|ev evs IH] using rev_ind; [done|].
  intros Hl. rewrite run_snoc. by apply deliver_six, IH.
Qed.

Lemma registry_identities d :
  registry_ok d → item1 <$> dict_values d = dict_keys d.
Proof.
  intros [_ Hall]. unfold dict_values, dict_keys.
  induction d as [|[u s] d IH]; [done|]. cbn. f_equal.
  - by apply (Hall u s), list_elem_of_here.
  - apply IH. intros u' s' Hin. by apply Hall, list_elem_of_further.
Qed.

(** X11. [discover_chromecasts] returns the registry as the delivered
    events left it, whatever [max_devices] is: one record per identity,
    each a 6-tuple filed under its own identity with at least one name. *)
Theorem discover_returns_registry max_devices evs :
  (discover_chromecasts max_devices evs).1
  = devices (run (UUID := UUID) evs session_listener).1
  ∧ NoDup (item1 <$> (discover_chromecasts (UUID := UUID) max_devices evs).1)
  ∧ length (discover_chromecasts (UUID := UUID) max_devices evs).1
    = count (run (UUID := UUID) evs session_listener).1
  ∧ ∀ s, s ∈ (discover_chromecasts (UUID := UUID) max_devices evs).1 →
         is_six s ∧ item0 s ≠ ∅.
Proof.
  assert (Heq : (discover_chromecasts max_devices evs).1
                = devices (run (UUID := UUID) evs session_listener).1).
  { unfold discover_chromecasts. cbn [fst].
    fold (discover_session (UUID := UUID) max_devices evs).
    by rewrite discover_session_listener. }
  rewrite Heq.
  pose proof (run_ok (CB := unit) evs session_listener registry_ok_nil)
    as Hok.
  split_and!; [done| | |].
  - unfold devices. rewrite registry_identities by done. apply Hok.
  - unfold devices, dict_values, count. by rewrite length_fmap.
  - intros s Hin. unfold devices, dict_values in Hin.
    apply list_elem_of_fmap in Hin as ([u s'] & -> & Hin). cbn. split.
    + eapply (run_six evs session_listener); [|done].
      intros ?? H. by apply elem_of_nil in H.
    + by apply Hok in Hin as [_ ?].
Qed.

End ReturnedRecords.

Section ListedSoundness.
Context {UUID : Type} `{!Runtime UUID}.
Implicit Types (ev : Event) (evs : list Event).

Lemma list_mem_remove {A : Type} `{!EqDecision A} (x y : A) (c : list A) :
  list_mem x (list_remove y c) = true → list_mem x c = true.
Proof.
  unfold list_mem. rewrite !bool_decide_eq_true. intros Hin.
  eapply elem_of_sublist; [done|apply list_remove_sublist].
Qed.

Lemma list_mem_remove_ne {A : Type} `{!EqDecision A} (x y : A) (c : list A) :
  x ≠ y → list_mem x c = true → list_mem x (list_remove y c) = true.
Proof.
  unfold list_mem. rewrite !bool_decide_eq_true. intros Hne.
  induction c as [|z c IH]; [done|]. cbn [list_remove].
  intros [->|Hin]%elem_of_cons.
  - rewrite decide_False by done. apply list_elem_of_here.
  - destruct (decide (y = z)); [done|]. apply list_elem_of_further. auto.
Qed.

Lemma drained_mem (a : UUID * option string) c u f :
  (opt_mem u (drained a c).2 = true → opt_mem u c.2 = true)
  ∧ (name_mem f (drained a c).1 = true → name_mem f c.1 = true).
Proof.
  destruct c as [fns us], a as [u0 f0]. unfold drained. cbn [fst snd]. split.
  - destruct (opt_mem u0 us); [|done].
    destruct us as [c|]; [|done]. cbn. apply list_mem_remove.
  - destruct (name_mem f0 fns); [|done].
    destruct f0 as [f0|]; [|done]. destruct f as [f|]; [|done].
    destruct fns as [c|]; [|done]. cbn. apply list_mem_remove.
Qed.

Lemma drained_mem_ne (a : UUID * option string) c u :
  u ≠ a.1 → opt_mem u c.2 = true → opt_mem u (drained a c).2 = true.
Proof.
  destruct c as [fns us], a as [u0 f0]. unfold drained. cbn [fst snd].
  intros Hne Hin. destruct (opt_mem u0 us); [|done].
  destruct us as [c|]; [|done]. cbn in *. by apply list_mem_remove_ne.
Qed.

(** Reading a recorded tuple through its shared name set keeps its
    friendly name. *)
Lemma aliased_friendly_name (l : CastListener (UUID := UUID) (CB := unit))
    shared (cc : list (UUID * Service (UUID := UUID))) uuid s :
  (uuid, s) ∈ aliased l shared cc →
  ∃ s0, (uuid, s0) ∈ cc ∧ item3 s = item3 s0.
Proof.
  intros (s0 & Hin & ->)%elem_of_aliased. exists s0. split; [done|].
  destruct (list_mem uuid shared); [apply item3_with_names|done].
Qed.

(** X12. [discover_listed_chromecasts] returns wanted devices only, and
    loses none: every record in its result was stored under an identity
    the caller asked for, or had a friendly name the caller asked for when
    it was stored; and every identity the caller asked for is still in the
    remaining collection or is a key of the result. *)
Theorem discover_listed_is_sound fns (us : option (list UUID)) evs :
  (∀ uuid s,
     (uuid, s) ∈ cc_list (discover_listed_chromecasts fns us evs).2 →
     opt_mem uuid us || name_mem (item3 s) fns = true)
  ∧ (∀ uuid,
       opt_mem uuid us = true →
       opt_mem uuid (uuids (discover_listed_chromecasts fns us evs).2)
       || dict_mem uuid (cc_list (discover_listed_chromecasts fns us evs).2)
       = true).
Proof.
  unfold discover_listed_chromecasts. cbn [fst snd].
  assert (Hinv :
    (∀ uuid, opt_mem uuid
               (uuids (ls_state (discover_listed_run fns us evs))) = true →
             opt_mem uuid us = true)
    ∧ (∀ f, name_mem f
              (friendly_names (ls_state (discover_listed_run fns us evs)))
            = true →
            name_mem f fns = true)
    ∧ (∀ uuid s,
         (uuid, s) ∈ cc_list (ls_state (discover_listed_run fns us evs)) →
         opt_mem uuid us || name_mem (item3 s) fns = true)
    ∧ (∀ uuid,
         opt_mem uuid us = true →
         opt_mem uuid (uuids (ls_state (discover_listed_run fns us evs)))
         || dict_mem uuid
              (cc_list (ls_state (discover_listed_run fns us evs)))
         = true)).
  { induction evs as [|ev evs IH] using rev_ind.
    { split_and!; try done.
      - intros ?? H. by apply elem_of_nil in H.
      - intros uuid Hwanted. cbn. by rewrite Hwanted. }
    destruct IH as (Hus & Hfns & Hsound & Hkept).
    pose proof (discover_listed_shaped fns us evs) as Hshape.
    rewrite discover_listed_run_snoc.
    set (σ := discover_listed_run fns us evs) in *.
    destruct (discover_listed_step_spec σ ev Hshape) as [_ Hst].
    set (seen := aliased (listener (deliver ev (ls_listener σ)))
                   (ls_shared σ) (cc_list (ls_state σ))) in *.
    assert (Hseen : ∀ uuid s,
              (uuid, s) ∈ seen →
              opt_mem uuid us || name_mem (item3 s) fns = true).
    { intros uuid s (s0 & Hin & ->)%aliased_friendly_name.
      by apply Hsound. }
    assert (Hmem : ∀ uuid,
              dict_mem uuid seen = dict_mem uuid (cc_list (ls_state σ)))
      by (intros uuid; apply dict_mem_aliased).
    assert (Hquiet :
      ls_state (discover_listed_step σ ev) = set_cc_list seen (ls_state σ) →
      (∀ uuid, opt_mem uuid (uuids (ls_state (discover_listed_step σ ev)))
               = true →
               opt_mem uuid us = true)
      ∧ (∀ f, name_mem f
                (friendly_names (ls_state (discover_listed_step σ ev)))
              = true →
              name_mem f fns = true)
      ∧ (∀ uuid s,
           (uuid, s) ∈ cc_list (ls_state (discover_listed_step σ ev)) →
           opt_mem uuid us || name_mem (item3 s) fns = true)
      ∧ (∀ uuid,
           opt_mem uuid us = true →
           opt_mem uuid (uuids (ls_state (discover_listed_step σ ev)))
           || dict_mem uuid (cc_list (ls_state (discover_listed_step σ ev)))
           = true)).
    { intros ->. cbn [set_cc_list uuids friendly_names cc_list].
      split_and!; [done|done|done|].
      intros uuid Hwanted. rewrite Hmem. by apply Hkept. }
    destruct ev as [zconf typ name|zconf typ name|typ name];
      [|apply Hquiet, Hst|apply Hquiet, Hst].
    destruct (resolved (UUID := UUID) zconf) as [r|];
      [|apply Hquiet, Hst].
    destruct Hst as (service & _ & Hfn & Hcc & _ & Hcrit & _).
    pose proof (f_equal fst Hcrit) as Hf. pose proof (f_equal snd Hcrit) as Hu.
    cbn [fst snd] in Hf, Hu.
    set (a := (r_uuid r, r_friendly_name r)) in *.
    set (c := (friendly_names (ls_state σ), uuids (ls_state σ))) in *.
    split_and!.
    - intros uuid. rewrite Hu. intros Hin.
      by apply Hus, (proj1 (drained_mem a c uuid None)).
    - intros f. rewrite Hf. intros Hin.
      by apply Hfns, (proj2 (drained_mem a c (r_uuid r) f)).
    - intros uuid s. rewrite Hcc.
      destruct (opt_mem (r_uuid r) (uuids (ls_state σ))) eqn:Hid; cbn [orb].
      + intros [[-> ->]|Hin]%dict_elem_set; [|by apply Hseen].
        by rewrite (Hus _ Hid).
      + destruct (name_mem (r_friendly_name r)
                    (friendly_names (ls_state σ)))
          eqn:Hname; [|by apply Hseen].
        intros [[-> ->]|Hin]%dict_elem_set; [|by apply Hseen].
        rewrite Hfn, (Hfns _ Hname). apply orb_true_r.
    - intros uuid Hwanted. specialize (Hkept uuid Hwanted).
      rewrite Hu, Hcc. apply orb_true_iff.
      apply orb_true_iff in Hkept as [Hrem|Hrec].
      + destruct (decide (uuid = r_uuid r)) as [->|Hne].
        * right. rewrite Hrem. cbn [orb]. apply dict_mem_set_eq.
        * left. by apply (drained_mem_ne a c).
      + right. destruct (opt_mem (r_uuid r) (uuids (ls_state σ))
                         || name_mem (r_friendly_name r)
                              (friendly_names (ls_state σ)));
          [|by rewrite Hmem].
        destruct (decide (uuid = r_uuid r)) as [->|Hne];
          [apply dict_mem_set_eq|].
        replace (dict_mem uuid (dict_set (r_uuid r) service seen))
          with (dict_mem uuid seen); [by rewrite Hmem|].
        unfold dict_mem. by rewrite dict_get_set_ne. }
  destruct Hinv as (_ & _ & Hsound & Hkept). by split.
Qed.

End ListedSoundness.

Section ConnectingSoundness.
Context {UUID : Type} `{!Runtime UUID} {Chromecast : Type}.
Implicit Types (ev : Event) (evs : list Event).
Implicit Types
  (events : list (Event * Connector (UUID := UUID) (Chromecast := Chromecast))).

Lemma get_listed_registry_ok fns (us : option (list UUID)) events :
  registry_ok (services (c_listener (get_listed_chromecasts fns us events))).
Proof.
  induction events as [|[ev connect] events IH] using rev_ind.
  - apply registry_ok_nil.
  - rewrite get_listed_snoc, get_listed_step_listener. by apply deliver_ok.
Qed.

(** X13. [get_listed_chromecasts] connects sparingly and returns only what
    it connected: it makes at most one connection attempt per add event
    that resolves, at least one per client in its result, and every client
    in the result was returned by a connection made, at one of the
    events, to a record of the identity it is stored under. *)
Theorem get_listed_is_sound fns (us : option (list UUID)) events :
  c_attempts (get_listed_chromecasts fns us events)
  ≤ length (announced (UUID := UUID) events.*1)
  ∧ length (cc_list (c_state (get_listed_chromecasts fns us events)))
    ≤ c_attempts (get_listed_chromecasts fns us events)
  ∧ ∀ uuid cast,
      (uuid, cast) ∈ cc_list (c_state (get_listed_chromecasts fns us events)) →
      ∃ ev connect service,
        (ev, connect) ∈ events
        ∧ item1 service = uuid
        ∧ connect service = Ret cast.
Proof.
  induction events as [|[ev connect] events IH] using rev_ind.
  { split_and!; [done|done|]. intros ?? H. by apply elem_of_nil in H. }
  destruct IH as (Hle & Hlen & Hprov).
  assert (Hprov' : ∀ uuid cast,
            (uuid, cast)
            ∈ cc_list (c_state (get_listed_chromecasts fns us events)) →
            ∃ ev0 connect0 service,
              (ev0, connect0) ∈ events ++ [(ev, connect)]
              ∧ item1 service = uuid
              ∧ connect0 service = Ret cast).
  { intros uuid cast (ev0 & c0 & s0 & Hin & H1 & H2)%Hprov.
    exists ev0, c0, s0. split; [|done]. apply elem_of_app. by left. }
  clear Hprov.
  rewrite get_listed_snoc, fmap_app, announced_app, length_app.
  cbn [fmap list_fmap fst].
  pose proof (get_listed_registry_ok fns us (events ++ [(ev, connect)]))
    as Hok.
  rewrite get_listed_snoc, get_listed_step_listener in Hok.
  set (c := get_listed_chromecasts fns us events) in *.
  pose proof (get_listed_step_spec c ev connect
                (get_listed_shaped fns us events)) as Hstep.
  destruct ev as [zconf typ name|zconf typ name|typ name];
    [|destruct Hstep as [-> ->]; cbn; split_and!; [lia|done|done]
     |destruct Hstep as [-> ->]; cbn; split_and!; [lia|done|done]].
  cbn [announced] in *.
  destruct (resolved (UUID := UUID) zconf) as [r|] eqn:Hres;
    [|destruct Hstep as [-> ->]; cbn; split_and!; [lia|done|done]].
  destruct Hstep as (service & Hget & Hfn & ->).
  assert (Hid : item1 service = r_uuid r).
  { apply dict_get_Some_elem in Hget. by apply Hok in Hget as [? _]. }
  unfold after_callback. cbn [c_state c_attempts fst snd length].
  rewrite (get_listed_callback_cases connect _ _ name _ service Hget).
  destruct ((opt_mem (r_uuid r) (uuids (c_state c))
             || name_mem (item3 service) (friendly_names (c_state c)))
            && negb (dict_mem (r_uuid r) (cc_list (c_state c)))) eqn:Hcase.
  - destruct (connect service) as [cast|e] eqn:Hconn; cbn [state attempts].
    + destruct (criteria_signal_drained (r_uuid r, item3 service)
                  (set_cc_list (dict_set (r_uuid r) cast
                                  (cc_list (c_state c))) (c_state c)))
        as [_ ->].
      cbn [cc_list set_cc_list]. rewrite dict_set_length.
      split_and!.
      * lia.
      * destruct (dict_mem (r_uuid r) (cc_list (c_state c))); lia.
      * intros uuid cast' [[-> ->]|Hin]%dict_elem_set; [|by apply Hprov'].
        exists (AddService zconf typ name), connect, service.
        split; [|done]. apply elem_of_app. right. apply list_elem_of_here.
    + split_and!; [lia|lia|done].
  - cbn [state attempts].
    destruct (criteria_signal_drained (r_uuid r, item3 service) (c_state c))
      as [_ ->].
    split_and!; [lia|lia|done].
Qed.

End ConnectingSoundness.

(** * Properties of the client factories *)

Section BlockingFacts.
Context {UUID : Type} `{!Runtime UUID} {Chromecast : Type}.
Implicit Types (connect : Connector (UUID := UUID) (Chromecast := Chromecast)).

(** The client of a record, when the connection to it succeeds. *)
Lemma connect_all_connected connect (ds : list (Service (UUID := UUID))) :
  (∀ s, s ∈ ds →
     (∃ cast, connect s = Ret cast)
     ∨ connect s = Raise ChromecastConnectionError) →
  connect_all connect ds
  = Ret (omap (λ s, match connect s with
                    | Ret cast => Some cast
                    | Raise _ => None
                    end) ds).
Proof.
  induction ds as [|s ds IH]; intros Hall; [done|].
  cbn [connect_all omap list_omap].
  rewrite IH by (intros s' Hs'; apply Hall; by apply list_elem_of_further).
  destruct (Hall s (list_elem_of_here _ _)) as [[cast ->]| ->]; done.
Qed.

(** X14. Blocking [get_chromecasts]: when every connection either succeeds
    or fails with a connection error, the call returns the clients of
    exactly the discovered records that connected, in registry order; it
    ignores [callback] altogether. *)
Theorem blocking_returns_connected {F : Type} (callback : PyArg F)
    (events : list Event) connect
    (Hconn : ∀ s, s ∈ (discover_chromecasts (UUID := UUID) None events).1 →
                  (∃ cast, connect s = Ret cast)
                  ∨ connect s = Raise ChromecastConnectionError) :
  get_chromecasts true callback events connect
  = (Ret (Casts (omap (λ s, match connect s with
                            | Ret cast => Some cast
                            | Raise _ => None
                            end)
                   (discover_chromecasts (UUID := UUID) None events).1)),
     [NewCastListener; NewZeroconf; StartDiscovery]).
Proof.
  unfold get_chromecasts.
  destruct (discover_chromecasts (UUID := UUID) None events)
    as [ds started] eqn:E.
  cbn [fst] in Hconn. rewrite (connect_all_connected connect ds Hconn).
  unfold discover_chromecasts in E. by injection E as <- <-.
Qed.

End BlockingFacts.

Section HostFacts.
Variable inet_ntoa : list Byte.byte → result string.
Variable lower : string → string.

(** X15. [get_host_from_service_info] returns a host and a port together
    or neither; a port it returns is the service's own and is not zero;
    and it raises only what [inet_ntoa] raises on the first address. With
    no service info, no port or a zero port, or neither server name nor
    address, it returns [(None, None)]. *)
Theorem host_and_port_together (service_info : option AddressInfo) :
  match get_host_from_service_info inet_ntoa lower service_info with
  | Ret (host, port) =>
      (host = None ↔ port = None)
      ∧ (port = None
         ↔ match service_info with
           | None => True
           | Some si =>
               truthy_port (si_port si) = false
               ∨ (truthy_str (si_server si) = false ∧ si_addresses si = [])
           end)
      ∧ (∀ si, service_info = Some si → port ≠ None →
               port = si_port si ∧ port ≠ Some 0%Z)
  | Raise e =>
      ∃ si a rest,
        service_info = Some si
        ∧ si_addresses si = a :: rest
        ∧ inet_ntoa a = Raise e
  end.
Proof.
  destruct service_info as [[port server addrs]|]; cbn.
  2:{ split_and!; [done|done|]. by intros ? [=]. }
  destruct port as [p|]; cbn.
  2:{ split_and!; [done| |by intros ? _ []]. split; [by left|done]. }
  destruct (p =? 0)%Z eqn:Hp; cbn.
  { split_and!; [done| |by intros ? _ []]. split; [by left|done]. }
  apply Z.eqb_neq in Hp.
  destruct addrs as [|a rest]; cbn.
  - destruct server as [[|c s]|]; cbn.
    + split_and!; [done| |by intros ? _ []]. split; [by right|done].
    + split_and!; [done| |].
      * split; [done|]. by intros [[=]|[[=] _]].
      * intros ? [= <-] _. split; [done|]. intros [= ->]. done.
    + split_and!; [done| |by intros ? _ []]. split; [by right|done].
  - rewrite orb_true_r. destruct (inet_ntoa a) as [host|e] eqn:Ha.
    + split_and!; [done| |].
      * split; [done|]. by intros [[=]|[_ [=]]].
      * intros ? [= <-] _. split; [done|]. intros [= ->]. done.
    + by exists {| si_port := Some p; si_server := server;
                   si_addresses := a :: rest |}, a, rest.
Qed.

(** X16. An address wins over the server name: when the service has an
    address, the result does not depend on its server name; without an
    address the host is the lower-cased server name. *)
Theorem address_beats_server (si : AddressInfo) :
  (si_addresses si ≠ [] →
   ∀ server',
     get_host_from_service_info inet_ntoa lower (Some si)
     = get_host_from_service_info inet_ntoa lower
         (Some {| si_port := si_port si;
                  si_server := server';
                  si_addresses := si_addresses si |}))
  ∧ (si_addresses si = [] →
     ∀ host port,
       get_host_from_service_info inet_ntoa lower (Some si)
       = Ret (Some host, port) →
       ∃ server, si_server si = Some server ∧ host = lower server).
Proof.
  destruct si as [port server addrs]. cbn [si_addresses si_port si_server].
  split.
  - intros Hne server'. destruct addrs as [|a rest]; [done|].
    cbn. by rewrite !orb_true_r.
  - intros -> host p. cbn.
    destruct (truthy_port port); cbn; [|done].
    destruct server as [[|c s]|]; cbn; try done.
    intros [= <- <-]. by eexists.
Qed.

End HostFacts.

Section FactoryFacts.
Context {UUID : Type} `{!Runtime UUID} {Chromecast : Type}.
Variable lower : string → string.
Variable CAST_TYPES : gmap string string.
Variable CAST_MANUFACTURERS : gmap string string.
Variable CAST_TYPE_CHROMECAST : string.

(** X17. [Chromecast.__init__] raises [ChromecastConnectionError] at its
    device check exactly when it is given no device and the status fetch
    returns none. Otherwise it keeps the host, its port is never 0 (8009
    replaces a missing or zero port), and a device given without a
    fetched status is kept as it is. A device built by the factories, from
    a record with a non-empty model name and a friendly name, is kept as
    it is whatever status is fetched. *)
Theorem constructor_device_check (host : option string) (port : option Z)
    (device dev_status : option (DeviceStatus (UUID := UUID))) :
  (Chromecast_init host port device dev_status
   = Raise ChromecastConnectionError
   ↔ device = None ∧ dev_status = None)
  ∧ (∀ e, Chromecast_init host port device dev_status = Raise e →
          e = ChromecastConnectionError)
  ∧ (∀ a, Chromecast_init host port device dev_status = Ret a →
          at_host a = host
          ∧ at_port a ≠ 0%Z
          ∧ (∀ p, port = Some p → p ≠ 0%Z → at_port a = p)
          ∧ (truthy_port port = false → at_port a = 8009%Z)
          ∧ (∀ d, device = Some d → dev_status = None → at_device a = d)
          ∧ (∀ friendly_name model_name uuid,
               device = Some (device_of lower CAST_TYPES CAST_MANUFACTURERS
                                CAST_TYPE_CHROMECAST (Some friendly_name)
                                model_name uuid) →
               friendly_name ≠ "" → model_name ≠ "" →
               CAST_TYPE_CHROMECAST ≠ "" →
               (∀ m t, CAST_TYPES !! m = Some t → t ≠ "") →
               (∀ m t, CAST_MANUFACTURERS !! m = Some t → t ≠ "") →
               device = Some (at_device a))).
Proof.
  unfold Chromecast_init. split_and!.
  - destruct device, dev_status; split; try done; by intros [? ?].
  - intros e. by destruct device, dev_status; intros [=].
  - intros a Ha.
    assert (Hport : at_port a = port_or_default port ∧ at_host a = host).
    { destruct device, dev_status; try done; by injection Ha as <-. }
    destruct Hport as [Hport Hhost]. split_and!; [done| | | | |].
    + rewrite Hport. unfold port_or_default.
      destruct port as [p|]; [|done].
      destruct (p =? 0)%Z eqn:Hp; [done|]. by apply Z.eqb_neq in Hp.
    + intros p -> Hp. rewrite Hport. cbn.
      by rewrite (proj2 (Z.eqb_neq p 0) Hp).
    + rewrite Hport. destruct port as [p|]; [|done]. cbn.
      rewrite negb_false_iff. by intros ->.
    + intros d -> ->. by injection Ha as <-.
    + intros friendly_name model_name uuid -> Hfn Hmn Hct Htypes Hmans.
      destruct dev_status as [ds|]; injection Ha as <-; [|done].
      f_equal. unfold merge_status, device_of, or_str, or_some.
      cbn [ds_friendly_name ds_model_name ds_manufacturer ds_uuid
           ds_cast_type].
      assert (Hs : ∀ s, s ≠ "" → truthy_str (Some s) = true)
        by (by intros [|??]).
      rewrite !Hs; [done| | |done|done].
      * destruct (CAST_TYPES !! lower model_name) eqn:E; cbn; [|done].
        by eapply Htypes.
      * destruct (CAST_MANUFACTURERS !! lower model_name) eqn:E; cbn;
          [by eapply Hmans|done].
Qed.

End FactoryFacts.

Section EscapingFacts.
Context {UUID : Type} `{!Runtime UUID} {Chromecast : Type}.
Variable lower : string → string.
Variable CAST_TYPES : gmap string string.
Variable CAST_MANUFACTURERS : gmap string string.
Variable CAST_TYPE_CHROMECAST : string.
Implicit Types
  (events : list (Event * Connector (UUID := UUID) (Chromecast := Chromecast))).

Lemma add_service_record {CB : Type} zconf typ name
    (l : CastListener (UUID := UUID) (CB := CB)) (r : Resolved (UUID := UUID)) :
  resolved zconf = Some r →
  ∃ names uuid,
    dict_get (r_uuid r) (services (listener (add_service zconf typ name l)))
    = Some (Service6 names uuid (r_model_name r) (r_friendly_name r)
              (r_host r) (r_port r)).
Proof.
  intros Hres. unfold add_service.
  destruct (add_update_resolved zconf typ name (add_callback l) l r Hres)
    as [sent ->].
  cbn [listener set_services services]. rewrite merge_service_get.
  by eexists _, _.
Qed.

(** X19. A wanted device announced without the [md] property has no model
    name, and building its client raises [AttributeError] before any
    connection is made. [get_listed_chromecasts] does not catch it: the
    error reaches the announcement thread, and the result, the remaining
    criteria and the completion signal stay as they were. *)
Theorem missing_model_name_escapes fns (us : option (list UUID)) before
    zconf typ name
    (construct : Constructor (UUID := UUID) (Chromecast := Chromecast))
    (r : Resolved (UUID := UUID))
    (Hres : resolved zconf = Some r)
    (Hmodel : r_model_name r = None)
    (Hmatch :
       opt_mem (r_uuid r)
         (uuids (c_state (get_listed_chromecasts fns us before)))
       || name_mem (r_friendly_name r)
            (friendly_names (c_state (get_listed_chromecasts fns us before)))
       = true)
    (Hnew :
       dict_mem (r_uuid r)
         (cc_list (c_state (get_listed_chromecasts fns us before))) = false) :
  get_listed_chromecasts fns us
    (before
     ++ [(AddService zconf typ name,
          get_chromecast_from_service lower CAST_TYPES CAST_MANUFACTURERS
            CAST_TYPE_CHROMECAST construct)])
  = {| c_listener :=
         listener (add_service zconf typ name
                     (c_listener (get_listed_chromecasts fns us before)));
       c_state := c_state (get_listed_chromecasts fns us before);
       c_attempts := c_attempts (get_listed_chromecasts fns us before) + 1;
       c_escaped := c_escaped (get_listed_chromecasts fns us before)
                    ++ [OtherError "AttributeError"] |}.
Proof.
  etrans;
    [exact (get_listed_snoc fns us before
              (AddService zconf typ name,
               get_chromecast_from_service lower CAST_TYPES
                 CAST_MANUFACTURERS CAST_TYPE_CHROMECAST construct))|].
  pose proof (get_listed_step_spec (get_listed_chromecasts fns us before)
                (AddService zconf typ name)
                (get_chromecast_from_service lower CAST_TYPES
                   CAST_MANUFACTURERS CAST_TYPE_CHROMECAST construct)
                (get_listed_shaped fns us before)) as Hstep.
  cbn match in Hstep. rewrite Hres in Hstep.
  destruct Hstep as (service & Hget & Hfn & Hstep).
  etrans; [exact Hstep|]. clear Hstep.
  destruct (add_service_record zconf typ name
              (c_listener (get_listed_chromecasts fns us before)) r Hres)
    as (names & uuid & Hrec).
  cbn [deliver] in Hget. rewrite Hrec in Hget. injection Hget as <-.
  unfold after_callback. cbn [c_state c_attempts c_escaped fst snd deliver].
  rewrite (get_listed_callback_cases _ _ _ name _ _ Hrec).
  cbn [item3]. rewrite Hmatch, Hnew, Hmodel. done.
Qed.

Lemma internal_callback_cases
    (connect : Connector (UUID := UUID) (Chromecast := Chromecast))
    (l : CastListener (UUID := UUID) (CB := unit)) uuid name service :
  dict_get uuid (services l) = Some service →
  internal_callback connect l uuid name
  = match connect service with
    | Ret cast => Ret (Some cast)
    | Raise e =>
        if exn_eqb e ChromecastConnectionError then Ret None else Raise e
    end.
Proof. intros Hget. unfold internal_callback. by rewrite Hget. Qed.

Lemma after_internal_listener
    (l : CastListener (UUID := UUID) (CB := unit))
    (connect : Connector (UUID := UUID) (Chromecast := Chromecast))
    (c : Streaming (UUID := UUID) (Chromecast := Chromecast)) calls :
  s_listener c = l →
  s_listener (foldl (after_internal_callback l connect) c calls) = l.
Proof.
  revert c. induction calls as [|call calls IH]; intros c Hc; [done|].
  cbn [foldl]. apply IH. unfold after_internal_callback.
  by destruct (internal_callback connect l call.1 call.2) as [[cast|]|e].
Qed.

Lemma streaming_snoc events x :
  streaming_session (events ++ [x])
  = streaming_step (streaming_session events) x.
Proof. unfold streaming_session. by rewrite foldl_app. Qed.

Lemma streaming_shaped events :
  session_shaped (s_listener (streaming_session events)).
Proof.
  induction events as [|[ev connect] events IH] using rev_ind; [done|].
  rewrite streaming_snoc. unfold streaming_step.
  rewrite after_internal_listener by done.
  by apply session_shaped_deliver.
Qed.

(** X20. The streaming mode forwards without remembering: each add event
    that resolves leads to at most one device forwarded to the caller's
    callback; when every connection succeeds, exactly one per such event,
    also for an identity that was forwarded before; when every connection
    fails with a connection error, none. *)
Theorem streaming_forwards events :
  length (s_forwarded (streaming_session events))
  ≤ length (announced (UUID := UUID) events.*1)
  ∧ ((∀ ev connect service, (ev, connect) ∈ events →
        ∃ cast, connect service = Ret cast) →
     length (s_forwarded (streaming_session events))
     = length (announced (UUID := UUID) events.*1))
  ∧ ((∀ ev connect service, (ev, connect) ∈ events →
        connect service = Raise ChromecastConnectionError) →
     s_forwarded (streaming_session events) = []).
Proof.
  induction events as [|[ev connect] events IH] using rev_ind;
    [by split_and!|].
  destruct IH as (Hle & Hall & Hnone).
  rewrite streaming_snoc, fmap_app, announced_app, length_app.
  cbn [fmap list_fmap fst].
  pose proof (streaming_shaped events) as Hshape.
  set (c := streaming_session events) in *.
  assert (Hall' : (∀ ev0 connect0 service,
                     (ev0, connect0) ∈ events ++ [(ev, connect)] →
                     ∃ cast, connect0 service = Ret cast) →
                  length (s_forwarded c)
                  = length (announced (UUID := UUID) events.*1)).
  { intros H. apply Hall. intros ??? Hin. eapply H, elem_of_app. by left. }
  assert (Hnone' : (∀ ev0 connect0 service,
                      (ev0, connect0) ∈ events ++ [(ev, connect)] →
                      connect0 service = Raise ChromecastConnectionError) →
                   s_forwarded c = []).
  { intros H. apply Hnone. intros ??? Hin. eapply H, elem_of_app. by left. }
  assert (Hin : (ev, connect) ∈ events ++ [(ev, connect)]).
  { apply elem_of_app. right. apply list_elem_of_here. }
  unfold streaming_step. cbn [fst snd].
  rewrite (session_callbacks ev (s_listener c) Hshape).
  destruct ev as [zconf typ name|zconf typ name|typ name];
    [|cbn; split_and!; [lia|intros H; rewrite Hall' by done; lia|done]
     |cbn; split_and!; [lia|intros H; rewrite Hall' by done; lia|done]].
  cbn [announced].
  destruct (resolved (UUID := UUID) zconf) as [r|] eqn:Hres;
    [|cbn; split_and!; [lia|intros H; rewrite Hall' by done; lia|done]].
  cbn [foldl deliver length].
  destruct (add_service_record zconf typ name (s_listener c) r Hres)
    as (names & uuid & Hrec).
  unfold after_internal_callback. cbn [fst snd s_forwarded].
  rewrite (internal_callback_cases connect _ _ name _ Hrec).
  destruct (connect _) as [cast|e] eqn:Hconn.
  - cbn [s_forwarded]. rewrite length_app. cbn [length]. split_and!.
    + lia.
    + intros H. rewrite Hall' by done. lia.
    + intros H. by rewrite (H _ _ _ Hin) in Hconn.
  - destruct (exn_eqb e ChromecastConnectionError); cbn [s_forwarded];
      (split_and!;
       [lia
       |intros H; destruct (H _ _ (Service6 names uuid (r_model_name r)
                                     (r_friendly_name r) (r_host r) (r_port r))
                              Hin) as [cast Hcast];
        by rewrite Hcast in Hconn
       |done]).
Qed.

End EscapingFacts.

Section PropertyFacts.
Context {UUID : Type} `{!Runtime UUID}.

(** X21. Property values are read alike as text and as bytes: replacing
    the bytes of a property by the text they decode to does not change
    what the announcement resolves to. *)
Theorem property_text_or_bytes (service : ServiceInfo) (key : string)
    (b : list Byte.byte) (s : string)
    (Hdecode : bytes_decode (UUID := UUID) b = Some s) :
  read_service (UUID := UUID)
    {| properties := <[key := PBytes b]> (properties service);
       parsed_addresses := parsed_addresses service;
       server := server service;
       port := port service |}
  = read_service
      {| properties := <[key := PStr s]> (properties service);
         parsed_addresses := parsed_addresses service;
         server := server service;
         port := port service |}.
Proof.
  assert (Hget : ∀ k,
    get_value (UUID := UUID)
      {| properties := <[key := PBytes b]> (properties service);
         parsed_addresses := parsed_addresses service;
         server := server service;
         port := port service |} k
    = get_value
        {| properties := <[key := PStr s]> (properties service);
           parsed_addresses := parsed_addresses service;
           server := server service;
           port := port service |} k).
  { intros k. unfold get_value. cbn [properties].
    destruct (decide (key = k)) as [->|Hne].
    - by rewrite !lookup_insert_eq, Hdecode.
    - by rewrite !lookup_insert_ne. }
  unfold read_service. by rewrite !Hget.
Qed.

End PropertyFacts.

(** ** The further properties on the sample announcements *)

Import More.

Lemma services_one_kitchen :
  services one_kitchen
  = [(U2, Service6 {[ "k1" ]} U2 (Some "Chromecast") (Some "Kitchen")
            "192.168.1.10" 8009)].
Proof. by vm_compute. Qed.

Lemma services_one_device :
  services one_device = [(U1, living_room_record {[ "n1" ]})].
Proof. by vm_compute. Qed.

Lemma add_then_remove_restores_witness :
  resolved living_room = Some living_room_resolved
  ∧ dict_get (r_uuid living_room_resolved) (services one_kitchen) = None
  ∧ (∀ uuid s, (uuid, s) ∈ services one_kitchen → "n1" ∉ item0 s)
  ∧ services
      (listener (remove_service typ "n1"
                   (listener (add_service living_room typ "n1" one_kitchen))))
    = services one_kitchen.
Proof.
  assert (Hres : resolved living_room = Some living_room_resolved)
    by (by vm_compute).
  assert (Hnew : dict_get (r_uuid living_room_resolved) (services one_kitchen)
                 = None) by (by vm_compute).
  assert (Hname : ∀ uuid s, (uuid, s) ∈ services one_kitchen →
                            "n1" ∉ item0 s).
  { intros uuid s. rewrite services_one_kitchen.
    intros [= -> ->]%list_elem_of_singleton. cbn [item0].
    apply (bool_decide_unpack _). by vm_compute. }
  split; [exact Hres|]. split; [exact Hnew|]. split; [exact Hname|].
  apply (add_then_remove_restores living_room typ "n1" one_kitchen
           living_room_resolved Hres Hnew Hname).
Defined.

Lemma repeated_announcement_is_idempotent_witness :
  resolved living_room = Some living_room_resolved
  ∧ services
      (listener (_add_update_service living_room typ "n1" (Some 3)
                   (listener (_add_update_service living_room typ "n1"
                                (Some 1) one_kitchen))))
    = services (listener (_add_update_service living_room typ "n1" (Some 1)
                            one_kitchen)).
Proof.
  assert (Hres : resolved living_room = Some living_room_resolved)
    by (by vm_compute).
  split; [exact Hres|].
  apply (repeated_announcement_is_idempotent living_room typ "n1" (Some 1)
           (Some 3) one_kitchen living_room_resolved Hres).
Defined.

Lemma resolved_announcement_entry_witness :
  registry_ok (services one_device)
  ∧ resolved living_room = Some living_room_resolved
  ∧ dict_get U1
      (services (listener (_add_update_service living_room typ "n2" (Some 3)
                             one_device)))
    = Some (Service6 (names_of one_device U1 ∪ {[ "n2" ]}) U1
              (Some "Chromecast") (Some "Living Room") "192.168.1.10" 8009).
Proof.
  assert (Hok : registry_ok (services one_device)).
  { rewrite services_one_device. split.
    - apply NoDup_singleton.
    - intros uuid s [= -> ->]%list_elem_of_singleton. split; [done|].
      apply (bool_decide_unpack _). by vm_compute. }
  assert (Hres : resolved living_room = Some living_room_resolved)
    by (by vm_compute).
  split; [exact Hok|]. split; [exact Hres|].
  apply (resolved_announcement_entry living_room typ "n2" (Some 3) one_device
           living_room_resolved Hok Hres).
Defined.

Lemma announcement_without_identity_witness :
  (∀ i, i < 1 → late anonymous i = Answer None)
  ∧ 1 < 4
  ∧ late anonymous 1 = Answer (Some anonymous)
  ∧ (get_value (UUID := N) anonymous "id" = Ret None
     ∨ get_value (UUID := N) anonymous "id" = Ret (Some ""))
  ∧ _add_update_service (late anonymous) typ "n1" (Some 1) one_device
    = {| listener := one_device;
         trace := [GetServiceInfo typ "n1"; GetServiceInfo typ "n1"];
         raised := None |}.
Proof.
  assert (Hnone : ∀ i, i < 1 → late anonymous i = Answer None).
  { intros i Hi. assert (i = 0) as -> by lia. reflexivity. }
  assert (Hk : 1 < 4) by lia.
  assert (Hans : late anonymous 1 = Answer (Some anonymous)) by reflexivity.
  assert (Hid : get_value (UUID := N) anonymous "id" = Ret None
                ∨ get_value (UUID := N) anonymous "id" = Ret (Some ""))
    by (left; by vm_compute).
  repeat (split; [assumption|]).
  apply (announcement_without_identity (late anonymous) typ "n1" (Some 1)
           one_device 1 anonymous Hnone Hk Hans Hid).
Defined.

(** Without identity and with a model name that does not decode, the
    decoding error leaves the method. *)
Lemma undecodable_model_example :
  get_value (UUID := N) garbled "id" = Ret None
  ∧ get_value (UUID := N) garbled "md" = Raise UnicodeDecodeError
  ∧ _add_update_service (answers garbled) typ "n1" (Some 1) one_device
    = {| listener := one_device;
         trace := [GetServiceInfo typ "n1"];
         raised := Some UnicodeDecodeError |}.
Proof. split_and!; by vm_compute. Qed.

Lemma malformed_identity_raises_witness :
  (∀ i, i < 0 → answers malformed i = Answer None)
  ∧ 0 < 4
  ∧ answers malformed 0 = Answer (Some malformed)
  ∧ get_value (UUID := N) malformed "id" = Ret (Some "not-a-uuid")
  ∧ "not-a-uuid" ≠ ""
  ∧ UUID_of_hex (UUID := N) "not-a-uuid" = None
  ∧ _add_update_service (answers malformed) typ "n1" (Some 1) one_device
    = {| listener := one_device;
         trace := [GetServiceInfo typ "n1"];
         raised := Some ValueError |}.
Proof.
  assert (Hnone : ∀ i, i < 0 → answers malformed i = Answer None)
    by (intros i Hi; lia).
  assert (Hk : 0 < 4) by lia.
  assert (Hans : answers malformed 0 = Answer (Some malformed))
    by reflexivity.
  assert (Hid : get_value (UUID := N) malformed "id" = Ret (Some "not-a-uuid"))
    by (by vm_compute).
  assert (Hhex : "not-a-uuid" ≠ "") by done.
  assert (Hbad : UUID_of_hex (UUID := N) "not-a-uuid" = None)
    by (by vm_compute).
  repeat (split; [assumption|]).
  apply (malformed_identity_raises (answers malformed) typ "n1" (Some 1)
           one_device 0 malformed "not-a-uuid" Hnone Hk Hans Hid Hhex Hbad).
Defined.

Lemma raising_event_changes_nothing_witness :
  raised (deliver (UUID := N) (UpdateService (answers malformed) typ "n1")
            one_device)
  = Some ValueError
  ∧ listener (deliver (UpdateService (answers malformed) typ "n1") one_device)
    = one_device.
Proof.
  assert (Hraised :
    raised (deliver (UUID := N) (UpdateService (answers malformed) typ "n1")
              one_device)
    = Some ValueError) by (by vm_compute).
  split; [exact Hraised|].
  apply (raising_event_changes_nothing
           (UpdateService (answers malformed) typ "n1") one_device ValueError
           Hraised).
Defined.

Lemma second_remove_is_silent_witness :
  NoDup (dict_keys (services one_device))
  ∧ (∀ uuid s uuid' s',
       (uuid, s) ∈ services one_device → (uuid', s') ∈ services one_device →
       "n1" ∈ item0 s → "n1" ∈ item0 s' → uuid = uuid')
  ∧ remove_service typ "n1" (listener (remove_service typ "n1" one_device))
    = {| listener := listener (remove_service typ "n1" one_device);
         trace := [];
         raised := None |}.
Proof.
  assert (Hdict : NoDup (dict_keys (services one_device)))
    by (rewrite services_one_device; apply NoDup_singleton).
  assert (Hone : ∀ uuid s uuid' s',
            (uuid, s) ∈ services one_device →
            (uuid', s') ∈ services one_device →
            "n1" ∈ item0 s → "n1" ∈ item0 s' → uuid = uuid').
  { intros uuid s uuid' s'. rewrite services_one_device.
    intros [= -> ->]%list_elem_of_singleton
           [= -> ->]%list_elem_of_singleton _ _. done. }
  split; [exact Hdict|]. split; [exact Hone|].
  apply (second_remove_is_silent typ typ "n1" one_device Hdict Hone).
Defined.

Lemma blocking_returns_connected_witness :
  (∀ s, s ∈ (discover_chromecasts (UUID := N) None
               [AddService living_room typ "n1";
                AddService kitchen typ "k1"]).1 →
        (∃ cast, connects s = Ret cast)
        ∨ connects s = Raise ChromecastConnectionError)
  ∧ get_chromecasts true (PyNone (F := N → unit))
      [AddService living_room typ "n1"; AddService kitchen typ "k1"] connects
    = (Ret (Casts (omap (λ s, match connects s with
                              | Ret cast => Some cast
                              | Raise _ => None
                              end)
                     (discover_chromecasts (UUID := N) None
                        [AddService living_room typ "n1";
                         AddService kitchen typ "k1"]).1)),
       [NewCastListener; NewZeroconf; StartDiscovery]).
Proof.
  assert (Hconn : ∀ s, s ∈ (discover_chromecasts (UUID := N) None
                              [AddService living_room typ "n1";
                               AddService kitchen typ "k1"]).1 →
                       (∃ cast, connects s = Ret cast)
                       ∨ connects s = Raise ChromecastConnectionError).
  { intros s _. left. by eexists. }
  split; [exact Hconn|].
  apply (blocking_returns_connected PyNone _ connects Hconn).
Defined.

Lemma missing_model_name_escapes_witness :
  resolved (answers no_model) = Some no_model_resolved
  ∧ r_model_name no_model_resolved = None
  ∧ c_escaped
      (get_listed_chromecasts None (Some [U1])
         ([] ++ [(AddService (answers no_model) typ "n1",
                  get_chromecast_from_service (λ s, s) cast_types
                    cast_manufacturers "cast" construct_any)]))
    = [OtherError "AttributeError"]
  ∧ uuids (c_state
             (get_listed_chromecasts None (Some [U1])
                ([] ++ [(AddService (answers no_model) typ "n1",
                         get_chromecast_from_service (λ s, s) cast_types
                           cast_manufacturers "cast" construct_any)])))
    = Some [U1].
Proof.
  assert (Hres : resolved (answers no_model) = Some no_model_resolved)
    by (by vm_compute).
  assert (Hmodel : r_model_name no_model_resolved = None) by reflexivity.
  split; [exact Hres|]. split; [exact Hmodel|].
  assert (Hmatch :
    opt_mem (r_uuid no_model_resolved)
      (uuids (c_state (get_listed_chromecasts (Chromecast := N)
                         None (Some [U1]) [])))
    || name_mem (r_friendly_name no_model_resolved)
         (friendly_names (c_state (get_listed_chromecasts (Chromecast := N)
                                     None (Some [U1]) [])))
    = true) by (by vm_compute).
  assert (Hnew :
    dict_mem (r_uuid no_model_resolved)
      (cc_list (c_state (get_listed_chromecasts (Chromecast := N)
                           None (Some [U1]) []))) = false)
    by (by vm_compute).
  pose proof (missing_model_name_escapes (λ s, s) cast_types
                cast_manufacturers "cast" None (Some [U1]) []
                (answers no_model) typ "n1" construct_any no_model_resolved
                Hres Hmodel Hmatch Hnew) as Hescapes.
  split.
  - exact (f_equal c_escaped Hescapes).
  - exact (f_equal (λ c, uuids (c_state c)) Hescapes).
Defined.

Lemma property_text_or_bytes_witness :
  bytes_decode (UUID := N) [Byte.x44; Byte.x65; Byte.x6e] = Some "Den"
  ∧ read_service (UUID := N)
      {| properties := <["fn" := PBytes [Byte.x44; Byte.x65; Byte.x6e]]>
                         (properties (info hex1 "Living Room"));
         parsed_addresses := parsed_addresses (info hex1 "Living Room");
         server := server (info hex1 "Living Room");
         port := port (info hex1 "Living Room") |}
    = read_service
        {| properties := <["fn" := PStr "Den"]>
                           (properties (info hex1 "Living Room"));
           parsed_addresses := parsed_addresses (info hex1 "Living Room");
           server := server (info hex1 "Living Room");
           port := port (info hex1 "Living Room") |}.
Proof.
  assert (Hdecode : bytes_decode (UUID := N)
                      [Byte.x44; Byte.x65; Byte.x6e] = Some "Den")
    by (by vm_compute).
  split; [exact Hdecode|].
  apply (property_text_or_bytes (info hex1 "Living Room") "fn" _ _ Hdecode).
Defined.
